(** * node-aws-swapi: the request-processing pipeline

    A shallow embedding of the fusion handler ([handlers/fusion.ts]), the
    DynamoDB cache ([services/cacheService.ts]), the weather client
    ([services/weatherService.ts]), the rate limiter
    ([middleware/rateLimiter.ts]) and the history handler
    ([handlers/history.ts]).

    Conventions of the embedding:
    - asynchronous calls are sequential (every [await] is taken at once), so
      a handler is a function from the world before the call to its outcome
      and the world after it;
    - the external collaborators (the two HTTP providers, the two DynamoDB
      tables, [process.env], [Math.random], [uuid]) are answered by an
      environment record [Env]; the DynamoDB tables themselves are part of
      the world;
    - logging has no effect on the results and is left out;
    - a number the handlers compute with is a [JsNum]: a double of integer
      value, [NaN] or an infinity; [parseInt], sums and products round to
      the nearest double. The numbers of the providers' replies are kept
      exact, integers as [Z] and fractional readings as [Q]; the clock and
      the durations are in milliseconds and within the range of [Date],
      where the arithmetic on them is exact;
    - the two tables answer within the millisecond: only the requests to
      the HTTP providers take time;
    - strings are sequences of characters below 256 (Latin-1). *)

From Stdlib Require Import ZArith QArith Qround Qabs Lqa String Ascii.
From stdpp Require Import base option gmap strings list pretty.

Local Open Scope string_scope.
Local Open Scope Z_scope.

(** ** JavaScript primitives used by the handlers *)
Module Js.

(** A number as the handlers meet it: a double of integer value, [NaN],
    or one of the two infinities. *)
Inductive JsNum : Type :=
| Num (z : Z)
| NaN
| Infinity (negative : bool).

(** [Number.MAX_SAFE_INTEGER]. *)
Definition MAX_SAFE_INTEGER : Z := 2 ^ 53 - 1.

(** Below [2 ^ 53] in absolute value every integer is a double. *)
Definition safe_integer (z : Z) : bool := Z.abs z <=? MAX_SAFE_INTEGER.

(** The double nearest to an integer: 53 bits are kept, and a tie goes to
    the even one. *)
Definition round_to_double (z : Z) : Z :=
  let a := Z.abs z in
  if a <? 2 ^ 53 then z
  else
    let e := Z.log2 a - 52 in
    let q := a / 2 ^ e in
    let r := a mod 2 ^ e in
    let half := 2 ^ (e - 1) in
    let q' := if orb (half <? r) (andb (r =? half) (Z.odd q)) then q + 1 else q in
    Z.sgn z * (q' * 2 ^ e).

(** The number an integer is read as: its double, or an infinity beyond
    the largest double. *)
Definition to_double (z : Z) : JsNum :=
  let d := round_to_double z in
  if Z.abs d <? 2 ^ 1024 then Num d else Infinity (z <? 0).

Definition isNaN (n : JsNum) : bool :=
  match n with NaN => true | _ => false end.

(** Truthiness of a number: [0] and [NaN] are falsy. *)
Definition num_truthy (n : JsNum) : bool :=
  match n with Num z => negb (z =? 0) | NaN => false | Infinity _ => true end.

(** Comparisons with [NaN] are false. *)
Definition num_ge (a b : JsNum) : bool :=
  match a, b with
  | Num x, Num y => y <=? x
  | Infinity false, (Num _ | Infinity _) => true
  | (Num _ | Infinity true), Infinity true => true
  | _, _ => false
  end.

Definition num_gt (a b : JsNum) : bool :=
  match a, b with
  | Num x, Num y => y <? x
  | Infinity false, (Num _ | Infinity true) => true
  | Num _, Infinity true => true
  | _, _ => false
  end.

Definition num_lt (a b : JsNum) : bool :=
  match a, b with
  | Num x, Num y => x <? y
  | Infinity true, (Num _ | Infinity false) => true
  | Num _, Infinity false => true
  | _, _ => false
  end.

Definition num_add (a b : JsNum) : JsNum :=
  match a, b with
  | Num x, Num y => to_double (x + y)
  | Infinity s, Num _ | Num _, Infinity s => Infinity s
  | Infinity s, Infinity s' => if Bool.eqb s s' then Infinity s else NaN
  | _, _ => NaN
  end.

Definition num_mul (a b : JsNum) : JsNum :=
  match a, b with
  | Num x, Num y => to_double (x * y)
  | Infinity s, Num y | Num y, Infinity s =>
      if y =? 0 then NaN else Infinity (xorb s (y <? 0))
  | Infinity s, Infinity s' => Infinity (xorb s s')
  | _, _ => NaN
  end.

(** [Math.min(a, b)]. *)
Definition Math_min (a b : JsNum) : JsNum :=
  match a, b with
  | Num x, Num y => Num (Z.min x y)
  | NaN, _ | _, NaN => NaN
  | Infinity true, _ | _, Infinity true => Infinity true
  | Infinity false, n | n, Infinity false => n
  end.

(** [Math.round(x)]: the integer nearest to [x], halves rounded up. *)
Definition Math_round (x : Q) : Z := Qfloor (x + (1 # 2))%Q.

(** [Math.floor(x)]. *)
Definition Math_floor (x : Q) : Z := Qfloor x.

(** The shortest run of decimal digits [s], of [k] digits or more, that
    reads back as the double [a] when followed by zeros up to [n] digits;
    of two such runs the one nearer to [a]. *)
Fixpoint shortest_digits (fuel : nat) (k n a : Z) : Z * Z :=
  let p := n - k in
  let low := a / 10 ^ p in
  let fits s := round_to_double (s * 10 ^ p) =? a in
  match fuel with
  | O => (a, n)
  | S fuel' =>
      if andb (fits low) (fits (low + 1))
      then (if a - low * 10 ^ p <=? (low + 1) * 10 ^ p - a then low else low + 1, k)
      else if fits low then (low, k)
      else if fits (low + 1) then (low + 1, k)
      else shortest_digits fuel' (k + 1) n a
  end.

Definition zeros (n : Z) : string := String.concat "" (List.repeat "0" (Z.to_nat n)).

(** The text of a double [a >= 0] of integer value: all its digits below
    [2 ^ 53], then the shortest digits that read back as [a], written out
    up to 21 digits and with an exponent beyond. *)
Definition digits_to_string (a : Z) : string :=
  if a <? 2 ^ 53 then pretty a
  else
    let n0 := Z.of_nat (String.length (pretty a)) in
    let '(s0, k0) := shortest_digits 17 1 n0 a in
    let '(s, k, n) := if s0 =? 10 ^ k0 then (1, 1, n0 + 1) else (s0, k0, n0) in
    let ds := pretty s in
    if n <=? 21 then ds +:+ zeros (n - k)
    else
      match ds with
      | String c EmptyString => ds +:+ "e+" +:+ pretty (n - 1)
      | String c rest => String c ("." +:+ rest) +:+ "e+" +:+ pretty (n - 1)
      | EmptyString => ds
      end.

(** The text of a number inside a template literal. *)
Definition num_to_string (n : JsNum) : string :=
  match n with
  | Num z =>
      if z <? 0 then "-" +:+ digits_to_string (Z.abs (round_to_double z))
      else digits_to_string (round_to_double z)
  | NaN => "NaN"
  | Infinity negative => if negative then "-Infinity" else "Infinity"
  end.

(** Truthiness of a string: only the empty string is falsy. *)
Definition str_truthy (s : string) : bool :=
  match s with EmptyString => false | String _ _ => true end.

(** [o || d] for an optional string [o] (absent or empty gives [d]). *)
Definition str_or (o : option string) (d : string) : string :=
  match o with
  | Some s => if str_truthy s then s else d
  | None => d
  end.

(** The lower-case form of a character: the letters A to Z, and the
    accented capitals of Latin-1 (192 to 222, the multiplication sign at
    215 apart). *)
Definition lower_char (c : ascii) : ascii :=
  let n := nat_of_ascii c in
  if orb (andb (65 <=? n)%nat (n <=? 90)%nat)
         (andb (andb (192 <=? n)%nat (n <=? 222)%nat) (negb (n =? 215)%nat))
  then ascii_of_nat (n + 32) else c.

(** [s.toLowerCase()]. *)
Fixpoint toLowerCase (s : string) : string :=
  match s with
  | EmptyString => EmptyString
  | String c s' => String (lower_char c) (toLowerCase s')
  end.

Fixpoint startsWith (p s : string) : bool :=
  match p, s with
  | EmptyString, _ => true
  | String a p', String b s' => if Ascii.eqb a b then startsWith p' s' else false
  | String _ _, EmptyString => false
  end.

(** [s.includes(p)]. *)
Fixpoint includes (s p : string) : bool :=
  if startsWith p s then true
  else match s with
       | EmptyString => false
       | String _ s' => includes s' p
       end.

(** [l.join(sep)]. *)
Fixpoint join (sep : string) (l : list string) : string :=
  match l with
  | [] => ""
  | [x] => x
  | x :: rest => x +:+ sep +:+ join sep rest
  end.

(** [l.includes(x)] on a list of strings. *)
Definition list_includes (l : list string) (x : string) : bool :=
  existsb (String.eqb x) l.

(** White space, as [parseInt] and [trim] see it: tab to carriage
    return, the space and the no-break space. *)
Definition is_space (c : ascii) : bool :=
  let n := nat_of_ascii c in
  orb (andb (9 <=? n)%nat (n <=? 13)%nat) (orb (n =? 32)%nat (n =? 160)%nat).

Fixpoint trimStart (s : string) : string :=
  match s with
  | String c s' => if is_space c then trimStart s' else s
  | EmptyString => EmptyString
  end.

Fixpoint trimEnd (s : string) : string :=
  match s with
  | EmptyString => EmptyString
  | String c s' =>
      match trimEnd s' with
      | EmptyString => if is_space c then EmptyString else String c EmptyString
      | t => String c t
      end
  end.

(** [s.trim()]. *)
Definition trim (s : string) : string := trimEnd (trimStart s).

(** [s.split(',')]. *)
Fixpoint split_comma (s : string) : list string :=
  match s with
  | EmptyString => [EmptyString]
  | String c s' =>
      if Ascii.eqb c "," then EmptyString :: split_comma s'
      else match split_comma s' with
           | x :: rest => String c x :: rest
           | [] => [String c EmptyString]
           end
  end.

Definition is_digit (c : ascii) : bool :=
  let n := nat_of_ascii c in andb (48 <=? n)%nat (n <=? 57)%nat.

(** The longest run of digits at the start of [s], and what follows it. *)
Fixpoint take_digits (s : string) : string * string :=
  match s with
  | String c s' =>
      if is_digit c
      then let '(ds, rest) := take_digits s' in (String c ds, rest)
      else (EmptyString, s)
  | EmptyString => (EmptyString, EmptyString)
  end.

Fixpoint skip (n : nat) (s : string) : string :=
  match n, s with
  | S n', String _ s' => skip n' s'
  | _, _ => s
  end.

(** The value of a character as a digit, up to radix 36. *)
Definition digit_value (c : ascii) : option Z :=
  let n := Z.of_nat (nat_of_ascii c) in
  if andb (48 <=? n) (n <=? 57) then Some (n - 48)
  else if andb (97 <=? n) (n <=? 122) then Some (n - 87)
  else if andb (65 <=? n) (n <=? 90) then Some (n - 55)
  else None.

(** The value of the longest prefix of [s] made of digits of [radix],
    continuing from [acc]; [None] when no digit has been read. *)
Fixpoint digits_prefix (radix : Z) (acc : option Z) (s : string) : option Z :=
  match s with
  | EmptyString => acc
  | String c s' =>
      match digit_value c with
      | Some d =>
          if d <? radix
          then digits_prefix radix (Some (default 0 acc * radix + d)) s'
          else acc
      | None => acc
      end
  end.

(** [parseInt(s, radix)]; [radix = 0] stands for a call without radix.
    The integer the digits denote is read as a double. *)
Definition parseInt (s : string) (radix : Z) : JsNum :=
  let s1 := trimStart s in
  let '(sign, s2) :=
    match s1 with
    | String "-" r => (-1, r)
    | String "+" r => (1, r)
    | _ => (1, s1)
    end in
  if andb (negb (radix =? 0)) (orb (radix <? 2) (36 <? radix)) then NaN
  else
    let strip := orb (radix =? 0) (radix =? 16) in
    let r0 := if radix =? 0 then 10 else radix in
    let '(r, s3) :=
      if andb strip (orb (startsWith "0x" s2) (startsWith "0X" s2))
      then (16, match s2 with String _ (String _ t) => t | _ => s2 end)
      else (r0, s2) in
    match digits_prefix r None s3 with
    | Some v => to_double (sign * v)
    | None => NaN
    end.

End Js.
Import Js.

(** ** Data model ([types/api.ts], [services/databaseService.ts]) *)
Module Data.

(** [NormalizedCharacter], restricted to the fields the handlers read. *)
Record NormalizedCharacter : Type := {
  char_id : string;
  char_name : string;
  char_height : option Q;
  char_mass : option Q;
  char_hairColor : string;
  char_eyeColor : string;
  char_birthYear : string;
  char_gender : string;
  char_homeworld_id : string
}.

(** [NormalizedPlanet], restricted to the fields the handlers read. *)
Record NormalizedPlanet : Type := {
  planet_id : string;
  planet_name : string;
  planet_climate : list string;
  planet_terrain : list string
}.

(** [SwapiCharacter] as [normalizeCharacter] reads it; the numeric
    fields are given as [parseNumeric] returns them. *)
Record SwapiCharacter : Type := {
  sc_name : string;
  sc_height : option Q;
  sc_mass : option Q;
  sc_hair_color : string;
  sc_eye_color : string;
  sc_birth_year : string;
  sc_gender : string;
  sc_homeworld : string
}.

(** [SwapiPlanet] as the handlers use it. *)
Record SwapiPlanet : Type := {
  sp_name : string;
  sp_climate : string;
  sp_terrain : string
}.

Record WeatherCondition : Type := {
  wc_main : string;
  wc_description : string;
  wc_icon : string
}.

(** [OpenWeatherResponse], restricted to what [normalizeWeather] reads;
    an empty [ow_name] or [ow_country] stands for a missing one. *)
Record OpenWeatherResponse : Type := {
  ow_name : string;
  ow_country : string;
  ow_temp : Q;
  ow_feels_like : Q;
  ow_humidity : Z;
  ow_pressure : Z;
  ow_visibility : Z;
  ow_wind_speed : option Q;
  ow_wind_deg : option Z;
  ow_weather : list WeatherCondition
}.

Record NormalizedWeather : Type := {
  nw_location_name : string;
  nw_country : string;
  nw_temperature : Z;
  nw_feelsLike : Z;
  nw_humidity : Z;
  nw_pressure : Z;
  nw_visibility : Z;
  nw_windSpeed : Z;
  nw_windDirection : Z;
  nw_main : string;
  nw_description : string;
  nw_icon : string;
  nw_source : string;
  nw_isFallback : bool;
  nw_originalError : option string
}.

(** [ApiCallResult<T>]. *)
Record ApiCallResult (T : Type) : Type := {
  res_success : bool;
  res_data : option T;
  res_error : option string;
  res_duration : option Z;
  res_warning : option string
}.
Arguments res_success {T} _.
Arguments res_data {T} _.
Arguments res_error {T} _.
Arguments res_duration {T} _.
Arguments res_warning {T} _.

(** The [planetData] object of the fusion handler. *)
Record PlanetData : Type := {
  pd_id : string;
  pd_name : string;
  pd_climate : string;
  pd_terrain : string
}.

(** The [weatherData] object of the fusion handler (typed [any] in the
    source): a field the object literal does not set is [None]. *)
Record WeatherData : Type := {
  wd_status : option string;
  wd_message : option string;
  wd_location : option string;
  wd_country : option string;
  wd_temperature : option Z;
  wd_feelsLike : option Z;
  wd_humidity : option Z;
  wd_pressure : option Z;
  wd_windSpeed : option Z;
  wd_conditions : option string;
  wd_source : string;
  wd_isFallback : option bool
}.

Record CharacterView : Type := {
  cv_id : string;
  cv_name : string;
  cv_height : option Q;
  cv_mass : option Q;
  cv_hairColor : string;
  cv_eyeColor : string;
  cv_birthYear : string;
  cv_gender : string
}.

Record DataQuality : Type := {
  dq_character : string;
  dq_planet : string;
  dq_weather : string
}.

Record FusionInfo : Type := {
  summary : string;
  compatibility : string;
  dataQuality : DataQuality
}.

Record ProcessingTime : Type := {
  pt_character : Z;
  pt_planet : Z;
  pt_weather : Z
}.

Record FusionMeta : Type := {
  fm_source : string;
  fm_requestId : string;
  fm_version : string;
  fm_processingTime : ProcessingTime
}.

(** The [fusionedData] object: the result of one fusion. *)
Record FusionedData : Type := {
  character : CharacterView;
  homeworld : PlanetData;
  weather : WeatherData;
  fusion : FusionInfo;
  meta : FusionMeta
}.

(** What the cache table holds under [value]: the objects the two
    writers of the cache store, a fusion result or a request counter
    [{ count }]. Both are objects, hence truthy. *)
Inductive CacheValue : Type :=
| FusionObj (d : FusionedData)
| CounterObj (count : JsNum).

(** An item of the cache table: [{ cacheKey, value, ttl, createdAt }]. *)
Record CacheItem : Type := {
  ci_value : CacheValue;
  ci_ttl : Z;
  ci_createdAt : Z
}.

Record FusionRecordMeta : Type := {
  rm_requestId : string;
  rm_processingTime : Z;
  rm_cached : bool
}.

(** [FusionDataRecord]. *)
Record FusionDataRecord : Type := {
  fr_id : string;
  fr_characterId : string;
  fr_data : FusionedData;
  fr_timestamp : Z;
  fr_ttl : Z;
  fr_source : string;
  fr_metadata : FusionRecordMeta
}.

(** [CustomDataRecord]; its payload is kept as text. *)
Record CustomDataRecord : Type := {
  cr_id : string;
  cr_data : string;
  cr_timestamp : Z;
  cr_source : string
}.

Inductive HistoryRecord : Type :=
| FusionRec (r : FusionDataRecord)
| CustomRec (r : CustomDataRecord).

(** An item of the main table: partition key, sort key and the record. *)
Record HistoryRow : Type := {
  row_pk : string;
  row_sk : string;
  row_record : HistoryRecord
}.

End Data.
Import Data.

(** ** The world, the environment and the monad of handlers *)
Module Runtime.

(** What the weather client looks up for a planet: the name of a place,
    or, for a planet named like a member every object inherits
    ([constructor], [toString], ...), that member, which is no string. *)
Inductive Location : Type :=
| Place (name : string)
| Inherited (member : string).

(** One upstream HTTP request. *)
Inductive UpstreamCall : Type :=
| PeopleCall (id : string)
| PlanetCall (id : string)
| WeatherCall (location : Location).

(** The answer of an upstream provider and the time it took (ms). *)
Inductive HttpReply (A : Type) : Type :=
| HttpOk (a : A) (elapsed : Z)
| HttpError (message : string) (elapsed : Z).
Arguments HttpOk {A} _ _.
Arguments HttpError {A} _ _.

(** The parameters of the [ScanCommand] built by [getHistory]. *)
Record ScanInput : Type := {
  scan_limit : JsNum;
  scan_source : string;
  scan_startTime : option JsNum;
  scan_endTime : option JsNum;
  scan_startKey : option string
}.

Record ScanOutput : Type := {
  so_items : list HistoryRecord;
  so_count : Z;
  so_scannedCount : Z;
  so_lastKey : option string
}.

(** The statements of the rate limiter's [try] block at which an
    exception may surface. *)
Inductive LimiterStep : Type :=
| AtClientIp
| AtEnvConfig
| AtCacheService
| AtCacheGet
| AtCountParse
| AtLog
| AtCacheSet.

#[global] Instance LimiterStep_eq_dec : EqDecision LimiterStep.
Proof. solve_decision. Defined.

(** The state shared by all invocations: the two DynamoDB tables, the
    clock, and the logs of what has been asked of the collaborators. *)
Record World : Type := {
  cacheTable : gmap string CacheItem;
  mainTable : list HistoryRow;
  upstream : list UpstreamCall;
  scans : list ScanInput;
  clock : Z;
  draws : nat;
  ids : nat
}.

(** The behaviour of the collaborators during one invocation. *)
Record Env : Type := {
  OPENWEATHER_API_KEY : option string;
  RATE_LIMIT_REQUESTS : option string;
  RATE_LIMIT_WINDOW_MINUTES : option string;
  NODE_ENV : option string;
  http_people : string -> HttpReply SwapiCharacter;
  http_planets : string -> HttpReply SwapiPlanet;
  http_weather : Location -> HttpReply OpenWeatherResponse;
  cache_up : bool;
  main_up : bool;
  dynamo_scan : ScanInput -> list HistoryRow -> ScanOutput;
  cursor_parses : string -> bool;
  Math_random : nat -> Q;
  uuidv4 : nat -> string;
  limiter_fault : option LimiterStep
}.

Inductive Outcome (A : Type) : Type :=
| Returned (a : A)
| Thrown (message : string).
Arguments Returned {A} _.
Arguments Thrown {A} _.

(** A computation that reads and writes the world and may throw. *)
Definition M (A : Type) : Type := World -> Outcome A * World.

Definition ret {A} (a : A) : M A := fun w => (Returned a, w).

Definition bind {A B} (m : M A) (k : A -> M B) : M B :=
  fun w =>
    match m w with
    | (Returned a, w') => k a w'
    | (Thrown e, w') => (Thrown e, w')
    end.

Definition throw {A} (e : string) : M A := fun w => (Thrown e, w).

(** [try { m } catch (e) { h e }]. *)
Definition try_catch {A} (m : M A) (h : string -> M A) : M A :=
  fun w =>
    match m w with
    | (Returned a, w') => (Returned a, w')
    | (Thrown e, w') => h e w'
    end.

Definition read {A} (f : World -> A) : M A := fun w => (Returned (f w), w).

Definition modify (f : World -> World) : M unit := fun w => (Returned tt, f w).

(** [Date.now()]. *)
Definition Date_now : M Z := read clock.

Definition set_cacheTable (t : gmap string CacheItem) (w : World) : World :=
  {| cacheTable := t; mainTable := mainTable w; upstream := upstream w;
     scans := scans w; clock := clock w; draws := draws w; ids := ids w |}.

Definition set_mainTable (t : list HistoryRow) (w : World) : World :=
  {| cacheTable := cacheTable w; mainTable := t; upstream := upstream w;
     scans := scans w; clock := clock w; draws := draws w; ids := ids w |}.

Definition set_scans (l : list ScanInput) (w : World) : World :=
  {| cacheTable := cacheTable w; mainTable := mainTable w; upstream := upstream w;
     scans := l; clock := clock w; draws := draws w; ids := ids w |}.

Definition set_clock (t : Z) (w : World) : World :=
  {| cacheTable := cacheTable w; mainTable := mainTable w; upstream := upstream w;
     scans := scans w; clock := t; draws := draws w; ids := ids w |}.

Definition set_draws (n : nat) (w : World) : World :=
  {| cacheTable := cacheTable w; mainTable := mainTable w; upstream := upstream w;
     scans := scans w; clock := clock w; draws := n; ids := ids w |}.

Definition set_ids (n : nat) (w : World) : World :=
  {| cacheTable := cacheTable w; mainTable := mainTable w; upstream := upstream w;
     scans := scans w; clock := clock w; draws := draws w; ids := n |}.

(** The world after an upstream request: the request is logged, and the
    clock has moved on by the time the provider took. *)
Definition record_call (call : UpstreamCall) (elapsed : Z) (w : World) : World :=
  {| cacheTable := cacheTable w; mainTable := mainTable w;
     upstream := upstream w ++ [call]; scans := scans w;
     clock := clock w + elapsed; draws := draws w; ids := ids w |}.

Definition elapsed_of {A} (reply : HttpReply A) : Z :=
  match reply with HttpOk _ t => t | HttpError _ t => t end.

(** [httpClient.get(url)]. *)
Definition http_get {A} (call : UpstreamCall) (reply : HttpReply A) : M (HttpReply A) :=
  fun w => (Returned reply, record_call call (elapsed_of reply) w).

(** [APIGatewayProxyEvent], restricted to what the handlers read. *)
Record APIGatewayProxyEvent : Type := {
  requestId : string;
  queryStringParameters : option (gmap string string);
  path : string;
  httpMethod : string;
  sourceIp : option string
}.

End Runtime.
Import Runtime.

Notation "'let*' x ':=' m 'in' k" := (bind m (fun x => k))
  (at level 10, x pattern, m at level 200, k at level 200).

(** ** HTTP responses ([utils/response.ts]) *)
Module Response.

(** A value of the [meta] object of a response envelope. *)
Inductive MetaValue : Type :=
| MStr (s : string)
| MNum (z : Z)
| MBool (b : bool).

(** An object literal: its keys in order, with their values. *)
Definition Obj : Type := list (string * MetaValue).

Fixpoint obj_assign (o : Obj) (k : string) (v : MetaValue) : Obj :=
  match o with
  | [] => [(k, v)]
  | (k', v') :: rest =>
      if String.eqb k' k then (k', v) :: rest else (k', v') :: obj_assign rest k v
  end.

(** [{ ...base, ...extra }]. *)
Definition spread (base extra : Obj) : Obj :=
  fold_left (fun o kv => obj_assign o (fst kv) (snd kv)) extra base.

Fixpoint obj_get (o : Obj) (k : string) : option MetaValue :=
  match o with
  | [] => None
  | (k', v) :: rest => if String.eqb k' k then Some v else obj_get rest k
  end.

(** The [details] of an error: none, the [{ retryAfter }] of a rate-limit
    error, or the message of the exception behind an internal error. *)
Inductive Details : Type :=
| NoDetails
| RetryAfter (retryAfter : option Z)
| ErrorDetails (message : string).

(** The body of a response, before [JSON.stringify]. *)
Inductive Body (D : Type) : Type :=
| SuccessBody (data : D) (meta : Obj)
| ErrorBody (code message : string) (details : Details) (meta : Obj).
Arguments SuccessBody {D} _ _.
Arguments ErrorBody {D} _ _ _ _.

Record APIGatewayProxyResult (D : Type) : Type := {
  statusCode : Z;
  headers : list (string * string);
  body : Body D
}.
Arguments statusCode {D} _.
Arguments headers {D} _.
Arguments body {D} _.

Definition defaultHeaders : list (string * string) :=
  [ ("Content-Type", "application/json");
    ("Access-Control-Allow-Origin", "*");
    ("Access-Control-Allow-Headers",
     "Content-Type,X-Amz-Date,Authorization,X-Api-Key,X-Amz-Security-Token");
    ("Access-Control-Allow-Methods", "GET,POST,PUT,DELETE,OPTIONS");
    ("X-Content-Type-Options", "nosniff");
    ("X-Frame-Options", "DENY");
    ("X-XSS-Protection", "1; mode=block") ].

Definition createResponse {D} (status : Z) (b : Body D)
    (extra : list (string * string)) : APIGatewayProxyResult D :=
  {| statusCode := status; headers := defaultHeaders ++ extra; body := b |}.

(** The [meta] every envelope starts from; the time stamp is kept as
    the clock reading rather than as its ISO text. *)
Definition base_meta (now : Z) (requestId : string) : Obj :=
  [ ("timestamp", MNum now); ("requestId", MStr requestId); ("version", MStr "1.0.0") ].

Definition success {D} (data : D) (requestId : string) (cached : bool)
    (meta : Obj) (now : Z) : APIGatewayProxyResult D :=
  createResponse 200
    (SuccessBody data
       (spread (base_meta now requestId ++ [("cached", MBool cached)])%list meta))
    [].

Definition badRequest {D} (message requestId : string) (now : Z)
    : APIGatewayProxyResult D :=
  createResponse 400 (ErrorBody "BAD_REQUEST" message NoDetails (base_meta now requestId)) [].

(** [tooManyRequests] without [retryAfter], as the limiter calls it. *)
Definition tooManyRequests {D} (message requestId : string) (now : Z)
    : APIGatewayProxyResult D :=
  createResponse 429
    (ErrorBody "RATE_LIMIT_EXCEEDED" message (RetryAfter None) (base_meta now requestId)) [].

(** [internalError]: the error's message is disclosed in development only. *)
Definition internalError {D} (message requestId : string) (error : string)
    (node_env : option string) (now : Z) : APIGatewayProxyResult D :=
  createResponse 500
    (ErrorBody "INTERNAL_ERROR" message
       (if bool_decide (node_env = Some "development") then ErrorDetails error else NoDetails)
       (base_meta now requestId))
    [].

End Response.
Import Response.

(** ** The cache ([services/cacheService.ts], [utils/constants.ts]) *)
Module CacheService.

(** [CACHE_CONFIG.TTL.FUSIONED_DATA]: 30 minutes. *)
Definition FUSIONED_DATA_TTL : Z := 1800.

(** [marshall] throws on a number whose double lies beyond
    [Number.MAX_SAFE_INTEGER] on either side, and on [NaN] and the
    infinities. For a fractional reading the double is the nearest one,
    which is beyond the bound from [2 ^ 53 - 1/2] on. *)
Definition safe_number (q : Q) : bool :=
  if Qlt_le_dec (Qabs q) (inject_Z (2 ^ 53) - (1 # 2)) then true else false.

Definition marshalls_number (n : JsNum) : bool :=
  match n with
  | Num z => safe_integer z
  | _ => false
  end.

(** The numbers of a fusion result: all of them pass [marshall]. *)
Definition storable (d : FusionedData) : bool :=
  forallb (fun q => from_option safe_number true q)
    [ cv_height (character d); cv_mass (character d) ] &&
  forallb (fun z => from_option safe_integer true z)
    [ wd_temperature (weather d); wd_feelsLike (weather d); wd_humidity (weather d);
      wd_pressure (weather d); wd_windSpeed (weather d) ] &&
  forallb safe_integer
    [ pt_character (fm_processingTime (meta d)); pt_planet (fm_processingTime (meta d));
      pt_weather (fm_processingTime (meta d)) ].

(** [marshall({ cacheKey, value, ttl, createdAt })] succeeds. *)
Definition marshallable (v : CacheValue) (ttl : JsNum) (createdAt : Z) : bool :=
  match v with
  | FusionObj d => storable d
  | CounterObj count => marshalls_number count
  end && marshalls_number ttl && safe_integer createdAt.

(** [set(key, data, ttlSeconds)]: the item is written with an absolute
    expiry; a failure of [marshall] or of the store is logged and ignored. *)
Definition set (env : Env) (key : string) (data : CacheValue)
    (ttlSeconds : JsNum) : M unit :=
  let* now := Date_now in
  let ttl := num_add (Num (now / 1000)) ttlSeconds in
  let* createdAt := Date_now in
  match ttl with
  | Num t =>
      if andb (marshallable data ttl createdAt) (cache_up env)
      then modify (fun w =>
             set_cacheTable
               (<[key := {| ci_value := data; ci_ttl := t; ci_createdAt := createdAt |}]>
                  (cacheTable w)) w)
      else ret tt
  | _ => ret tt
  end.

(** [get(key)]: [None] is [null], for a missing item and for a failed read. *)
Definition get (env : Env) (key : string) : M (option CacheValue) :=
  read (fun w =>
    if cache_up env
    then match cacheTable w !! key with
         | Some item => Some (ci_value item)
         | None => None
         end
    else None).

(** [fusionKey(characterId)], that is [CACHE_CONFIG.KEYS.FUSIONED]. *)
Definition fusionKey (characterId : string) : string :=
  "fusioned:" +:+ characterId.

End CacheService.

(** ** The Star Wars client ([services/swapiService.ts]) *)
Module SwapiService.

(** The regular expression [/planets/(d+)/] tried at the start of [s]. *)
Definition planets_here (s : string) : option string :=
  if startsWith "/planets/" s
  then let '(ds, rest) := take_digits (skip 9 s) in
       if andb (str_truthy ds) (startsWith "/" rest) then Some ds else None
  else None.

(** Its first match in [s]. *)
Fixpoint planets_match (s : string) : option string :=
  match planets_here s with
  | Some ds => Some ds
  | None =>
      match s with
      | EmptyString => None
      | String _ s' => planets_match s'
      end
  end.

(** [extractPlanetId(homeworldUrl)]: Tatooine when the URL has no id. *)
Definition extractPlanetId (homeworldUrl : string) : string :=
  default "1" (planets_match homeworldUrl).

(** [parseCommaSeparated(value)]. *)
Definition parseCommaSeparated (value : string) : list string :=
  if orb (negb (str_truthy value))
         (orb (String.eqb (toLowerCase value) "unknown")
              (String.eqb (toLowerCase value) "n/a"))
  then []
  else filter (fun item => str_truthy item = true) (map trim (split_comma value)).

Definition normalizeCharacter (c : SwapiCharacter) (id : string) : NormalizedCharacter :=
  {| char_id := id;
     char_name := sc_name c;
     char_height := sc_height c;
     char_mass := sc_mass c;
     char_hairColor := sc_hair_color c;
     char_eyeColor := sc_eye_color c;
     char_birthYear := sc_birth_year c;
     char_gender := sc_gender c;
     char_homeworld_id := extractPlanetId (sc_homeworld c) |}.

Definition normalizePlanet (p : SwapiPlanet) (id : string) : NormalizedPlanet :=
  {| planet_id := id;
     planet_name := sp_name p;
     planet_climate := parseCommaSeparated (sp_climate p);
     planet_terrain := parseCommaSeparated (sp_terrain p) |}.

(** [getCharacter(characterId)]: a failed request is a result with
    [success: false], not an exception. *)
Definition getCharacter (env : Env) (characterId : string)
    : M (ApiCallResult NormalizedCharacter) :=
  let* startTime := Date_now in
  let* reply := http_get (PeopleCall characterId) (http_people env characterId) in
  let* now := Date_now in
  match reply with
  | HttpOk c _ =>
      ret {| res_success := true;
             res_data := Some (normalizeCharacter c characterId);
             res_error := None;
             res_duration := Some (now - startTime);
             res_warning := None |}
  | HttpError message _ =>
      ret {| res_success := false;
             res_data := None;
             res_error := Some ("Failed to fetch character " +:+ characterId +:+ ": " +:+ message);
             res_duration := Some (now - startTime);
             res_warning := None |}
  end.

(** [getPlanet(planetId)]. *)
Definition getPlanet (env : Env) (planetId : string)
    : M (ApiCallResult NormalizedPlanet) :=
  let* startTime := Date_now in
  let* reply := http_get (PlanetCall planetId) (http_planets env planetId) in
  let* now := Date_now in
  match reply with
  | HttpOk p _ =>
      ret {| res_success := true;
             res_data := Some (normalizePlanet p planetId);
             res_error := None;
             res_duration := Some (now - startTime);
             res_warning := None |}
  | HttpError message _ =>
      ret {| res_success := false;
             res_data := None;
             res_error := Some ("Failed to fetch planet " +:+ planetId +:+ ": " +:+ message);
             res_duration := Some (now - startTime);
             res_warning := None |}
  end.

End SwapiService.

(** ** The weather client ([services/weatherService.ts]) *)
Module WeatherService.

(** [this.apiKey]. *)
Definition apiKey (env : Env) : string := str_or (OPENWEATHER_API_KEY env) "".

Definition planetLocationMap : list (string * string) :=
  [ ("Tatooine", "Tucson,US");
    ("Alderaan", "Geneva,CH");
    ("Yavin IV", "Manaus,BR");
    ("Hoth", "Anchorage,US");
    ("Dagobah", "New Orleans,US");
    ("Bespin", "Denver,US");
    ("Endor", "Vancouver,CA");
    ("Naboo", "Rome,IT");
    ("Coruscant", "New York,US");
    ("Kamino", "Reykjavik,IS") ].

Fixpoint assoc (l : list (string * string)) (k : string) : option string :=
  match l with
  | [] => None
  | (k', v) :: rest => if String.eqb k' k then Some v else assoc rest k
  end.

(** The members an object literal inherits from [Object.prototype];
    each of them is truthy. *)
Definition inheritedMembers : list string :=
  [ "constructor"; "__defineGetter__"; "__defineSetter__"; "hasOwnProperty";
    "__lookupGetter__"; "__lookupSetter__"; "isPrototypeOf"; "propertyIsEnumerable";
    "toString"; "valueOf"; "__proto__"; "toLocaleString" ].

(** [mapPlanetToLocation(planetName)]:
    [planetLocationMap[planetName] || 'London,UK']. *)
Definition mapPlanetToLocation (planetName : string) : Location :=
  match assoc planetLocationMap planetName with
  | Some place => Place (str_or (Some place) "London,UK")
  | None =>
      if list_includes inheritedMembers planetName then Inherited planetName
      else Place "London,UK"
  end.

(** [Math.random()]: the next draw of the environment. *)
Definition random (env : Env) : M Q :=
  fun w => (Returned (Math_random env (draws w)), set_draws (S (draws w)) w).

(** The [mockData] object of [getMockWeatherData], from the eight random
    draws its fields take, in the order they are taken. *)
Definition mockData (planetName : string) (r1 r2 r3 r4 r5 r6 r7 r8 : Q)
    (error : option string) : NormalizedWeather :=
  {| nw_location_name := planetName;
     nw_country := "Galaxy Far Far Away";
     nw_temperature := Math_round (r1 * 40 - 10)%Q;
     nw_feelsLike := Math_round (r2 * 40 - 10)%Q;
     nw_humidity := Math_round (r3 * 100)%Q;
     nw_pressure := Math_round (1000 + r4 * 50)%Q;
     nw_visibility := Math_round (r5 * 10000)%Q;
     nw_windSpeed := Math_round (r6 * 20)%Q;
     nw_windDirection := Math_round (r7 * 360)%Q;
     nw_main :=
       default "" (["Clear"; "Clouds"; "Rain"; "Mist"] !! Z.to_nat (Math_floor (r8 * 4)%Q));
     nw_description := "Simulated weather conditions";
     nw_icon := "01d";
     nw_source := "MOCK_DATA";
     nw_isFallback := true;
     nw_originalError := error |}.

(** [getMockWeatherData(planetName, duration, error)]: simulated weather,
    returned as a successful result with a warning. *)
Definition getMockWeatherData (env : Env) (planetName : string) (duration : Z)
    (error : option string) : M (ApiCallResult NormalizedWeather) :=
  let* r1 := random env in
  let* r2 := random env in
  let* r3 := random env in
  let* r4 := random env in
  let* r5 := random env in
  let* r6 := random env in
  let* r7 := random env in
  let* r8 := random env in
  ret {| res_success := true;
         res_data := Some (mockData planetName r1 r2 r3 r4 r5 r6 r7 r8 error);
         res_error := None;
         res_duration := Some duration;
         res_warning := Some "Using mock weather data - API unavailable" |}.

(** [normalizeWeather(weather, planetName)]. *)
Definition normalizeWeather (weather : OpenWeatherResponse) (planetName : string)
    : NormalizedWeather :=
  let first := head (ow_weather weather) in
  {| nw_location_name := str_or (Some (ow_name weather)) planetName;
     nw_country := str_or (Some (ow_country weather)) "Unknown";
     nw_temperature := Math_round (ow_temp weather);
     nw_feelsLike := Math_round (ow_feels_like weather);
     nw_humidity := ow_humidity weather;
     nw_pressure := ow_pressure weather;
     nw_visibility := ow_visibility weather;
     nw_windSpeed := Math_round (default 0%Q (ow_wind_speed weather) * (36 # 10))%Q;
     nw_windDirection := default 0 (ow_wind_deg weather);
     nw_main := str_or (wc_main <$> first) "Unknown";
     nw_description := str_or (wc_description <$> first) "No description";
     nw_icon := str_or (wc_icon <$> first) "01d";
     nw_source := "OPENWEATHERMAP";
     nw_isFallback := false;
     nw_originalError := None |}.

(** [getWeatherByPlanet(planetName)]: without an API key, and on any
    failure of the request, the simulated weather is returned. *)
Definition getWeatherByPlanet (env : Env) (planetName : string)
    : M (ApiCallResult NormalizedWeather) :=
  let* startTime := Date_now in
  try_catch
    (let location := mapPlanetToLocation planetName in
     if negb (str_truthy (apiKey env))
     then let* now := Date_now in
          getMockWeatherData env planetName (now - startTime) None
     else
       let* reply := http_get (WeatherCall location) (http_weather env location) in
       match reply with
       | HttpOk response _ =>
           let* now := Date_now in
           ret {| res_success := true;
                  res_data := Some (normalizeWeather response planetName);
                  res_error := None;
                  res_duration := Some (now - startTime);
                  res_warning := None |}
       | HttpError message _ => throw message
       end)
    (fun error =>
       let* now := Date_now in
       getMockWeatherData env planetName (now - startTime) (Some error)).

End WeatherService.

(** ** The history store ([services/databaseService.ts]) *)
Module DatabaseService.

(** [storeFusionData(characterId, data, requestId, processingTime)]: the
    record is put in the main table; a failure of [marshall] or of the
    store is thrown. The ids are fresh, so the put adds an item. *)
Definition storeFusionData (env : Env) (characterId : string) (d : FusionedData)
    (requestId : string) (processingTime : Z) : M FusionDataRecord :=
  let* timestamp := Date_now in
  let* id := (fun w => (Returned (uuidv4 env (ids w)), set_ids (S (ids w)) w)) in
  let* now := Date_now in
  let record :=
    {| fr_id := id;
       fr_characterId := characterId;
       fr_data := d;
       fr_timestamp := timestamp;
       fr_ttl := now / 1000 + CacheService.FUSIONED_DATA_TTL;
       fr_source := "fusion";
       fr_metadata :=
         {| rm_requestId := requestId;
            rm_processingTime := processingTime;
            rm_cached := false |} |} in
  if negb (andb (CacheService.marshallable (FusionObj d) (Num (fr_ttl record)) timestamp)
                (safe_integer processingTime))
  then throw "Number is outside the safe integers"
  else if main_up env
  then
    let* _ := modify (fun w =>
      set_mainTable
        (mainTable w ++
         [ {| row_pk := "FUSIONED#" +:+ characterId;
              row_sk := "FUSION#" +:+ pretty timestamp +:+ "#" +:+ id;
              row_record := FusionRec record |} ])%list w) in
    ret record
  else throw "Failed to store fusion data".

(** The query [getHistory] sends to the store. *)
Definition scan_of (env : Env) (limit : JsNum) (lastEvaluatedKey : option string)
    (source : string) (startTime endTime : option JsNum) : ScanInput :=
  let given (t : option JsNum) :=
    match t with
    | Some n => if num_truthy n then Some n else None
    | None => None
    end in
  {| scan_limit := limit;
     scan_source :=
       if String.eqb source "fusion" then "fusion"
       else if String.eqb source "custom" then "custom"
       else "all";
     scan_startTime := given startTime;
     scan_endTime := given endTime;
     scan_startKey :=
       match lastEvaluatedKey with
       | Some k => if andb (str_truthy k) (cursor_parses env k) then Some k else None
       | None => None
       end |}.

(** A time bound that is given passes [marshall]. *)
Definition marshalls_bound (t : option JsNum) : bool :=
  match t with
  | Some n => if num_truthy n then CacheService.marshalls_number n else true
  | None => true
  end.

(** [getHistory(options)]: one scan of the main table; a failure of
    [marshall] on a time bound, before the scan is sent, or of the store is
    thrown. *)
Definition getHistory (env : Env) (limit : JsNum) (lastEvaluatedKey : option string)
    (source : string) (startTime endTime : option JsNum) : M ScanOutput :=
  if negb (andb (marshalls_bound startTime) (marshalls_bound endTime))
  then throw "Number is outside the safe integers"
  else
    let q := scan_of env limit lastEvaluatedKey source startTime endTime in
    let* _ := modify (fun w => set_scans (scans w ++ [q])%list w) in
    if main_up env
    then read (fun w => dynamo_scan env q (mainTable w))
    else throw "Failed to retrieve history".

End DatabaseService.

(** ** The rate limiter ([middleware/rateLimiter.ts]) *)
Module RateLimiter.

Definition DEFAULT_REQUESTS_LIMIT : Z := 100.
Definition DEFAULT_WINDOW_MINUTES : Z := 60.

Record RateLimitOptions : Type := {
  requestsLimit : option Z;
  windowMinutes : option Z
}.

(** [o || d] for an optional number. *)
Definition num_or (o : option Z) (d : Z) : Z :=
  match o with
  | Some z => if z =? 0 then d else z
  | None => d
  end.

(** [process.env.X ? parseInt(process.env.X, 10) : fallback]. *)
Definition env_number (v : option string) (fallback : Z) : JsNum :=
  match v with
  | Some s => if str_truthy s then parseInt s 10 else Num fallback
  | None => Num fallback
  end.

(** [parseInt(cachedData.count, 10)]: the count is written out and read
    back. Below [10 ^ 21] the text is the decimal writing of the double;
    from there on it has an exponent, and the reading stops before it. An
    object without a numeric [count] gives [NaN]. *)
Definition parse_count (cachedData : CacheValue) : JsNum :=
  match cachedData with
  | CounterObj (Num z) =>
      if Z.abs z <? 10 ^ 21 then to_double z else parseInt (num_to_string (Num z)) 10
  | CounterObj _ => NaN
  | FusionObj _ => NaN
  end.

(** An exception surfacing at a statement of the [try] block. *)
Definition fault (env : Env) (step : LimiterStep) : M unit :=
  if bool_decide (limiter_fault env = Some step)
  then throw "rate limiter failure"
  else ret tt.

Definition rateKey (event : APIGatewayProxyEvent) : string :=
  "rate_limit:" +:+ str_or (sourceIp event) "unknown" +:+ ":" +:+
  httpMethod event +:+ ":" +:+ path event.

Definition limit_message (limit window : JsNum) : string :=
  "Rate limit exceeded. Maximum " +:+ num_to_string limit +:+
  " requests allowed per " +:+ num_to_string window +:+ " minutes.".

(** [rateLimiter(options)(handler)]. *)
Definition rateLimiter {D} (options : RateLimitOptions)
    (handler : APIGatewayProxyEvent -> M (APIGatewayProxyResult D))
    (env : Env) (event : APIGatewayProxyEvent) : M (APIGatewayProxyResult D) :=
  let requestsLimit := num_or (requestsLimit options) DEFAULT_REQUESTS_LIMIT in
  let windowMinutes := num_or (windowMinutes options) DEFAULT_WINDOW_MINUTES in
  try_catch
    (let* _ := fault env AtClientIp in
     let* _ := fault env AtEnvConfig in
     let envRequestsLimit := env_number (RATE_LIMIT_REQUESTS env) requestsLimit in
     let envWindowMinutes := env_number (RATE_LIMIT_WINDOW_MINUTES env) windowMinutes in
     let* _ := fault env AtCacheService in
     let* _ := fault env AtCacheGet in
     let* cachedData := CacheService.get env (rateKey event) in
     let* _ := fault env AtCountParse in
     let count :=
       match cachedData with
       | Some v => parse_count v
       | None => Num 0
       end in
     let* _ := fault env AtLog in
     if num_ge count envRequestsLimit
     then
       let* now := Date_now in
       ret (tooManyRequests (limit_message envRequestsLimit envWindowMinutes)
              (requestId event) now)
     else
       let ttlSeconds := num_mul envWindowMinutes (Num 60) in
       let* _ := fault env AtCacheSet in
       let* _ := CacheService.set env (rateKey event)
                   (CounterObj (num_add count (Num 1))) ttlSeconds in
       handler event)
    (fun _ => handler event).

End RateLimiter.

(** ** GET /fusion ([handlers/fusion.ts]) *)
Module Fusion.

(** [calculatePlanetWeatherCompatibility(planetClimate, weatherData)]. *)
Definition calculatePlanetWeatherCompatibility (planetClimate : string)
    (weatherData : WeatherData) : string :=
  if String.eqb (wd_source weatherData) "mock" then "unknown"
  else
    let climate := toLowerCase planetClimate in
    let temp := default 0 (wd_temperature weatherData) in
    let conditions := toLowerCase (default "" (wd_conditions weatherData)) in
    if includes climate "desert" then
      if andb (25 <? temp) (includes conditions "clear") then "perfect match"
      else if 15 <? temp then "good match"
      else "poor match"
    else if orb (includes climate "frozen") (includes climate "cold") then
      if temp <? 0 then "perfect match"
      else if temp <? 10 then "good match"
      else "poor match"
    else if includes climate "temperate" then
      if andb (15 <=? temp) (temp <=? 25) then "perfect match"
      else if andb (5 <=? temp) (temp <=? 30) then "good match"
      else "fair match"
    else if orb (includes climate "tropical") (includes climate "jungle") then
      if andb (20 <? temp)
              (match wd_humidity weatherData with Some h => 70 <? h | None => false end)
      then "perfect match"
      else if 15 <? temp then "good match"
      else "fair match"
    else "fair match".

(** [event.queryStringParameters?.character || '1']. *)
Definition characterId_of (event : APIGatewayProxyEvent) : string :=
  str_or (match queryStringParameters event with
          | Some q => q !! "character"
          | None => None
          end) "1".

(** The [planetData] the handler starts from. *)
Definition unknownPlanet (id : string) : PlanetData :=
  {| pd_id := id; pd_name := "Unknown"; pd_climate := "Unknown"; pd_terrain := "Unknown" |}.

Definition planetData_of (homeworldId : string)
    (planetResult : ApiCallResult NormalizedPlanet) : M PlanetData :=
  if res_success planetResult
  then match res_data planetResult with
       | Some planet =>
           ret {| pd_id := planet_id planet;
                  pd_name := planet_name planet;
                  pd_climate := str_or (Some (join ", " (planet_climate planet))) "Unknown";
                  pd_terrain := str_or (Some (join ", " (planet_terrain planet))) "Unknown" |}
       | None => throw "TypeError: planet is undefined"
       end
  else ret (unknownPlanet homeworldId).

(** The [weatherData] the handler starts from. *)
Definition unavailableWeather : WeatherData :=
  {| wd_status := Some "unavailable";
     wd_message := Some "Weather service temporarily unavailable";
     wd_location := None; wd_country := None; wd_temperature := None;
     wd_feelsLike := None; wd_humidity := None; wd_pressure := None;
     wd_windSpeed := None; wd_conditions := None;
     wd_source := "mock";
     wd_isFallback := None |}.

Definition weatherData_of (weatherResult : ApiCallResult NormalizedWeather)
    : M WeatherData :=
  if res_success weatherResult
  then match res_data weatherResult with
       | Some weather =>
           ret {| wd_status := None;
                  wd_message := None;
                  wd_location := Some (nw_location_name weather);
                  wd_country := Some (nw_country weather);
                  wd_temperature := Some (nw_temperature weather);
                  wd_feelsLike := Some (nw_feelsLike weather);
                  wd_humidity := Some (nw_humidity weather);
                  wd_pressure := Some (nw_pressure weather);
                  wd_windSpeed := Some (nw_windSpeed weather);
                  wd_conditions := Some (nw_description weather);
                  wd_source := nw_source weather;
                  wd_isFallback := Some (nw_isFallback weather) |}
       | None => throw "TypeError: weather is undefined"
       end
  else ret unavailableWeather.

(** The merge of the three sources. *)
Definition fusionedData_of (event : APIGatewayProxyEvent)
    (character : NormalizedCharacter) (planetData : PlanetData)
    (weatherData : WeatherData)
    (characterResult : ApiCallResult NormalizedCharacter)
    (planetResult : ApiCallResult NormalizedPlanet)
    (weatherResult : ApiCallResult NormalizedWeather) : FusionedData :=
  {| character :=
       {| cv_id := char_id character;
          cv_name := char_name character;
          cv_height := char_height character;
          cv_mass := char_mass character;
          cv_hairColor := char_hairColor character;
          cv_eyeColor := char_eyeColor character;
          cv_birthYear := char_birthYear character;
          cv_gender := char_gender character |};
     homeworld := planetData;
     weather := weatherData;
     fusion :=
       {| summary :=
            char_name character +:+ " from " +:+ pd_name planetData +:+ " - Currently " +:+
            str_or (wd_conditions weatherData) "unknown conditions";
          compatibility :=
            calculatePlanetWeatherCompatibility (pd_climate planetData) weatherData;
          dataQuality :=
            {| dq_character := "complete";
               dq_planet := if res_success planetResult then "complete" else "partial";
               dq_weather := if res_success weatherResult then "complete" else "fallback" |} |};
     meta :=
       {| fm_source := "SWAPI + OpenWeatherMap";
          fm_requestId := requestId event;
          fm_version := "1.0.0";
          fm_processingTime :=
            {| pt_character := default 0 (res_duration characterResult);
               pt_planet := default 0 (res_duration planetResult);
               pt_weather := default 0 (res_duration weatherResult) |} |} |}.

(** [baseHandler(event)]. *)
Definition baseHandler (env : Env) (event : APIGatewayProxyEvent)
    : M (APIGatewayProxyResult CacheValue) :=
  try_catch
    (let characterId := characterId_of event in
     let cacheKey := CacheService.fusionKey characterId in
     let* cachedData := CacheService.get env cacheKey in
     match cachedData with
     | Some cached =>
         let* now := Date_now in
         ret (success cached (requestId event) true
                [ ("characterId", MStr characterId); ("duration", MNum 0);
                  ("cached", MBool true) ] now)
     | None =>
         let* characterResult := SwapiService.getCharacter env characterId in
         if negb (res_success characterResult)
         then
           let* now := Date_now in
           ret (badRequest ("Character " +:+ characterId +:+ " not found or unavailable")
                  (requestId event) now)
         else
           match res_data characterResult with
           | None => throw "TypeError: character is undefined"
           | Some character =>
               let* planetResult :=
                 SwapiService.getPlanet env (char_homeworld_id character) in
               let* planetData :=
                 planetData_of (char_homeworld_id character) planetResult in
               let* weatherResult :=
                 WeatherService.getWeatherByPlanet env (pd_name planetData) in
               let* weatherData := weatherData_of weatherResult in
               let fusionedData :=
                 fusionedData_of event character planetData weatherData
                   characterResult planetResult weatherResult in
               let totalProcessingTime :=
                 default 0 (res_duration characterResult) +
                 default 0 (res_duration planetResult) +
                 default 0 (res_duration weatherResult) in
               let* _ := CacheService.set env cacheKey (FusionObj fusionedData)
                           (Num CacheService.FUSIONED_DATA_TTL) in
               let* _ :=
                 try_catch
                   (let* _ := DatabaseService.storeFusionData env characterId
                                fusionedData (requestId event) totalProcessingTime in
                    ret tt)
                   (fun _ => ret tt) in
               let* now := Date_now in
               ret (success (FusionObj fusionedData) (requestId event) false
                      [ ("characterId", MStr characterId);
                        ("duration", MNum totalProcessingTime);
                        ("stored", MBool true) ] now)
           end
     end)
    (fun error =>
       let* now := Date_now in
       ret (internalError "Failed to process fusion request" (requestId event) error
              (NODE_ENV env) now)).

(** The exported handler: 100 requests per hour. *)
Definition handler (env : Env) : APIGatewayProxyEvent -> M (APIGatewayProxyResult CacheValue) :=
  RateLimiter.rateLimiter
    {| RateLimiter.requestsLimit := Some 100; RateLimiter.windowMinutes := Some 60 |}
    (baseHandler env) env.

End Fusion.

(** ** GET /history ([handlers/history.ts]) *)
Module History.

(** [API_LIMITS.MAX_PAGE_SIZE]. *)
Definition MAX_PAGE_SIZE : Z := 100.

Record Pagination : Type := {
  pg_limit : JsNum;
  pg_count : Z;
  pg_hasNext : bool;
  pg_nextCursor : option string;
  pg_scannedCount : Z
}.

Record Filters : Type := {
  flt_source : string;
  flt_startTime : option Z;
  flt_endTime : option Z
}.

(** The [responseData] object; dates are kept as epoch milliseconds. *)
Record HistoryResponseData : Type := {
  items : list HistoryRecord;
  pagination : Pagination;
  filters : Filters
}.

(** The query parameters as the handler parses them. *)
Record Parsed : Type := {
  limit : JsNum;
  lastEvaluatedKey : option string;
  source : string;
  startTime : option JsNum;
  endTime : option JsNum
}.

(** [queryParams.x ? parseInt(queryParams.x) : undefined]. *)
Definition optional_int (v : option string) : option JsNum :=
  match v with
  | Some s => if str_truthy s then Some (parseInt s 0) else None
  | None => None
  end.

Definition parse (event : APIGatewayProxyEvent) : Parsed :=
  let queryParams := default ∅ (queryStringParameters event) in
  let parsedLimit := parseInt (str_or (queryParams !! "limit") "10") 0 in
  {| limit := if isNaN parsedLimit then Num (-1)
              else Math_min parsedLimit (Num MAX_PAGE_SIZE);
     lastEvaluatedKey :=
       match queryParams !! "cursor" with
       | Some c => if str_truthy c then Some c else None
       | None => None
       end;
     source := str_or (queryParams !! "source") "all";
     startTime := optional_int (queryParams !! "startTime");
     endTime := optional_int (queryParams !! "endTime") |}.

(** Truthiness of an optional number: [undefined], [0] and [NaN] are falsy. *)
Definition given (t : option JsNum) : bool :=
  match t with
  | Some n => num_truthy n
  | None => false
  end.

(** The three checks of the handler, in order: the message of the first
    one that fails. *)
Definition validate (p : Parsed) : option string :=
  if num_lt (limit p) (Num 1) then Some "Limit must be a positive integer"
  else if andb (str_truthy (source p))
               (negb (list_includes ["fusion"; "custom"; "all"] (source p)))
  then Some "Source must be one of: fusion, custom, all"
  else if andb (andb (given (startTime p)) (given (endTime p)))
               (match startTime p, endTime p with
                | Some a, Some b => num_gt a b
                | _, _ => false
                end)
  then Some "Start time cannot be greater than end time"
  else None.

(** [t ? new Date(t).toISOString() : null]; a time outside the range of
    [Date] throws a [RangeError]. *)
Definition iso_or_null (t : option JsNum) : M (option Z) :=
  match t with
  | Some (Num z) =>
      if z =? 0 then ret None
      else if Z.abs z <=? 8640000000000000 then ret (Some z)
      else throw "RangeError: Invalid time value"
  | Some (Infinity _) => throw "RangeError: Invalid time value"
  | _ => ret None
  end.

(** [handler(event)]. *)
Definition handler (env : Env) (event : APIGatewayProxyEvent)
    : M (APIGatewayProxyResult HistoryResponseData) :=
  try_catch
    (let p := parse event in
     match validate p with
     | Some message =>
         let* now := Date_now in
         ret (badRequest message (requestId event) now)
     | None =>
         let* result :=
           DatabaseService.getHistory env (limit p) (lastEvaluatedKey p) (source p)
             (startTime p) (endTime p) in
         let* isoStart := iso_or_null (startTime p) in
         let* isoEnd := iso_or_null (endTime p) in
         let responseData :=
           {| items := so_items result;
              pagination :=
                {| pg_limit := limit p;
                   pg_count := so_count result;
                   pg_hasNext :=
                     match so_lastKey result with
                     | Some k => str_truthy k
                     | None => false
                     end;
                   pg_nextCursor :=
                     match so_lastKey result with
                     | Some k => if str_truthy k then Some k else None
                     | None => None
                     end;
                   pg_scannedCount := so_scannedCount result |};
              filters :=
                {| flt_source := source p;
                   flt_startTime := isoStart;
                   flt_endTime := isoEnd |} |} in
         let* now := Date_now in
         ret (success responseData (requestId event) false
                [ ("count", MNum (so_count result));
                  ("source", MStr (source p));
                  ("filtered",
                   MBool (orb (orb (given (startTime p)) (given (endTime p)))
                              (negb (String.eqb (source p) "all")))) ] now)
     end)
    (fun error =>
       let* now := Date_now in
       ret (internalError "Failed to retrieve history" (requestId event) error
              (NODE_ENV env) now)).

End History.

(** ** The store's own expiry (DynamoDB time to live)

    The cache table deletes expired items by itself, at a time of its own
    choosing: an item whose [ttl] is older than the current time (in
    seconds) may disappear at any later moment. *)
Module Dynamo.

Definition expired (now : Z) (item : CacheItem) : bool :=
  ci_ttl item <? now / 1000.

(** The items the store removes in one pass over [victims]: those of
    them that have expired. *)
Definition sweep (victims : gset string) (w : World) : World :=
  set_cacheTable
    (filter (fun kv => ¬ (fst kv ∈ victims ∧ expired (clock w) (snd kv) = true))
            (cacheTable w)) w.

(** Time passing between two invocations. *)
Definition tick (dt : Z) (w : World) : World := set_clock (clock w + dt) w.

End Dynamo.

(** ** Concrete requests, used to run the model *)
Module Scenario.

Definition luke : SwapiCharacter :=
  {| sc_name := "Luke Skywalker";
     sc_height := Some (172 # 1)%Q;
     sc_mass := Some (77 # 1)%Q;
     sc_hair_color := "blond";
     sc_eye_color := "blue";
     sc_birth_year := "19BBY";
     sc_gender := "male";
     sc_homeworld := "https://swapi.dev/api/planets/1/" |}.

Definition tatooine : SwapiPlanet :=
  {| sp_name := "Tatooine"; sp_climate := "arid"; sp_terrain := "desert" |}.

Definition tucson : OpenWeatherResponse :=
  {| ow_name := "Tucson";
     ow_country := "US";
     ow_temp := (313 # 10)%Q;
     ow_feels_like := (30 # 1)%Q;
     ow_humidity := 12;
     ow_pressure := 1012;
     ow_visibility := 10000;
     ow_wind_speed := Some (25 # 10)%Q;
     ow_wind_deg := Some 180;
     ow_weather := [ {| wc_main := "Clear"; wc_description := "clear sky"; wc_icon := "01d" |} ] |}.

(** Every collaborator answers. *)
Definition env_live : Env :=
  {| OPENWEATHER_API_KEY := Some "test-key";
     RATE_LIMIT_REQUESTS := None;
     RATE_LIMIT_WINDOW_MINUTES := None;
     NODE_ENV := None;
     http_people := fun id =>
       if String.eqb id "1" then HttpOk luke 120 else HttpError "Request failed with status code 404" 80;
     http_planets := fun id =>
       if String.eqb id "1" then HttpOk tatooine 90 else HttpError "Request failed with status code 404" 70;
     http_weather := fun _ => HttpOk tucson 150;
     cache_up := true;
     main_up := true;
     dynamo_scan := fun q rows =>
       {| so_items := map row_record rows; so_count := Z.of_nat (length rows);
          so_scannedCount := Z.of_nat (length rows); so_lastKey := None |};
     cursor_parses := fun _ => true;
     Math_random := fun n => (Z.of_nat n # 10)%Q;
     uuidv4 := fun n => "id-" +:+ pretty (Z.of_nat n);
     limiter_fault := None |}.

Definition with_api_key (k : option string) (env : Env) : Env :=
  {| OPENWEATHER_API_KEY := k;
     RATE_LIMIT_REQUESTS := RATE_LIMIT_REQUESTS env;
     RATE_LIMIT_WINDOW_MINUTES := RATE_LIMIT_WINDOW_MINUTES env;
     NODE_ENV := NODE_ENV env;
     http_people := http_people env;
     http_planets := http_planets env;
     http_weather := http_weather env;
     cache_up := cache_up env;
     main_up := main_up env;
     dynamo_scan := dynamo_scan env;
     cursor_parses := cursor_parses env;
     Math_random := Math_random env;
     uuidv4 := uuidv4 env;
     limiter_fault := limiter_fault env |}.

Definition with_weather (f : Location -> HttpReply OpenWeatherResponse) (env : Env) : Env :=
  {| OPENWEATHER_API_KEY := OPENWEATHER_API_KEY env;
     RATE_LIMIT_REQUESTS := RATE_LIMIT_REQUESTS env;
     RATE_LIMIT_WINDOW_MINUTES := RATE_LIMIT_WINDOW_MINUTES env;
     NODE_ENV := NODE_ENV env;
     http_people := http_people env;
     http_planets := http_planets env;
     http_weather := f;
     cache_up := cache_up env;
     main_up := main_up env;
     dynamo_scan := dynamo_scan env;
     cursor_parses := cursor_parses env;
     Math_random := Math_random env;
     uuidv4 := uuidv4 env;
     limiter_fault := limiter_fault env |}.

Definition with_planets (f : string -> HttpReply SwapiPlanet) (env : Env) : Env :=
  {| OPENWEATHER_API_KEY := OPENWEATHER_API_KEY env;
     RATE_LIMIT_REQUESTS := RATE_LIMIT_REQUESTS env;
     RATE_LIMIT_WINDOW_MINUTES := RATE_LIMIT_WINDOW_MINUTES env;
     NODE_ENV := NODE_ENV env;
     http_people := http_people env;
     http_planets := f;
     http_weather := http_weather env;
     cache_up := cache_up env;
     main_up := main_up env;
     dynamo_scan := dynamo_scan env;
     cursor_parses := cursor_parses env;
     Math_random := Math_random env;
     uuidv4 := uuidv4 env;
     limiter_fault := limiter_fault env |}.

Definition with_stores (cache main : bool) (env : Env) : Env :=
  {| OPENWEATHER_API_KEY := OPENWEATHER_API_KEY env;
     RATE_LIMIT_REQUESTS := RATE_LIMIT_REQUESTS env;
     RATE_LIMIT_WINDOW_MINUTES := RATE_LIMIT_WINDOW_MINUTES env;
     NODE_ENV := NODE_ENV env;
     http_people := http_people env;
     http_planets := http_planets env;
     http_weather := http_weather env;
     cache_up := cache;
     main_up := main;
     dynamo_scan := dynamo_scan env;
     cursor_parses := cursor_parses env;
     Math_random := Math_random env;
     uuidv4 := uuidv4 env;
     limiter_fault := limiter_fault env |}.


Definition with_rate_env (requests window : option string) (env : Env) : Env :=
  {| OPENWEATHER_API_KEY := OPENWEATHER_API_KEY env;
     RATE_LIMIT_REQUESTS := requests;
     RATE_LIMIT_WINDOW_MINUTES := window;
     NODE_ENV := NODE_ENV env;
     http_people := http_people env;
     http_planets := http_planets env;
     http_weather := http_weather env;
     cache_up := cache_up env;
     main_up := main_up env;
     dynamo_scan := dynamo_scan env;
     cursor_parses := cursor_parses env;
     Math_random := Math_random env;
     uuidv4 := uuidv4 env;
     limiter_fault := limiter_fault env |}.

(** No OpenWeatherMap credentials. *)
Definition env_nokey : Env := with_api_key None env_live.

(** The weather provider is down. *)
Definition env_weather_down : Env :=
  with_weather (fun _ => HttpError "timeout of 10000ms exceeded" 10000) env_live.

(** The planet request fails. *)
Definition env_planet_down : Env :=
  with_planets (fun _ => HttpError "Request failed with status code 500" 60) env_live.

(** Empty tables, at some time of day. *)
Definition world0 : World :=
  {| cacheTable := ∅; mainTable := []; upstream := []; scans := [];
     clock := 1700000000000; draws := 0; ids := 0 |}.

Definition event_of (params : option (gmap string string)) : APIGatewayProxyEvent :=
  {| requestId := "req-1";
     queryStringParameters := params;
     path := "/fusion";
     httpMethod := "GET";
     sourceIp := Some "203.0.113.7" |}.

(** GET /fusion?character=1 *)
Definition fusion_luke : APIGatewayProxyEvent :=
  event_of (Some {[ "character" := "1" ]}).

(** GET /fusion *)
Definition fusion_bare : APIGatewayProxyEvent := event_of None.

(** A counter written long ago and still in the table: 100 requests
    counted, expiry at second 1000. *)
Definition stale_counter : CacheItem :=
  {| ci_value := CounterObj (Num 100); ci_ttl := 1000; ci_createdAt := 0 |}.

Definition world_stale : World :=
  {| cacheTable := {[ "rate_limit:203.0.113.7:GET:/fusion" := stale_counter ]};
     mainTable := []; upstream := []; scans := [];
     clock := 1700000000000; draws := 0; ids := 0 |}.


(** GET /history with the given query string. *)
Definition history_event (params : option (gmap string string)) : APIGatewayProxyEvent :=
  {| requestId := "req-2";
     queryStringParameters := params;
     path := "/history";
     httpMethod := "GET";
     sourceIp := Some "203.0.113.7" |}.

(** A handler that answers at once, without touching the world. *)
Definition pong : APIGatewayProxyEvent -> M (APIGatewayProxyResult CacheValue) :=
  fun event => ret (success (CounterObj (Num 0)) (requestId event) false [] 0).

Definition default_options : RateLimiter.RateLimitOptions :=
  {| RateLimiter.requestsLimit := Some 100; RateLimiter.windowMinutes := Some 60 |}.






(** The same request for character 1 from another client, later. *)
Definition fusion_luke_again : APIGatewayProxyEvent :=
  {| requestId := "req-8";
     queryStringParameters := Some {[ "character" := "1"; "verbose" := "yes" ]};
     path := "/fusion";
     httpMethod := "GET";
     sourceIp := Some "198.51.100.23" |}.

End Scenario.
Import Scenario.

(** ** The statements of the specification, as definitions *)
Module Spec.







(** The limit and the window a limiter works with: the options, their
    defaults, and the environment's overrides. *)
Definition effective_limit (options : RateLimiter.RateLimitOptions) (env : Env) : JsNum :=
  RateLimiter.env_number (RATE_LIMIT_REQUESTS env)
    (RateLimiter.num_or (RateLimiter.requestsLimit options) RateLimiter.DEFAULT_REQUESTS_LIMIT).

Definition effective_window (options : RateLimiter.RateLimitOptions) (env : Env) : JsNum :=
  RateLimiter.env_number (RATE_LIMIT_WINDOW_MINUTES env)
    (RateLimiter.num_or (RateLimiter.windowMinutes options) RateLimiter.DEFAULT_WINDOW_MINUTES).

(** The count the limiter reads for a request. *)
Definition current_count (env : Env) (event : APIGatewayProxyEvent) (w : World) : JsNum :=
  match fst (CacheService.get env (RateLimiter.rateKey event) w) with
  | Returned (Some v) => RateLimiter.parse_count v
  | _ => Num 0
  end.

(** A later invocation: its request, the environment it runs in, the
    time that has passed since the previous one, and the keys the store has
    tried to expire in between. *)
Record Later : Type := {
  later_event : APIGatewayProxyEvent;
  later_env : Env;
  later_dt : Z;
  later_victims : gset string
}.

(** Fusion requests one after the other: the answers, and the world at
    the end. *)
Fixpoint repeat_fusion (steps : list Later) (w : World)
    : list (Outcome (APIGatewayProxyResult CacheValue)) * World :=
  match steps with
  | [] => ([], w)
  | s :: rest =>
      let '(answer, w') :=
        Fusion.baseHandler (later_env s) (later_event s)
          (Dynamo.sweep (later_victims s) (Dynamo.tick (later_dt s) w)) in
      let '(answers, w'') := repeat_fusion rest w' in
      (answer :: answers, w'')
  end.

Definition elapsed (steps : list Later) : Z :=
  fold_right (fun s acc => later_dt s + acc) 0 steps.

(** The request with [character] set to [id]. *)
Definition with_character (id : string) (event : APIGatewayProxyEvent)
    : APIGatewayProxyEvent :=
  {| requestId := requestId event;
     queryStringParameters :=
       Some (<["character" := id]> (default ∅ (queryStringParameters event)));
     path := path event;
     httpMethod := httpMethod event;
     sourceIp := sourceIp event |}.

(** The result of [getPlanet] for a given reply of the provider. *)
Definition planet_result (env : Env) (id : string) : ApiCallResult NormalizedPlanet :=
  match http_planets env id with
  | HttpOk p t =>
      {| res_success := true;
         res_data := Some (SwapiService.normalizePlanet p id);
         res_error := None; res_duration := Some t; res_warning := None |}
  | HttpError message t =>
      {| res_success := false; res_data := None;
         res_error := Some ("Failed to fetch planet " +:+ id +:+ ": " +:+ message);
         res_duration := Some t; res_warning := None |}
  end.

(** The result of [getCharacter] for a reply that carries a character. *)
Definition character_ok (c : SwapiCharacter) (id : string) (t : Z)
    : ApiCallResult NormalizedCharacter :=
  {| res_success := true;
     res_data := Some (SwapiService.normalizeCharacter c id);
     res_error := None; res_duration := Some t; res_warning := None |}.

(** The [planetData] the handler derives from the planet's reply. *)
Definition planet_view (env : Env) (id : string) : PlanetData :=
  match http_planets env id with
  | HttpOk p _ =>
      {| pd_id := id;
         pd_name := sp_name p;
         pd_climate :=
           str_or (Some (join ", " (SwapiService.parseCommaSeparated (sp_climate p)))) "Unknown";
         pd_terrain :=
           str_or (Some (join ", " (SwapiService.parseCommaSeparated (sp_terrain p)))) "Unknown" |}
  | HttpError _ _ => Fusion.unknownPlanet id
  end.

(** The [weatherData] the handler derives from a weather report. *)
Definition weather_view (weather : NormalizedWeather) : WeatherData :=
  {| wd_status := None;
     wd_message := None;
     wd_location := Some (nw_location_name weather);
     wd_country := Some (nw_country weather);
     wd_temperature := Some (nw_temperature weather);
     wd_feelsLike := Some (nw_feelsLike weather);
     wd_humidity := Some (nw_humidity weather);
     wd_pressure := Some (nw_pressure weather);
     wd_windSpeed := Some (nw_windSpeed weather);
     wd_conditions := Some (nw_description weather);
     wd_source := nw_source weather;
     wd_isFallback := Some (nw_isFallback weather) |}.

(** [marshall] accepts the history record of a fusion written at time
    [now]: every number of the result, the processing time, the time
    stamp and the expiry are safe integers. *)
Definition writable (d : FusionedData) (total now : Z) : bool :=
  CacheService.marshallable (FusionObj d)
    (Num (now / 1000 + CacheService.FUSIONED_DATA_TTL)) now &&
  safe_integer total.

(** The two writes that end a fusion: the cache, then the history. *)
Definition persist (env : Env) (event : APIGatewayProxyEvent) (d : FusionedData)
    (total : Z) (w : World) : World :=
  let id := Fusion.characterId_of event in
  let w1 :=
    snd (CacheService.set env (CacheService.fusionKey id) (FusionObj d)
           (Num CacheService.FUSIONED_DATA_TTL) w) in
  snd (try_catch
         (let* _ := DatabaseService.storeFusionData env id d (requestId event) total in
          ret tt)
         (fun _ => ret tt) w1).

(** Two more requests for character 1: the same one after one minute,
    and one from another client 28 minutes later; the store tries to expire
    the entry before each. *)
Definition two_repeats : list Later :=
  [ {| later_event := fusion_luke; later_env := env_live; later_dt := 60000;
       later_victims := {[ "fusioned:1" ]} |};
    {| later_event := fusion_luke_again; later_env := env_live; later_dt := 1680000;
       later_victims := {[ "fusioned:1" ]} |} ].

(** The payload of a successful answer. *)
Definition answer_data {D} (r : Outcome (APIGatewayProxyResult D)) : option D :=
  match r with
  | Returned {| body := SuccessBody d _ |} => Some d
  | _ => None
  end.

Definition answer_status {D} (r : Outcome (APIGatewayProxyResult D)) : option Z :=
  match r with
  | Returned response => Some (statusCode response)
  | Thrown _ => None
  end.

(** The fusion result an answer carries. *)
Definition answer_fusion (r : Outcome (APIGatewayProxyResult CacheValue))
    : option FusionedData :=
  match answer_data r with
  | Some (FusionObj d) => Some d
  | _ => None
  end.

(** A time within the range of [Date], after the epoch. *)
Definition valid_time (t : Z) : bool :=
  andb (0 <=? t) (t <=? 8640000000000000).

(** A window short enough for the expiry of its counter, counted from any
    such time, to be a safe integer. *)
Definition window_writable (m : Z) : bool :=
  Z.abs (m * 60) <=? MAX_SAFE_INTEGER - 8640000000000.

(** The numbers of an answer that carries a fusion result all pass
    [marshall]: those of the result, the duration announced, and the time
    of the answer. *)
Definition answer_writable (r : Outcome (APIGatewayProxyResult CacheValue)) : bool :=
  match r with
  | Returned {| body := SuccessBody (FusionObj d) m |} =>
      CacheService.storable d &&
      match obj_get m "duration", obj_get m "timestamp" with
      | Some (MNum total), Some (MNum now) => safe_integer total && valid_time now
      | _, _ => false
      end
  | _ => false
  end.

(** What C1 is about: the source of the weather, its fallback flag, the
    rating and the weather quality of a result. *)
Definition weather_tags (d : FusionedData) : string * option bool * string * string :=
  (wd_source (weather d), wd_isFallback (weather d),
   compatibility (fusion d), dq_weather (dataQuality (fusion d))).

End Spec.
Import Spec.

(** ** The logger ([utils/logger.ts]) *)
Module Logger.

(** [LogLevel]. *)
Inductive LogLevel : Type :=
| debug
| info
| warn
| error.

Definition level_name (level : LogLevel) : string :=
  match level with
  | debug => "debug"
  | info => "info"
  | warn => "warn"
  | error => "error"
  end.

(** The [levels] table of [shouldLog], read at a name. *)
Definition levels (name : string) : option Z :=
  if String.eqb name "debug" then Some 0
  else if String.eqb name "info" then Some 1
  else if String.eqb name "warn" then Some 2
  else if String.eqb name "error" then Some 3
  else None.

(** [this.logLevel]: [process.env.LOG_LEVEL || 'info']. *)
Definition logLevel (LOG_LEVEL : option string) : string := str_or LOG_LEVEL "info".

(** [shouldLog(level)]: a threshold that is not in the table compares as
    [undefined], and the comparison is false. *)
Definition shouldLog (LOG_LEVEL : option string) (level : LogLevel) : bool :=
  match levels (level_name level), levels (logLevel LOG_LEVEL) with
  | Some mine, Some threshold => threshold <=? mine
  | _, _ => false
  end.

Definition sensitiveKeys : list string := ["authorization"; "cookie"; "x-api-key"].

(** One round of the [forEach] of [sanitizeHeaders]. *)
Definition redact (sanitized : gmap string string) (key : string) : gmap string string :=
  let once (m : gmap string string) (k : string) :=
    match m !! k with
    | Some v => if str_truthy v then <[k := "[REDACTED]"]> m else m
    | None => m
    end in
  once (once sanitized key) (toLowerCase key).

(** [sanitizeHeaders(headers)]. *)
Definition sanitizeHeaders (headers : gmap string string) : gmap string string :=
  fold_left redact sensitiveKeys headers.

End Logger.

(** ** Numbers of the Star Wars provider ([services/swapiService.ts]) *)
Module SwapiNumbers.

(** The characters [parseNumeric] keeps: digits, dot and comma. *)
Definition is_numchar (c : ascii) : bool :=
  orb (is_digit c) (orb (Ascii.eqb c ".") (Ascii.eqb c ",")).

(** [value.replace(/[^0-9.,]/g, '')]. *)
Fixpoint clean (s : string) : string :=
  match s with
  | EmptyString => EmptyString
  | String c s' => if is_numchar c then String c (clean s') else clean s'
  end.

(** [s.replace(',', '.')]: the first comma only. *)
Fixpoint comma_to_dot (s : string) : string :=
  match s with
  | EmptyString => EmptyString
  | String c s' => if Ascii.eqb c "," then String "." s' else String c (comma_to_dot s')
  end.

(** The value of a string of digits. *)
Definition digits_value (ds : string) : Z := default 0 (digits_prefix 10 None ds).

(** [parseFloat(s)] on a string of digits, dots and commas: the longest
    prefix of the form digits, or digits dot digits, with a digit somewhere;
    [None] is [NaN]. *)
Definition parseFloat (s : string) : option Q :=
  let '(whole, rest) := take_digits s in
  match rest with
  | String "." after =>
      let '(fraction, _) := take_digits after in
      if orb (str_truthy whole) (str_truthy fraction)
      then Some (inject_Z (digits_value whole) +
                 (digits_value fraction # Pos.pow 10 (Pos.of_nat (String.length fraction))))%Q
      else None
  | _ => if str_truthy whole then Some (inject_Z (digits_value whole)) else None
  end.

(** [parseNumeric(value)]. *)
Definition parseNumeric (value : string) : option Q :=
  if orb (negb (str_truthy value))
         (orb (String.eqb (toLowerCase value) "unknown")
              (String.eqb (toLowerCase value) "n/a"))
  then None
  else parseFloat (comma_to_dot (clean value)).

(** Every character of the string is a digit. *)
Fixpoint all_digits (s : string) : bool :=
  match s with
  | EmptyString => true
  | String c s' => andb (is_digit c) (all_digits s')
  end.

End SwapiNumbers.

(** ** Sequences of requests *)
Module Traffic.

(** The same request sent [n] times through a rate limiter. *)
Fixpoint requests {D} (options : RateLimiter.RateLimitOptions)
    (h : APIGatewayProxyEvent -> M (APIGatewayProxyResult D))
    (env : Env) (event : APIGatewayProxyEvent) (n : nat) (w : World)
    : list (Outcome (APIGatewayProxyResult D)) * World :=
  match n with
  | O => ([], w)
  | S k =>
      let '(answer, w') := RateLimiter.rateLimiter options h env event w in
      let '(answers, w'') := requests options h env event k w' in
      (answer :: answers, w'')
  end.

(** A handler that fails on its first call and answers from then on; it
    counts its calls in [ids]. *)
Definition flaky : APIGatewayProxyEvent -> M (APIGatewayProxyResult CacheValue) :=
  fun event w =>
    if (ids w =? 0)%nat
    then (Thrown "first call fails", set_ids 1 w)
    else (Returned (success (CounterObj (Num 0)) (requestId event) false [] 0),
          set_ids (S (ids w)) w).

(** The fusion handler gives up on a request: the cache misses and the
    character cannot be fetched. *)
Definition aborts (env : Env) (event : APIGatewayProxyEvent) (w : World) : bool :=
  let id := Fusion.characterId_of event in
  match fst (CacheService.get env (CacheService.fusionKey id) w), http_people env id with
  | Returned None, HttpError _ _ => true
  | _, _ => false
  end.

(** The value the cache holds for a request, if any. *)
Definition cached_for (env : Env) (event : APIGatewayProxyEvent) (w : World)
    : option CacheValue :=
  match fst (CacheService.get env (CacheService.fusionKey (Fusion.characterId_of event)) w) with
  | Returned v => v
  | Thrown _ => None
  end.

(** The [meta] of an answer. *)
Definition answer_meta {D} (r : Outcome (APIGatewayProxyResult D)) : Obj :=
  match r with
  | Returned {| body := SuccessBody _ m |} => m
  | Returned {| body := ErrorBody _ _ _ m |} => m
  | Thrown _ => []
  end.

(** The error an answer carries: its code, message and details. *)
Definition answer_error {D} (r : Outcome (APIGatewayProxyResult D))
    : option (string * string * Details) :=
  match r with
  | Returned {| body := ErrorBody code message details _ |} => Some (code, message, details)
  | _ => None
  end.

(** The environment with another reader of cursors. *)
Definition with_cursors (f : string -> bool) (env : Env) : Env :=
  {| OPENWEATHER_API_KEY := OPENWEATHER_API_KEY env;
     RATE_LIMIT_REQUESTS := RATE_LIMIT_REQUESTS env;
     RATE_LIMIT_WINDOW_MINUTES := RATE_LIMIT_WINDOW_MINUTES env;
     NODE_ENV := NODE_ENV env;
     http_people := http_people env;
     http_planets := http_planets env;
     http_weather := http_weather env;
     cache_up := cache_up env;
     main_up := main_up env;
     dynamo_scan := dynamo_scan env;
     cursor_parses := f;
     Math_random := Math_random env;
     uuidv4 := uuidv4 env;
     limiter_fault := limiter_fault env |}.

End Traffic.
Import Traffic.

(** * Properties *)

(** ** Numbers *)

Lemma safe_integer_bound (z : Z) :
  safe_integer z = true <-> Z.abs z <= 2 ^ 53 - 1.
Proof.
  unfold safe_integer, MAX_SAFE_INTEGER. apply Z.leb_le.
Qed.

(** A safe integer is its own double. *)
Lemma to_double_safe (z : Z) : safe_integer z = true -> to_double z = Num z.
Proof.
  intros Hsafe. apply safe_integer_bound in Hsafe.
  change (2 ^ 53) with 9007199254740992 in Hsafe.
  unfold to_double, round_to_double.
  assert (Hsmall : (Z.abs z <? 2 ^ 53) = true).
  { apply Z.ltb_lt. change (2 ^ 53) with 9007199254740992. lia. }
  rewrite Hsmall.
  assert (Hfinite : (Z.abs z <? 2 ^ 1024) = true).
  { apply Z.ltb_lt. apply Z.lt_le_trans with (2 ^ 53).
    - change (2 ^ 53) with 9007199254740992. lia.
    - apply Z.pow_le_mono_r; lia. }
  rewrite Hfinite. reflexivity.
Qed.

Lemma num_add_safe (x y : Z) :
  safe_integer (x + y) = true -> num_add (Num x) (Num y) = Num (x + y).
Proof. intros Hsafe. cbn [num_add]. exact (to_double_safe _ Hsafe). Qed.

Lemma num_mul_safe (x y : Z) :
  safe_integer (x * y) = true -> num_mul (Num x) (Num y) = Num (x * y).
Proof. intros Hsafe. cbn [num_mul]. exact (to_double_safe _ Hsafe). Qed.

(** Rounding does not bring a number back among the safe integers. *)
Lemma round_to_double_large (z : Z) :
  2 ^ 53 <= Z.abs z -> 2 ^ 53 <= Z.abs (round_to_double z).
Proof.
  intros Hbig. unfold round_to_double.
  destruct (Z.abs z <? 2 ^ 53) eqn:Hsmall; [apply Z.ltb_lt in Hsmall; lia |].
  assert (Hpos : 0 < Z.abs z) by (pose proof (Z.pow_pos_nonneg 2 53); lia).
  assert (Hsgn : Z.sgn z = 1 \/ Z.sgn z = -1) by (destruct z; cbn in *; lia).
  set (a := Z.abs z) in *. set (e := Z.log2 a - 52).
  match goal with |- context [Z.sgn z * (?x * _)] => set (q' := x) end.
  assert (Hlog : 53 <= Z.log2 a) by (apply Z.log2_le_pow2; assumption).
  pose proof (Z.log2_spec a Hpos) as [Hlow _].
  assert (Hq : 2 ^ 52 <= a / 2 ^ e).
  { apply Z.div_le_lower_bound; [apply Z.pow_pos_nonneg; lia |].
    rewrite <- Z.pow_add_r by lia. replace (e + 52) with (Z.log2 a) by lia. exact Hlow. }
  assert (Hq' : 2 ^ 52 <= q')
    by (subst q'; match goal with |- context [if ?b then _ else _] => destruct b end; lia).
  assert (Hbig' : 2 ^ 53 <= q' * 2 ^ e).
  { change (2 ^ 53) with (2 ^ 52 * 2 ^ 1).
    apply Z.mul_le_mono_nonneg; try (apply Z.pow_nonneg; lia); [exact Hq' |].
    apply Z.pow_le_mono_r; lia. }
  destruct Hsgn as [-> | ->]; lia.
Qed.

(** [marshall] accepts the double of an integer exactly when the integer
    is safe. *)
Lemma marshalls_to_double (z : Z) :
  CacheService.marshalls_number (to_double z) = safe_integer z.
Proof.
  destruct (safe_integer z) eqn:Hsafe.
  - rewrite (to_double_safe z Hsafe). exact Hsafe.
  - assert (Hbig : 2 ^ 53 <= Z.abs z).
    { destruct (Z_lt_le_dec (Z.abs z) (2 ^ 53)) as [Hlt | Hle]; [| exact Hle].
      assert (Htrue : safe_integer z = true) by (apply safe_integer_bound; lia).
      congruence. }
    apply round_to_double_large in Hbig.
    unfold to_double. destruct (_ <? 2 ^ 1024); [| reflexivity].
    cbn [CacheService.marshalls_number].
    destruct (safe_integer (round_to_double z)) eqn:Hround; [| reflexivity].
    apply safe_integer_bound in Hround. lia.
Qed.

Lemma marshallable_to_double (v : CacheValue) (z createdAt : Z) :
  CacheService.marshallable v (to_double z) createdAt =
  CacheService.marshallable v (Num z) createdAt.
Proof. unfold CacheService.marshallable. rewrite marshalls_to_double. reflexivity. Qed.

(** What [marshall] accepts of an item: the value, and two safe integers. *)
Lemma marshallable_parts (v : CacheValue) (ttl : JsNum) (createdAt : Z) :
  CacheService.marshallable v ttl createdAt = true ->
  exists t, ttl = Num t /\ safe_integer t = true /\ safe_integer createdAt = true.
Proof.
  unfold CacheService.marshallable. intros Hm.
  apply andb_prop in Hm as [Hm Hcreated]. apply andb_prop in Hm as [_ Httl].
  destruct ttl as [t | |]; try discriminate Httl. eauto.
Qed.

(** ** The cache *)

Lemma get_run (env : Env) (key : string) (w : World) :
  CacheService.get env key w =
  (Returned (if cache_up env then ci_value <$> cacheTable w !! key else None), w).
Proof.
  unfold CacheService.get, read.
  destruct (cache_up env); [destruct (cacheTable w !! key) |]; reflexivity.
Qed.

Lemma set_run (env : Env) (key : string) (v : CacheValue) (ttl : Z) (w : World) :
  cache_up env = true ->
  CacheService.marshallable v (Num (clock w / 1000 + ttl)) (clock w) = true ->
  CacheService.set env key v (Num ttl) w =
  (Returned tt,
   set_cacheTable
     (<[key := {| ci_value := v; ci_ttl := clock w / 1000 + ttl; ci_createdAt := clock w |}]>
        (cacheTable w)) w).
Proof.
  intros Hup Hm. unfold CacheService.set, bind, Date_now, read, modify.
  destruct (marshallable_parts _ _ _ Hm) as (t & Heq & Hsafe & _).
  injection Heq as <-.
  rewrite (num_add_safe _ _ Hsafe), Hm, Hup. reflexivity.
Qed.

Lemma set_run_down (env : Env) (key : string) (v : CacheValue) (ttl : JsNum) (w : World) :
  cache_up env = false ->
  CacheService.set env key v ttl w = (Returned tt, w).
Proof.
  intros Hdown. unfold CacheService.set, bind, Date_now, read.
  rewrite Hdown, andb_false_r.
  destruct (num_add (Num (clock w / 1000)) ttl); reflexivity.
Qed.

Lemma set_run_unmarshallable (env : Env) (key : string) (v : CacheValue) (ttl : JsNum)
    (w : World) :
  CacheService.marshallable v (num_add (Num (clock w / 1000)) ttl) (clock w) = false ->
  CacheService.set env key v ttl w = (Returned tt, w).
Proof.
  intros Hm. unfold CacheService.set, bind, Date_now, read.
  rewrite Hm. destruct (num_add (Num (clock w / 1000)) ttl); reflexivity.
Qed.

Lemma sweep_lookup (victims : gset string) (w : World) (key : string) :
  cacheTable (Dynamo.sweep victims w) !! key =
  match cacheTable w !! key with
  | Some item =>
      if bool_decide (key ∈ victims) && Dynamo.expired (clock w) item then None else Some item
  | None => None
  end.
Proof.
  unfold Dynamo.sweep. cbn. rewrite map_lookup_filter.
  destruct (cacheTable w !! key) as [item |]; cbn; [| reflexivity].
  destruct (Dynamo.expired (clock w) item); case_bool_decide; case_guard; cbn in *;
    try reflexivity; exfalso; intuition congruence.
Qed.

Lemma sweep_clock (victims : gset string) (w : World) :
  clock (Dynamo.sweep victims w) = clock w.
Proof. reflexivity. Qed.

(** C2, as amended: a [get] is absent exactly when the read fails or the
    table holds no item under the key. After a [set] that the store
    accepts (it is reachable, and the value, the expiry and the time stamp
    pass [marshall]) the value is returned for as long as the store has not
    removed the item, which it does only once the expiry has passed; an
    expired item that is still in the table is returned like any other. A
    [set] that [marshall] or the store refuses leaves the table as it was. *)
Theorem C2_get_absent_once_store_removed (env : Env) (key : string) :
  (forall w, fst (CacheService.get env key w) = Returned None <->
             (cache_up env = false \/ cacheTable w !! key = None)) /\
  (forall w v ttlSeconds dt victims,
     cache_up env = true ->
     CacheService.marshallable v (Num (clock w / 1000 + ttlSeconds)) (clock w) = true ->
     let stored := snd (CacheService.set env key v (Num ttlSeconds) w) in
     let later := Dynamo.sweep victims (Dynamo.tick dt stored) in
     fst (CacheService.get env key later) =
     Returned (if bool_decide (key ∈ victims) &&
                  (clock w / 1000 + ttlSeconds <? (clock w + dt) / 1000)
               then None else Some v)) /\
  (forall w v ttlSeconds,
     cache_up env = false \/
     CacheService.marshallable v (num_add (Num (clock w / 1000)) ttlSeconds) (clock w) = false ->
     CacheService.set env key v ttlSeconds w = (Returned tt, w)).
Proof.
  split; [| split].
  - intros w. rewrite get_run. cbn [fst].
    destruct (cache_up env).
    + destruct (cacheTable w !! key) as [item |]; cbn.
      * split; [discriminate | intros [H | H]; discriminate].
      * split; [intros _; right; reflexivity | reflexivity].
    + split; [intros _; left; reflexivity | reflexivity].
  - intros w v ttlSeconds dt victims Hup Hm stored later.
    subst later stored. rewrite get_run, Hup. cbn [fst].
    rewrite sweep_lookup, (set_run _ _ _ _ _ Hup Hm). cbn.
    rewrite lookup_insert_eq. unfold Dynamo.expired. cbn.
    destruct (bool_decide (key ∈ victims) &&
              (clock w / 1000 + ttlSeconds <? (clock w + dt) / 1000)); reflexivity.
  - intros w v ttlSeconds [Hdown | Hm].
    + exact (set_run_down env key v ttlSeconds w Hdown).
    + exact (set_run_unmarshallable env key v ttlSeconds w Hm).
Qed.

(** Against C2 as stated: a counter whose expiry lies far in the past but
    which the store still holds is returned by [get]. *)
Lemma C2_expired_entry_still_served :
  cacheTable world_stale !! "rate_limit:203.0.113.7:GET:/fusion" = Some stale_counter /\
  Dynamo.expired (clock world_stale) stale_counter = true /\
  fst (CacheService.get env_live "rate_limit:203.0.113.7:GET:/fusion" world_stale) =
    Returned (Some (CounterObj (Num 100))) /\
  fst (CacheService.get env_live "rate_limit:203.0.113.7:GET:/fusion" world_stale) <>
    Returned None.
Proof.
  split; [| split; [| split]]; try (vm_compute; reflexivity).
  vm_compute. discriminate.
Qed.

Lemma C2_get_absent_once_store_removed_witness :
  let key := "fusioned:1" in
  let v := CounterObj (Num 7) in
  let stored := snd (CacheService.set env_live key v (Num 1800) world0) in
  fst (CacheService.get env_live key (Dynamo.sweep {[ key ]} (Dynamo.tick 1801000 stored))) =
    Returned None /\
  fst (CacheService.get env_live key (Dynamo.sweep {[ key ]} (Dynamo.tick 1800000 stored))) =
    Returned (Some v) /\
  fst (CacheService.get env_live key (Dynamo.sweep ∅ (Dynamo.tick 9000000 stored))) =
    Returned (Some v) /\
  CacheService.set env_live key v (Num 9007199254740000) world0 = (Returned tt, world0).
Proof.
  intros key v stored.
  pose proof (proj1 (proj2 (C2_get_absent_once_store_removed env_live key))) as H.
  split; [| split; [| split]].
  - exact (H world0 v 1800 1801000 {[ key ]} eq_refl eq_refl).
  - exact (H world0 v 1800 1800000 {[ key ]} eq_refl eq_refl).
  - exact (H world0 v 1800 9000000 ∅ eq_refl eq_refl).
  - apply (proj2 (proj2 (C2_get_absent_once_store_removed env_live key))).
    right. vm_compute. reflexivity.
Defined.

(** ** The fusion handler *)

Lemma getCharacter_run (env : Env) (id : string) (w : World) :
  SwapiService.getCharacter env id w =
  (Returned
     match http_people env id with
     | HttpOk c t =>
         {| res_success := true;
            res_data := Some (SwapiService.normalizeCharacter c id);
            res_error := None; res_duration := Some t; res_warning := None |}
     | HttpError message t =>
         {| res_success := false; res_data := None;
            res_error := Some ("Failed to fetch character " +:+ id +:+ ": " +:+ message);
            res_duration := Some t; res_warning := None |}
     end,
   record_call (PeopleCall id) (elapsed_of (http_people env id)) w).
Proof.
  unfold SwapiService.getCharacter, bind, Date_now, read, http_get.
  destruct (http_people env id) as [c t | message t]; cbn;
    replace (clock w + t - clock w) with t by lia; reflexivity.
Qed.

Lemma getPlanet_run (env : Env) (id : string) (w : World) :
  SwapiService.getPlanet env id w =
  (Returned
     match http_planets env id with
     | HttpOk p t =>
         {| res_success := true;
            res_data := Some (SwapiService.normalizePlanet p id);
            res_error := None; res_duration := Some t; res_warning := None |}
     | HttpError message t =>
         {| res_success := false; res_data := None;
            res_error := Some ("Failed to fetch planet " +:+ id +:+ ": " +:+ message);
            res_duration := Some t; res_warning := None |}
     end,
   record_call (PlanetCall id) (elapsed_of (http_planets env id)) w).
Proof.
  unfold SwapiService.getPlanet, bind, Date_now, read, http_get.
  destruct (http_planets env id) as [p t | message t]; cbn;
    replace (clock w + t - clock w) with t by lia; reflexivity.
Qed.

(** C4: when the cache misses and the character request fails, the handler
    answers 400 with the "not found or unavailable" message, and the only
    thing that has happened to the world is that one request for the
    character: no planet request, no weather request, no write. *)
Theorem C4_character_failure_stops_pipeline (env : Env) (event : APIGatewayProxyEvent)
    (w : World) (message : string) (elapsed : Z) :
  let id := Fusion.characterId_of event in
  CacheService.get env (CacheService.fusionKey id) w = (Returned None, w) ->
  http_people env id = HttpError message elapsed ->
  let response : APIGatewayProxyResult CacheValue :=
    badRequest ("Character " +:+ id +:+ " not found or unavailable")
      (requestId event) (clock w + elapsed) in
  Fusion.baseHandler env event w =
    (Returned response, record_call (PeopleCall id) elapsed w) /\
  statusCode response = 400 /\
  upstream (record_call (PeopleCall id) elapsed w) = (upstream w ++ [PeopleCall id])%list.
Proof.
  intros id Hmiss Hfail response. split; [| split; reflexivity].
  unfold Fusion.baseHandler, try_catch, bind. fold id.
  rewrite Hmiss, getCharacter_run, Hfail. reflexivity.
Qed.

Lemma C4_character_failure_stops_pipeline_witness :
  let event := event_of (Some {[ "character" := "999" ]}) in
  exists response,
    Fusion.baseHandler env_live event world0 =
      (Returned response, record_call (PeopleCall "999") 80 world0) /\
    statusCode response = 400 /\
    upstream (record_call (PeopleCall "999") 80 world0) = [PeopleCall "999"].
Proof.
  intros event. eexists.
  exact (C4_character_failure_stops_pipeline env_live event world0
           "Request failed with status code 404" 80 eq_refl eq_refl).
Defined.

(** A cache hit: the answer carries the cached value, and the world is
    left as it was. *)
Lemma baseHandler_hit (env : Env) (event : APIGatewayProxyEvent) (w : World)
    (cached : CacheValue) :
  let id := Fusion.characterId_of event in
  CacheService.get env (CacheService.fusionKey id) w = (Returned (Some cached), w) ->
  Fusion.baseHandler env event w =
    (Returned
       (success cached (requestId event) true
          [ ("characterId", MStr id); ("duration", MNum 0); ("cached", MBool true) ]
          (clock w)),
     w).
Proof.
  intros id Hhit. unfold Fusion.baseHandler, try_catch, bind. fold id.
  rewrite Hhit. reflexivity.
Qed.

Lemma success_hit_meta {D} (data : D) (rid id : string) (now : Z) :
  body (success data rid true
          [ ("characterId", MStr id); ("duration", MNum 0); ("cached", MBool true) ] now) =
  SuccessBody data
    [ ("timestamp", MNum now); ("requestId", MStr rid); ("version", MStr "1.0.0");
      ("cached", MBool true); ("characterId", MStr id); ("duration", MNum 0) ].
Proof. reflexivity. Qed.

Lemma getMockWeatherData_run (env : Env) (name : string) (d : Z) (e : option string)
    (w : World) :
  exists nw,
    WeatherService.getMockWeatherData env name d e w =
      (Returned {| res_success := true; res_data := Some nw; res_error := None;
                   res_duration := Some d;
                   res_warning := Some "Using mock weather data - API unavailable" |},
       set_draws (8 + draws w) w) /\
    nw_source nw = "MOCK_DATA" /\
    nw_isFallback nw = true /\
    nw_description nw = "Simulated weather conditions".
Proof.
  exists (WeatherService.mockData name
            (Math_random env (draws w)) (Math_random env (1 + draws w))
            (Math_random env (2 + draws w)) (Math_random env (3 + draws w))
            (Math_random env (4 + draws w)) (Math_random env (5 + draws w))
            (Math_random env (6 + draws w)) (Math_random env (7 + draws w)) e).
  split; [reflexivity |]. split; [| split]; reflexivity.
Qed.

(** The weather stage always delivers a report: from the provider, or
    simulated when there is no key or the request fails. *)
Lemma getWeatherByPlanet_run (env : Env) (name : string) (w : World) :
  exists res nw w',
    WeatherService.getWeatherByPlanet env name w = (Returned res, w') /\
    res_success res = true /\
    res_data res = Some nw /\
    cacheTable w' = cacheTable w /\ mainTable w' = mainTable w /\ ids w' = ids w /\
    ((str_truthy (WeatherService.apiKey env) = true /\
      exists raw t,
        http_weather env (WeatherService.mapPlanetToLocation name) = HttpOk raw t /\
        nw = WeatherService.normalizeWeather raw name)
     \/
     ((str_truthy (WeatherService.apiKey env) = false \/
       exists message t,
         http_weather env (WeatherService.mapPlanetToLocation name) = HttpError message t) /\
      nw_source nw = "MOCK_DATA" /\ nw_isFallback nw = true /\
      nw_description nw = "Simulated weather conditions")).
Proof.
  unfold WeatherService.getWeatherByPlanet, try_catch, bind, Date_now, read, http_get.
  destruct (str_truthy (WeatherService.apiKey env)) eqn:Hkey; cbv beta iota delta [negb].
  - destruct (http_weather env (WeatherService.mapPlanetToLocation name))
      as [raw t | message t] eqn:Hreply; cbv beta iota delta [elapsed_of throw ret].
    + do 3 eexists. split; [reflexivity |].
      repeat (split; [reflexivity |]). left. split; [reflexivity |].
      exists raw, t. split; reflexivity.
    + destruct (getMockWeatherData_run env name
                  (clock (record_call (WeatherCall (WeatherService.mapPlanetToLocation name)) t w)
                   - clock w) (Some message)
                  (record_call (WeatherCall (WeatherService.mapPlanetToLocation name)) t w))
        as (nw & Hrun & Hsrc & Hfb & Hdesc).
      rewrite Hrun.
      do 3 eexists. split; [reflexivity |].
      repeat (split; [reflexivity |]). right. split; [| auto].
      right. exists message, t. reflexivity.
  - destruct (getMockWeatherData_run env name (clock w - clock w) None w)
      as (nw & Hrun & Hsrc & Hfb & Hdesc).
    rewrite Hrun.
    do 3 eexists. split; [reflexivity |].
    repeat (split; [reflexivity |]). right. split; [| auto]. left. reflexivity.
Qed.

Lemma set_total (env : Env) (key : string) (v : CacheValue) (ttl : JsNum) (w : World) :
  CacheService.set env key v ttl w = (Returned tt, snd (CacheService.set env key v ttl w)).
Proof.
  unfold CacheService.set, bind, Date_now, read, modify, ret.
  destruct (num_add (Num (clock w / 1000)) ttl) as [z | |]; try reflexivity.
  destruct (CacheService.marshallable v (Num z) (clock w) && cache_up env); reflexivity.
Qed.

(** [set] writes to the cache table and to nothing else. *)
Lemma set_frame (env : Env) (key : string) (v : CacheValue) (ttl : JsNum) (w : World) :
  let w' := snd (CacheService.set env key v ttl w) in
  mainTable w' = mainTable w /\ upstream w' = upstream w /\ scans w' = scans w /\
  clock w' = clock w /\ draws w' = draws w /\ ids w' = ids w.
Proof.
  unfold CacheService.set, bind, Date_now, read, modify, ret.
  destruct (num_add (Num (clock w / 1000)) ttl) as [z | |]; try (repeat split; reflexivity).
  destruct (CacheService.marshallable v (Num z) (clock w) && cache_up env);
    repeat split; reflexivity.
Qed.

(** The attempt to store a fusion in the history: the row is added when
    [marshall] accepts the record and the table is reachable. *)
Lemma store_attempt_run (env : Env) (id : string) (d : FusionedData) (rid : string)
    (total : Z) (w : World) :
  try_catch
    (let* _ := DatabaseService.storeFusionData env id d rid total in ret tt)
    (fun _ => ret tt) w =
  (Returned tt,
   if writable d total (clock w) && main_up env
   then set_mainTable
          (mainTable w ++
           [ {| row_pk := "FUSIONED#" +:+ id;
                row_sk := "FUSION#" +:+ pretty (clock w) +:+ "#" +:+ uuidv4 env (ids w);
                row_record :=
                  FusionRec
                    {| fr_id := uuidv4 env (ids w);
                       fr_characterId := id;
                       fr_data := d;
                       fr_timestamp := clock w;
                       fr_ttl := clock w / 1000 + CacheService.FUSIONED_DATA_TTL;
                       fr_source := "fusion";
                       fr_metadata :=
                         {| rm_requestId := rid;
                            rm_processingTime := total;
                            rm_cached := false |} |} |} ])%list
          (set_ids (S (ids w)) w)
   else set_ids (S (ids w)) w).
Proof.
  unfold try_catch, bind, DatabaseService.storeFusionData, bind, Date_now, read, modify,
    throw, ret, writable.
  cbn [fr_ttl clock set_ids].
  destruct (CacheService.marshallable (FusionObj d)
              (Num (clock w / 1000 + CacheService.FUSIONED_DATA_TTL)) (clock w) &&
            safe_integer total); cbn [negb andb]; [| reflexivity].
  destruct (main_up env); reflexivity.
Qed.

Lemma store_attempt_total (env : Env) (id : string) (d : FusionedData) (rid : string)
    (total : Z) (w : World) :
  try_catch
    (let* _ := DatabaseService.storeFusionData env id d rid total in ret tt)
    (fun _ => ret tt) w =
  (Returned tt,
   snd (try_catch
          (let* _ := DatabaseService.storeFusionData env id d rid total in ret tt)
          (fun _ => ret tt) w)).
Proof. rewrite store_attempt_run. reflexivity. Qed.

(** What the two writes leave behind. *)
Lemma persist_cache (env : Env) (event : APIGatewayProxyEvent) (d : FusionedData)
    (total : Z) (w : World) :
  cache_up env = true ->
  CacheService.marshallable (FusionObj d)
    (Num (clock w / 1000 + CacheService.FUSIONED_DATA_TTL)) (clock w) = true ->
  cacheTable (persist env event d total w) =
  <[CacheService.fusionKey (Fusion.characterId_of event) :=
      {| ci_value := FusionObj d;
         ci_ttl := clock w / 1000 + CacheService.FUSIONED_DATA_TTL;
         ci_createdAt := clock w |}]> (cacheTable w).
Proof.
  intros Hup Hm. unfold persist.
  rewrite (set_run env _ (FusionObj d) CacheService.FUSIONED_DATA_TTL w Hup Hm).
  rewrite store_attempt_run. cbn [snd].
  destruct (writable d total _ && main_up env); reflexivity.
Qed.

(** Without the cache table, or with a result [marshall] refuses, the
    cache is left as it was. *)
Lemma persist_cache_unchanged (env : Env) (event : APIGatewayProxyEvent) (d : FusionedData)
    (total : Z) (w : World) :
  cache_up env = false \/
  CacheService.marshallable (FusionObj d)
    (Num (clock w / 1000 + CacheService.FUSIONED_DATA_TTL)) (clock w) = false ->
  cacheTable (persist env event d total w) = cacheTable w.
Proof.
  intros Hcase. unfold persist.
  assert (Hset : CacheService.set env (CacheService.fusionKey (Fusion.characterId_of event))
                   (FusionObj d) (Num CacheService.FUSIONED_DATA_TTL) w = (Returned tt, w)).
  { destruct Hcase as [Hdown | Hm]; [exact (set_run_down _ _ _ _ _ Hdown) |].
    apply set_run_unmarshallable. cbn [num_add].
    rewrite marshallable_to_double. exact Hm. }
  rewrite Hset, store_attempt_run. cbn [snd].
  destruct (writable d total _ && main_up env); reflexivity.
Qed.

Lemma persist_main (env : Env) (event : APIGatewayProxyEvent) (d : FusionedData)
    (total : Z) (w : World) :
  mainTable (persist env event d total w) =
  if writable d total (clock w) && main_up env
  then (mainTable w ++
        [ {| row_pk := "FUSIONED#" +:+ Fusion.characterId_of event;
             row_sk := "FUSION#" +:+ pretty (clock w) +:+ "#" +:+ uuidv4 env (ids w);
             row_record :=
               FusionRec
                 {| fr_id := uuidv4 env (ids w);
                    fr_characterId := Fusion.characterId_of event;
                    fr_data := d;
                    fr_timestamp := clock w;
                    fr_ttl := clock w / 1000 + CacheService.FUSIONED_DATA_TTL;
                    fr_source := "fusion";
                    fr_metadata :=
                      {| rm_requestId := requestId event;
                         rm_processingTime := total;
                         rm_cached := false |} |} |} ])%list
  else mainTable w.
Proof.
  unfold persist. rewrite store_attempt_run. cbn [snd].
  destruct (set_frame env (CacheService.fusionKey (Fusion.characterId_of event))
              (FusionObj d) (Num CacheService.FUSIONED_DATA_TTL) w)
    as (Hmain & _ & _ & Hclock & _ & Hids).
  cbv zeta in Hmain, Hclock, Hids.
  set (w1 := snd (CacheService.set _ _ _ _ w)) in *. clearbody w1.
  rewrite Hclock, Hids.
  destruct (writable d total (clock w) && main_up env);
    cbn [mainTable set_mainTable set_ids]; rewrite Hmain; reflexivity.
Qed.

Lemma persist_frame (env : Env) (event : APIGatewayProxyEvent) (d : FusionedData)
    (total : Z) (w : World) :
  clock (persist env event d total w) = clock w /\
  upstream (persist env event d total w) = upstream w /\
  scans (persist env event d total w) = scans w /\
  draws (persist env event d total w) = draws w.
Proof.
  unfold persist. rewrite store_attempt_run. cbn [snd].
  destruct (set_frame env (CacheService.fusionKey (Fusion.characterId_of event))
              (FusionObj d) (Num CacheService.FUSIONED_DATA_TTL) w)
    as (_ & Hup & Hscans & Hclock & Hdraws & _).
  cbv zeta in Hup, Hscans, Hclock, Hdraws.
  set (w1 := snd (CacheService.set _ _ _ _ w)) in *. clearbody w1.
  destruct (writable d total _ && main_up env);
    cbn [clock upstream scans draws set_mainTable set_ids]; auto.
Qed.

(** The miss path, when the character is found: the three sources are
    merged, the result is written to the cache and to the history, and
    returned. *)
Lemma baseHandler_miss_run (env : Env) (event : APIGatewayProxyEvent) (w : World)
    (c : SwapiCharacter) (t : Z) (weatherResult : ApiCallResult NormalizedWeather)
    (nw : NormalizedWeather) (w3 : World) :
  let id := Fusion.characterId_of event in
  let character := SwapiService.normalizeCharacter c id in
  let hid := char_homeworld_id character in
  let w2 := record_call (PlanetCall hid) (elapsed_of (http_planets env hid))
              (record_call (PeopleCall id) t w) in
  let planetData := planet_view env hid in
  CacheService.get env (CacheService.fusionKey id) w = (Returned None, w) ->
  http_people env id = HttpOk c t ->
  WeatherService.getWeatherByPlanet env (pd_name planetData) w2 = (Returned weatherResult, w3) ->
  res_success weatherResult = true ->
  res_data weatherResult = Some nw ->
  let d := Fusion.fusionedData_of event character planetData (weather_view nw)
             (character_ok c id t) (planet_result env hid) weatherResult in
  let total := t + default 0 (res_duration (planet_result env hid)) +
               default 0 (res_duration weatherResult) in
  Fusion.baseHandler env event w =
    (Returned
       (success (FusionObj d) (requestId event) false
          [ ("characterId", MStr id); ("duration", MNum total); ("stored", MBool true) ]
          (clock w3)),
     persist env event d total w3).
Proof.
  intros id character hid w2 planetData Hmiss Hpeople Hweather Hok Hdata d total.
  unfold Fusion.baseHandler, try_catch, bind. fold id.
  rewrite Hmiss, getCharacter_run, Hpeople.
  cbv beta iota delta [negb res_success res_data elapsed_of].
  fold character. fold hid. rewrite getPlanet_run. fold w2.
  assert (Hplanet :
    Fusion.planetData_of hid
      match http_planets env hid with
      | HttpOk p t0 =>
          {| res_success := true;
             res_data := Some (SwapiService.normalizePlanet p hid);
             res_error := None; res_duration := Some t0; res_warning := None |}
      | HttpError message t0 =>
          {| res_success := false; res_data := None;
             res_error := Some ("Failed to fetch planet " +:+ hid +:+ ": " +:+ message);
             res_duration := Some t0; res_warning := None |}
      end w2 = (Returned planetData, w2)).
  { subst planetData. unfold planet_view, Fusion.planetData_of.
    destruct (http_planets env hid); reflexivity. }
  rewrite Hplanet. fold planetData. rewrite Hweather.
  unfold Fusion.weatherData_of. rewrite Hok, Hdata.
  cbv beta iota delta [ret]. fold (weather_view nw). fold (planet_result env hid).
  subst d total. unfold character_ok. fold id. fold character.
  generalize (Fusion.fusionedData_of event character planetData (weather_view nw)
                {| res_success := true; res_data := Some character; res_error := None;
                   res_duration := Some t; res_warning := None |}
                (planet_result env hid) weatherResult).
  intros d.
  cbn [default res_duration]. change (Datatypes.id t) with t.
  set (total := t + default 0 (res_duration (planet_result env hid)) +
                default 0 (res_duration weatherResult)).
  rewrite set_total.
  pose proof (store_attempt_total env id d (requestId event) total
                (snd (CacheService.set env (CacheService.fusionKey id) (FusionObj d)
                        (Num CacheService.FUSIONED_DATA_TTL) w3))) as Hstore.
  unfold try_catch, bind, ret in Hstore. rewrite Hstore. clear Hstore.
  unfold Date_now, read.
  match goal with
  | |- (Returned (success _ _ _ _ (clock ?x)), _) = _ =>
      change x with (persist env event d total w3)
  end.
  rewrite (proj1 (persist_frame env event d total w3)). reflexivity.
Qed.





Lemma valid_time_safe (now : Z) :
  valid_time now = true ->
  safe_integer now = true /\
  safe_integer (now / 1000 + CacheService.FUSIONED_DATA_TTL) = true.
Proof.
  unfold valid_time. intros Hvalid. apply andb_prop in Hvalid as [Hlow Hhigh].
  apply Z.leb_le in Hlow, Hhigh.
  assert (Hdiv : 0 <= now / 1000 <= now).
  { split; [apply Z.div_pos; lia |]. apply Z.div_le_upper_bound; lia. }
  unfold CacheService.FUSIONED_DATA_TTL.
  split; apply safe_integer_bound; change (2 ^ 53) with 9007199254740992; lia.
Qed.

(** An answer whose numbers all pass [marshall] is one both tables accept. *)
Lemma answer_writable_fresh (d : FusionedData) (rid id : string) (total now : Z) :
  answer_writable
    (Returned (success (FusionObj d) rid false
                 [ ("characterId", MStr id); ("duration", MNum total);
                   ("stored", MBool true) ] now)) = true ->
  CacheService.storable d = true /\
  CacheService.marshallable (FusionObj d)
    (Num (now / 1000 + CacheService.FUSIONED_DATA_TTL)) now = true /\
  writable d total now = true.
Proof.
  cbn. intros Hw. apply andb_prop in Hw as [Hd Hw]. apply andb_prop in Hw as [Htotal Hnow].
  destruct (valid_time_safe now Hnow) as [Hsafe Httl].
  assert (Hm : CacheService.marshallable (FusionObj d)
                 (Num (now / 1000 + CacheService.FUSIONED_DATA_TTL)) now = true).
  { unfold CacheService.marshallable. cbn [CacheService.marshalls_number].
    rewrite Hd, Httl, Hsafe. reflexivity. }
  split; [exact Hd |]. split; [exact Hm |].
  unfold writable. rewrite Hm, Htotal. reflexivity.
Qed.

(** C8: when the planet request fails, the result carries the "Unknown"
    homeworld and the planet quality "partial"; the answer is a success,
    and the result is what the cache holds afterwards under the key of the
    character, provided the cache table is reachable and the numbers of the
    answer pass [marshall]. *)
Theorem C8_planet_failure_is_partial_success (env : Env) (event : APIGatewayProxyEvent)
    (w : World) (c : SwapiCharacter) (t : Z) (message : string) (t2 : Z) :
  let id := Fusion.characterId_of event in
  let hid := SwapiService.extractPlanetId (sc_homeworld c) in
  let run := Fusion.baseHandler env event w in
  CacheService.get env (CacheService.fusionKey id) w = (Returned None, w) ->
  http_people env id = HttpOk c t ->
  http_planets env hid = HttpError message t2 ->
  exists d,
    answer_fusion (fst run) = Some d /\
    answer_status (fst run) = Some 200 /\
    homeworld d =
      {| pd_id := hid; pd_name := "Unknown"; pd_climate := "Unknown";
         pd_terrain := "Unknown" |} /\
    dq_planet (dataQuality (fusion d)) = "partial" /\
    (cache_up env = true ->
     answer_writable (fst run) = true ->
     exists item,
       cacheTable (snd run) !! CacheService.fusionKey id = Some item /\
       ci_value item = FusionObj d).
Proof.
  intros id hid run Hmiss Hpeople Hplanet.
  destruct (getWeatherByPlanet_run env (pd_name (planet_view env hid))
              (record_call (PlanetCall hid) (elapsed_of (http_planets env hid))
                 (record_call (PeopleCall id) t w)))
    as (res & nw & w3 & Hrun & Hok & Hdata & _).
  pose proof (baseHandler_miss_run env event w c t res nw w3 Hmiss Hpeople Hrun Hok Hdata)
    as Hhandler.
  cbv zeta in Hhandler. subst run. rewrite Hhandler. cbn [fst snd].
  eexists. split; [reflexivity |]. split; [reflexivity |].
  split.
  { cbn [homeworld Fusion.fusionedData_of char_homeworld_id SwapiService.normalizeCharacter].
    fold hid. unfold planet_view. rewrite Hplanet. reflexivity. }
  split.
  { cbn [fusion dataQuality dq_planet Fusion.fusionedData_of char_homeworld_id
         SwapiService.normalizeCharacter].
    fold hid. unfold planet_result. rewrite Hplanet. reflexivity. }
  intros Hup Hwritable. apply answer_writable_fresh in Hwritable as (_ & Hm & _).
  rewrite (persist_cache _ _ _ _ _ Hup Hm), lookup_insert_eq.
  eexists. split; reflexivity.
Qed.


Lemma C8_planet_failure_is_partial_success_witness :
  let run := Fusion.baseHandler env_planet_down fusion_luke world0 in
  exists d,
    answer_fusion (fst run) = Some d /\
    answer_status (fst run) = Some 200 /\
    homeworld d =
      {| pd_id := "1"; pd_name := "Unknown"; pd_climate := "Unknown";
         pd_terrain := "Unknown" |} /\
    dq_planet (dataQuality (fusion d)) = "partial" /\
    exists item,
      cacheTable (snd run) !! "fusioned:1" = Some item /\
      ci_value item = FusionObj d.
Proof.
  intros run.
  destruct (C8_planet_failure_is_partial_success env_planet_down fusion_luke world0 luke 120
              "Request failed with status code 500" 60 eq_refl eq_refl eq_refl)
    as (d & Hd & Hstatus & Hhome & Hquality & Hcache).
  exists d. repeat (split; [assumption |]).
  apply Hcache; vm_compute; reflexivity.
Defined.

(** The rating is "unknown" only for weather tagged "mock". *)
Lemma compatibility_unknown_only_for_mock (climate : string) (wd : WeatherData) :
  wd_source wd <> "mock" ->
  Fusion.calculatePlanetWeatherCompatibility climate wd <> "unknown".
Proof.
  intros Hsrc. unfold Fusion.calculatePlanetWeatherCompatibility.
  destruct (String.eqb (wd_source wd) "mock") eqn:Hmock.
  { apply String.eqb_eq in Hmock. contradiction. }
  repeat match goal with
         | |- context [if ?b then _ else _] => destruct b
         end; discriminate.
Qed.

(** Whenever the weather stage falls back to simulated weather, the
    result is tagged like one with weather from the provider: its rating
    comes from the table and its weather quality is "complete". *)
Lemma simulated_weather_tagged_complete (env : Env) (event : APIGatewayProxyEvent)
    (w : World) (c : SwapiCharacter) (t : Z) :
  let id := Fusion.characterId_of event in
  let hid := SwapiService.extractPlanetId (sc_homeworld c) in
  let location := WeatherService.mapPlanetToLocation (pd_name (planet_view env hid)) in
  CacheService.get env (CacheService.fusionKey id) w = (Returned None, w) ->
  http_people env id = HttpOk c t ->
  (str_truthy (WeatherService.apiKey env) = false \/
   exists message t3, http_weather env location = HttpError message t3) ->
  exists d meta now w',
    Fusion.baseHandler env event w =
      (Returned (success (FusionObj d) (requestId event) false meta now), w') /\
    wd_source (weather d) = "MOCK_DATA" /\
    wd_isFallback (weather d) = Some true /\
    compatibility (fusion d) <> "unknown" /\
    dq_weather (dataQuality (fusion d)) = "complete".
Proof.
  intros id hid location Hmiss Hpeople Hfail.
  destruct (getWeatherByPlanet_run env (pd_name (planet_view env hid))
              (record_call (PlanetCall hid) (elapsed_of (http_planets env hid))
                 (record_call (PeopleCall id) t w)))
    as (res & nw & w3 & Hrun & Hok & Hdata & _ & _ & _ & Hcase).
  pose proof (baseHandler_miss_run env event w c t res nw w3 Hmiss Hpeople Hrun Hok Hdata)
    as Hhandler.
  cbv zeta in Hhandler.
  do 4 eexists. split; [exact Hhandler |].
  assert (Hmock : nw_source nw = "MOCK_DATA" /\ nw_isFallback nw = true).
  { destruct Hcase as [(Hkey & raw & t' & Hraw & _) | (_ & Hsrc & Hfb & _)]; [| auto].
    destruct Hfail as [Hnokey | (m & t3 & Herr)].
    - rewrite Hkey in Hnokey. discriminate.
    - subst location. fold hid in Hraw. rewrite Herr in Hraw. discriminate. }
  destruct Hmock as (Hsrc & Hfb).
  cbn [weather fusion compatibility dataQuality dq_weather Fusion.fusionedData_of
       weather_view wd_source wd_isFallback].
  rewrite Hsrc, Hfb, Hok.
  split; [reflexivity |]. split; [reflexivity |]. split; [| reflexivity].
  apply compatibility_unknown_only_for_mock. cbn. rewrite Hsrc. discriminate.
Qed.

(** C1, at two requests whose weather fetch fails (no credentials; the
    provider timing out): the result carries simulated weather, yet its
    rating is taken from the table and its weather quality is "complete". *)
Theorem C1_simulated_weather_reported_complete :
  weather_tags <$> answer_fusion (fst (Fusion.baseHandler env_nokey fusion_luke world0)) =
    Some ("MOCK_DATA", Some true, "fair match", "complete") /\
  weather_tags <$> answer_fusion (fst (Fusion.baseHandler env_weather_down fusion_luke world0)) =
    Some ("MOCK_DATA", Some true, "fair match", "complete").
Proof. split; vm_compute; reflexivity. Qed.

Lemma elapsed_nonneg (steps : list Later) :
  Forall (fun s => 0 <= later_dt s) steps ->
  0 <= elapsed steps.
Proof.
  induction 1 as [| s rest Hdt _ IH]; unfold elapsed in *; cbn; lia.
Qed.

(** Requests for a character whose result is in the cache and has not
    expired: every answer is the cached one, whoever asks, and neither the
    history nor the log of upstream requests grows. *)
Lemma repeat_fusion_hits (id : string) (steps : list Later) :
  forall (w : World) (item : CacheItem),
    cacheTable w !! CacheService.fusionKey id = Some item ->
    Forall (fun s => Fusion.characterId_of (later_event s) = id /\
                     cache_up (later_env s) = true /\ 0 <= later_dt s) steps ->
    (clock w + elapsed steps) / 1000 <= ci_ttl item ->
    mainTable (snd (repeat_fusion steps w)) = mainTable w /\
    upstream (snd (repeat_fusion steps w)) = upstream w /\
    cacheTable (snd (repeat_fusion steps w)) !! CacheService.fusionKey id = Some item /\
    Forall2 (fun s answer =>
               exists now,
                 answer =
                 Returned
                   (success (ci_value item) (requestId (later_event s)) true
                      [ ("characterId", MStr id); ("duration", MNum 0);
                        ("cached", MBool true) ] now))
            steps (fst (repeat_fusion steps w)).
Proof.
  induction steps as [| s rest IH]; intros w item Hitem Hsteps Hfresh.
  { cbn. repeat split; [exact Hitem | constructor]. }
  inversion Hsteps as [| ? ? (Hid & Hup & Hdt) Hrest]; subst.
  assert (Hpos : 0 <= elapsed rest).
  { apply elapsed_nonneg. eapply Forall_impl; [exact Hrest |]. cbn. tauto. }
  cbn [elapsed fold_right] in Hfresh. fold (elapsed rest) in Hfresh.
  set (w' := Dynamo.sweep (later_victims s) (Dynamo.tick (later_dt s) w)).
  assert (Hkept : cacheTable w' !!
                    CacheService.fusionKey (Fusion.characterId_of (later_event s)) =
                  Some item).
  { subst w'. rewrite sweep_lookup. cbn [Dynamo.tick set_clock cacheTable clock].
    rewrite Hitem.
    assert (Hlive : Dynamo.expired (clock w + later_dt s) item = false).
    { unfold Dynamo.expired. apply Z.ltb_ge.
      etransitivity; [| exact Hfresh].
      apply Z.div_le_mono; lia. }
    rewrite Hlive, andb_false_r. reflexivity. }
  assert (Hhit : CacheService.get (later_env s)
                   (CacheService.fusionKey (Fusion.characterId_of (later_event s))) w' =
                 (Returned (Some (ci_value item)), w')).
  { rewrite get_run, Hup, Hkept. reflexivity. }
  cbn [repeat_fusion]. fold w'.
  rewrite (baseHandler_hit _ _ _ _ Hhit).
  destruct (IH w' item Hkept Hrest) as (Hmain & Hlog & Hstill & Hanswers).
  { subst w'. cbn [Dynamo.sweep Dynamo.tick set_clock set_cacheTable clock].
    replace (clock w + later_dt s + elapsed rest)
      with (clock w + (later_dt s + elapsed rest)) by lia.
    exact Hfresh. }
  destruct (repeat_fusion rest w') as [answers w''] eqn:Hrun.
  cbn [fst snd] in *.
  split; [exact Hmain |]. split; [exact Hlog |]. split; [exact Hstill |].
  constructor; [| exact Hanswers].
  exists (clock w'). reflexivity.
Qed.

(** C3: a request that hits the cache is answered with the cached value,
    [cached = true] and a duration of zero, and leaves the world as it was:
    no upstream request, no history row, no write to the cache. Hence,
    after a first fusion that missed the cache and was stored (both tables
    reachable, the numbers of the answer accepted by [marshall]), the
    requests for the same character id within the 30 minutes of the
    entry's life, whoever sends them, are all answered from the cache with
    the result of the first, and the history has gained exactly one row. *)
Theorem C3_cache_hit_is_idempotent :
  (forall (env : Env) (event : APIGatewayProxyEvent) (w : World) (cached : CacheValue),
     let id := Fusion.characterId_of event in
     CacheService.get env (CacheService.fusionKey id) w = (Returned (Some cached), w) ->
     Fusion.baseHandler env event w =
       (Returned
          (success cached (requestId event) true
             [ ("characterId", MStr id); ("duration", MNum 0); ("cached", MBool true) ]
             (clock w)),
        w)) /\
  (forall (env : Env) (event : APIGatewayProxyEvent) (w : World) (c : SwapiCharacter)
          (t : Z) (steps : list Later),
     let id := Fusion.characterId_of event in
     let first := Fusion.baseHandler env event w in
     let later := repeat_fusion steps (snd first) in
     cache_up env = true ->
     main_up env = true ->
     cacheTable w !! CacheService.fusionKey id = None ->
     http_people env id = HttpOk c t ->
     answer_writable (fst first) = true ->
     Forall (fun s => Fusion.characterId_of (later_event s) = id /\
                      cache_up (later_env s) = true /\ 0 <= later_dt s) steps ->
     elapsed steps <= CacheService.FUSIONED_DATA_TTL * 1000 ->
     exists d row,
       answer_fusion (fst first) = Some d /\
       mainTable (snd first) = (mainTable w ++ [row])%list /\
       mainTable (snd later) = (mainTable w ++ [row])%list /\
       upstream (snd later) = upstream (snd first) /\
       cacheTable (snd later) !! CacheService.fusionKey id =
         cacheTable (snd first) !! CacheService.fusionKey id /\
       Forall2 (fun s answer =>
                  exists now,
                    answer =
                    Returned
                      (success (FusionObj d) (requestId (later_event s)) true
                         [ ("characterId", MStr id); ("duration", MNum 0);
                           ("cached", MBool true) ] now))
               steps (fst later)).
Proof.
  split; [exact baseHandler_hit |].
  intros env event w c t steps id first later Hcache Hmain Hmiss Hpeople Hwritable Hsteps
    Hwindow.
  assert (Hget : CacheService.get env (CacheService.fusionKey id) w = (Returned None, w)).
  { rewrite get_run, Hcache, Hmiss. reflexivity. }
  set (hid := char_homeworld_id (SwapiService.normalizeCharacter c id)).
  destruct (getWeatherByPlanet_run env (pd_name (planet_view env hid))
              (record_call (PlanetCall hid) (elapsed_of (http_planets env hid))
                 (record_call (PeopleCall id) t w)))
    as (res & nw & w3 & Hrun & Hok & Hdata & Hc3 & Hm3 & Hi3 & _).
  pose proof (baseHandler_miss_run env event w c t res nw w3 Hget Hpeople Hrun Hok Hdata)
    as Hhandler.
  cbv zeta in Hhandler. fold id hid in Hhandler.
  subst later first. rewrite Hhandler in *. cbn [fst snd] in *.
  match type of Hhandler with
  | _ = (_, persist _ _ ?d0 ?total0 _) => set (d := d0) in *; set (total := total0) in *
  end.
  apply answer_writable_fresh in Hwritable as (_ & Hm & Hw).
  pose proof (persist_main env event d total w3) as Hrows.
  rewrite Hw, Hmain, Hm3 in Hrows. cbn [record_call mainTable andb] in Hrows.
  pose proof (persist_cache env event d total w3 Hcache Hm) as Hentry.
  destruct (persist_frame env event d total w3) as (Hclock & _).
  eexists d, _. split; [reflexivity |]. split; [exact Hrows |].
  destruct (repeat_fusion_hits id steps (persist env event d total w3)
              {| ci_value := FusionObj d;
                 ci_ttl := clock w3 / 1000 + CacheService.FUSIONED_DATA_TTL;
                 ci_createdAt := clock w3 |}) as (Hsame & Hlog & Hstill & Hanswers).
  - rewrite Hentry. apply lookup_insert_eq.
  - exact Hsteps.
  - rewrite Hclock. cbn [ci_ttl].
    replace (clock w3 / 1000 + CacheService.FUSIONED_DATA_TTL)
      with ((clock w3 + CacheService.FUSIONED_DATA_TTL * 1000) / 1000)
      by (rewrite Z.div_add by lia; reflexivity).
    apply Z.div_le_mono; lia.
  - split; [rewrite Hsame; exact Hrows |]. split; [exact Hlog |].
    split; [| exact Hanswers].
    rewrite Hstill, Hentry, lookup_insert_eq. reflexivity.
Qed.

Lemma C3_cache_hit_is_idempotent_witness :
  let first := Fusion.baseHandler env_live fusion_luke world0 in
  let later := repeat_fusion two_repeats (snd first) in
  (exists cached,
     Fusion.baseHandler env_live fusion_luke_again (snd first) =
       (Returned
          (success cached "req-8" true
             [ ("characterId", MStr "1"); ("duration", MNum 0); ("cached", MBool true) ]
             (clock (snd first))),
        snd first)) /\
  (exists d row,
     answer_fusion (fst first) = Some d /\
     mainTable (snd first) = [row] /\
     mainTable (snd later) = [row] /\
     upstream (snd later) = upstream (snd first) /\
     cacheTable (snd later) !! "fusioned:1" = cacheTable (snd first) !! "fusioned:1" /\
     Forall2 (fun s answer =>
                exists now,
                  answer =
                  Returned
                    (success (FusionObj d) (requestId (later_event s)) true
                       [ ("characterId", MStr "1"); ("duration", MNum 0);
                         ("cached", MBool true) ] now))
             two_repeats (fst later)).
Proof.
  intros first later. split.
  - eexists.
    apply (proj1 C3_cache_hit_is_idempotent env_live fusion_luke_again (snd first)).
    rewrite get_run. reflexivity.
  - apply (proj2 C3_cache_hit_is_idempotent env_live fusion_luke world0 luke 120 two_repeats);
      try reflexivity.
    + repeat constructor; cbn; lia.
    + vm_compute. discriminate.
Defined.

Lemma getWeatherByPlanet_upstream (env : Env) (name : string) (w : World) :
  upstream (snd (WeatherService.getWeatherByPlanet env name w)) =
  if str_truthy (WeatherService.apiKey env)
  then (upstream w ++ [WeatherCall (WeatherService.mapPlanetToLocation name)])%list
  else upstream w.
Proof.
  unfold WeatherService.getWeatherByPlanet, try_catch, bind, Date_now, read, http_get.
  destruct (str_truthy (WeatherService.apiKey env)); cbv beta iota delta [negb].
  - destruct (http_weather env (WeatherService.mapPlanetToLocation name)) as [raw t | m t];
      cbv beta iota delta [elapsed_of throw ret]; [reflexivity |].
    match goal with
    | |- context [WeatherService.getMockWeatherData ?e ?n ?d ?x ?w0] =>
        destruct (getMockWeatherData_run e n d x w0) as (nw & Hrun & _); rewrite Hrun
    end.
    reflexivity.
  - match goal with
    | |- context [WeatherService.getMockWeatherData ?e ?n ?d ?x ?w0] =>
        destruct (getMockWeatherData_run e n d x w0) as (nw & Hrun & _); rewrite Hrun
    end.
    reflexivity.
Qed.

(** The miss path with the character found, in one statement: the answer
    and the world it leaves. *)
Lemma baseHandler_fresh (env : Env) (event : APIGatewayProxyEvent) (w : World)
    (c : SwapiCharacter) (t : Z) :
  let id := Fusion.characterId_of event in
  let hid := SwapiService.extractPlanetId (sc_homeworld c) in
  let w2 := record_call (PlanetCall hid) (elapsed_of (http_planets env hid))
              (record_call (PeopleCall id) t w) in
  CacheService.get env (CacheService.fusionKey id) w = (Returned None, w) ->
  http_people env id = HttpOk c t ->
  exists d total w3,
    w3 = snd (WeatherService.getWeatherByPlanet env (pd_name (planet_view env hid)) w2) /\
    cacheTable w3 = cacheTable w /\ mainTable w3 = mainTable w /\ ids w3 = ids w /\
    homeworld d = planet_view env hid /\
    dq_weather (dataQuality (fusion d)) = "complete" /\
    total = pt_character (fm_processingTime (meta d)) +
            pt_planet (fm_processingTime (meta d)) +
            pt_weather (fm_processingTime (meta d)) /\
    Fusion.baseHandler env event w =
      (Returned
         (success (FusionObj d) (requestId event) false
            [ ("characterId", MStr id); ("duration", MNum total); ("stored", MBool true) ]
            (clock w3)),
       persist env event d total w3).
Proof.
  intros id hid w2 Hmiss Hpeople.
  destruct (getWeatherByPlanet_run env (pd_name (planet_view env hid)) w2)
    as (res & nw & w3 & Hrun & Hok & Hdata & Hc & Hm & Hi & _).
  pose proof (baseHandler_miss_run env event w c t res nw w3 Hmiss Hpeople Hrun Hok Hdata)
    as Hhandler.
  cbv zeta in Hhandler.
  do 3 eexists.
  split; [fold hid w2; rewrite Hrun; reflexivity |].
  split; [exact Hc |]. split; [exact Hm |]. split; [exact Hi |].
  split; [| split; [| split; [| exact Hhandler]]].
  - reflexivity.
  - cbn [fusion dataQuality dq_weather Fusion.fusionedData_of]. rewrite Hok. reflexivity.
  - reflexivity.
Qed.

(** On a miss with the character found, the answer is 200 with that
    character, and the first request sent upstream is the one for it. *)
Lemma baseHandler_fresh_character (env : Env) (event : APIGatewayProxyEvent) (w : World)
    (c : SwapiCharacter) (t : Z) :
  let id := Fusion.characterId_of event in
  let run := Fusion.baseHandler env event w in
  CacheService.get env (CacheService.fusionKey id) w = (Returned None, w) ->
  http_people env id = HttpOk c t ->
  exists d calls,
    answer_fusion (fst run) = Some d /\
    answer_status (fst run) = Some 200 /\
    obj_get (Traffic.answer_meta (fst run)) "characterId" = Some (MStr id) /\
    cv_id (character d) = id /\
    cv_name (character d) = sc_name c /\
    upstream (snd run) = (upstream w ++ PeopleCall id :: calls)%list.
Proof.
  intros id run Hmiss Hpeople.
  set (hid := SwapiService.extractPlanetId (sc_homeworld c)).
  destruct (getWeatherByPlanet_run env (pd_name (planet_view env hid))
              (record_call (PlanetCall hid) (elapsed_of (http_planets env hid))
                 (record_call (PeopleCall id) t w)))
    as (res & nw & w3 & Hrun & Hok & Hdata & _ & _ & _ & _).
  pose proof (baseHandler_miss_run env event w c t res nw w3 Hmiss Hpeople Hrun Hok Hdata)
    as Hhandler.
  cbv zeta in Hhandler. fold id hid in Hhandler.
  pose proof (getWeatherByPlanet_upstream env (pd_name (planet_view env hid))
                (record_call (PlanetCall hid) (elapsed_of (http_planets env hid))
                   (record_call (PeopleCall id) t w))) as Hcalls.
  rewrite Hrun in Hcalls. cbn [snd record_call upstream] in Hcalls.
  subst run. rewrite Hhandler. cbn [fst snd].
  eexists.
  exists (PlanetCall hid ::
          if str_truthy (WeatherService.apiKey env)
          then [WeatherCall (WeatherService.mapPlanetToLocation
                               (pd_name (planet_view env hid)))]
          else []).
  split; [reflexivity |]. split; [reflexivity |]. split; [reflexivity |].
  split; [reflexivity |]. split; [reflexivity |].
  match goal with
  | |- upstream (persist _ _ ?d ?total _) = _ =>
      destruct (persist_frame env event d total w3) as (_ & Hup & _); rewrite Hup
  end.
  rewrite Hcalls.
  destruct (str_truthy (WeatherService.apiKey env)); rewrite <- ?app_assoc; reflexivity.
Qed.

(** C10: a request without a character parameter, or with an empty one, is
    served as the request for character 1 is. The cache is read under
    "fusioned:1" and a hit is answered from it, with status 200. On a miss
    the Star Wars provider is asked for people/1 before anything else; when
    it delivers the character the answer is 200 with that character, under
    the id 1. The only rejection is the 400 of a character 1 that the
    provider does not deliver. *)
Theorem C10_character_defaults_to_luke (event : APIGatewayProxyEvent) :
  (queryStringParameters event = None \/
   exists q, queryStringParameters event = Some q /\
             (q !! "character" = None \/ q !! "character" = Some "")) ->
  Fusion.characterId_of event = "1" /\
  (forall env w,
     Fusion.baseHandler env event w =
       Fusion.baseHandler env (with_character "1" event) w) /\
  (forall env w cached,
     CacheService.get env "fusioned:1" w = (Returned (Some cached), w) ->
     Fusion.baseHandler env event w =
       (Returned
          (success cached (requestId event) true
             [ ("characterId", MStr "1"); ("duration", MNum 0); ("cached", MBool true) ]
             (clock w)),
        w) /\
     answer_status (fst (Fusion.baseHandler env event w)) = Some 200) /\
  (forall env w c t,
     CacheService.get env "fusioned:1" w = (Returned None, w) ->
     http_people env "1" = HttpOk c t ->
     exists d calls,
       answer_fusion (fst (Fusion.baseHandler env event w)) = Some d /\
       answer_status (fst (Fusion.baseHandler env event w)) = Some 200 /\
       obj_get (Traffic.answer_meta (fst (Fusion.baseHandler env event w))) "characterId" =
         Some (MStr "1") /\
       cv_id (character d) = "1" /\
       cv_name (character d) = sc_name c /\
       upstream (snd (Fusion.baseHandler env event w)) =
         (upstream w ++ PeopleCall "1" :: calls)%list) /\
  (forall env w message t,
     CacheService.get env "fusioned:1" w = (Returned None, w) ->
     http_people env "1" = HttpError message t ->
     Fusion.baseHandler env event w =
       (Returned
          (badRequest "Character 1 not found or unavailable" (requestId event)
             (clock w + t)),
        record_call (PeopleCall "1") t w)).
Proof.
  intros Habsent.
  assert (Hid : Fusion.characterId_of event = "1").
  { unfold Fusion.characterId_of.
    destruct Habsent as [-> | (q & -> & [-> | ->])]; reflexivity. }
  assert (Hid' : Fusion.characterId_of (with_character "1" event) = "1").
  { unfold Fusion.characterId_of, with_character. cbn. rewrite lookup_insert_eq. reflexivity. }
  assert (Hkey : CacheService.fusionKey (Fusion.characterId_of event) = "fusioned:1").
  { rewrite Hid. reflexivity. }
  split; [exact Hid |]. split; [| split; [| split]].
  - intros env w. unfold Fusion.baseHandler, Fusion.fusionedData_of.
    rewrite Hid, Hid'. reflexivity.
  - intros env w cached Hhit. rewrite <- Hkey in Hhit.
    rewrite (baseHandler_hit env event w cached Hhit), Hid. split; reflexivity.
  - intros env w c t Hmiss Hpeople. rewrite <- Hkey in Hmiss. rewrite <- Hid in Hpeople.
    destruct (baseHandler_fresh_character env event w c t Hmiss Hpeople)
      as (d & calls & Hd & Hstatus & Hmeta & Hcv & Hname & Hcalls).
    rewrite Hid in Hmeta, Hcv, Hcalls.
    exists d, calls. repeat (split; [assumption |]). assumption.
  - intros env w message t Hmiss Hfail.
    unfold Fusion.baseHandler, try_catch, bind.
    rewrite Hid. change (CacheService.fusionKey "1") with "fusioned:1".
    rewrite Hmiss, getCharacter_run, Hfail. reflexivity.
Qed.

Lemma C10_character_defaults_to_luke_witness :
  Fusion.characterId_of fusion_bare = "1" /\
  Fusion.characterId_of (event_of (Some {[ "character" := "" ]})) = "1" /\
  (exists d calls,
     answer_fusion (fst (Fusion.baseHandler env_live fusion_bare world0)) = Some d /\
     answer_status (fst (Fusion.baseHandler env_live fusion_bare world0)) = Some 200 /\
     obj_get (Traffic.answer_meta (fst (Fusion.baseHandler env_live fusion_bare world0)))
       "characterId" = Some (MStr "1") /\
     cv_id (character d) = "1" /\
     cv_name (character d) = "Luke Skywalker" /\
     upstream (snd (Fusion.baseHandler env_live fusion_bare world0)) =
       PeopleCall "1" :: calls) /\
  (exists item,
     cacheTable (snd (Fusion.baseHandler env_live fusion_bare world0)) !! "fusioned:1" =
       Some item /\
     answer_status
       (fst (Fusion.baseHandler env_live (event_of (Some {[ "character" := "" ]}))
               (snd (Fusion.baseHandler env_live fusion_bare world0)))) = Some 200).
Proof.
  split; [| split; [| split]].
  - exact (proj1 (C10_character_defaults_to_luke fusion_bare (or_introl eq_refl))).
  - refine (proj1 (C10_character_defaults_to_luke
                     (event_of (Some {[ "character" := "" ]})) _)).
    right. eexists. split; [reflexivity |]. right. reflexivity.
  - exact (proj1 (proj2 (proj2 (proj2 (C10_character_defaults_to_luke fusion_bare
                                         (or_introl eq_refl)))))
             env_live world0 luke 120 eq_refl eq_refl).
  - eexists. split; [vm_compute; reflexivity |].
    refine (proj2 (proj1 (proj2 (proj2 (C10_character_defaults_to_luke
                                          (event_of (Some {[ "character" := "" ]})) _)))
                     env_live _ _ _)).
    + right. eexists. split; [reflexivity |]. right. reflexivity.
    + vm_compute. reflexivity.
Defined.

(** ** The rate limiter *)

(** Without an exception in the limiter itself: the request is rejected
    when the count has reached the limit, and otherwise the count is
    written back, one higher, before the handler runs. *)
Lemma rateLimiter_run {D} (options : RateLimiter.RateLimitOptions)
    (h : APIGatewayProxyEvent -> M (APIGatewayProxyResult D))
    (env : Env) (event : APIGatewayProxyEvent) (w : World) :
  limiter_fault env = None ->
  let limit := effective_limit options env in
  let window := effective_window options env in
  let count := current_count env event w in
  RateLimiter.rateLimiter options h env event w =
  if num_ge count limit
  then (Returned (tooManyRequests (RateLimiter.limit_message limit window)
                    (requestId event) (clock w)), w)
  else try_catch (h event) (fun _ => h event)
         (snd (CacheService.set env (RateLimiter.rateKey event)
                 (CounterObj (num_add count (Num 1))) (num_mul window (Num 60)) w)).
Proof.
  intros Hnone. cbv zeta. unfold effective_limit, effective_window, current_count.
  unfold RateLimiter.rateLimiter, RateLimiter.fault, try_catch, bind.
  rewrite Hnone. cbn [bool_decide decide_rel].
  repeat (case_bool_decide; [discriminate |]).
  cbv beta iota delta [ret].
  rewrite !get_run. cbv beta iota. cbn [fst].
  match goal with
  | |- context [num_ge ?c ?l] => destruct (num_ge c l)
  end.
  - reflexivity.
  - rewrite set_total. reflexivity.
Qed.








(** ** The history handler *)

Lemma history_rejects (env : Env) (event : APIGatewayProxyEvent) (w : World)
    (message : string) :
  History.validate (History.parse event) = Some message ->
  History.handler env event w =
    (Returned (badRequest message (requestId event) (clock w)), w).
Proof.
  intros Hinvalid. unfold History.handler, try_catch, bind. rewrite Hinvalid. reflexivity.
Qed.



(** The times are read as doubles: 9007199254740993 and 9007199254740992
    are both read as 2^53, the start is not after the end and the request
    passes the checks; the store's client then refuses the number, which
    is not a safe integer, and the answer is 500, not 400. *)
Lemma history_times_read_as_doubles :
  let event :=
    history_event
      (Some {[ "startTime" := "9007199254740993"; "endTime" := "9007199254740992" ]}) in
  History.startTime (History.parse event) = Some (Num (2 ^ 53)) /\
  History.endTime (History.parse event) = Some (Num (2 ^ 53)) /\
  History.validate (History.parse event) = None /\
  answer_status (fst (History.handler env_live event world0)) = Some 500 /\
  scans (snd (History.handler env_live event world0)) = [].
Proof. repeat split; vm_compute; reflexivity. Qed.


(** * Further properties of the code *)

(** ** The rate limiter over several requests *)

Lemma current_count_lookup (env : Env) (event : APIGatewayProxyEvent) (w : World) :
  cache_up env = true ->
  current_count env event w =
  match cacheTable w !! RateLimiter.rateKey event with
  | Some item => RateLimiter.parse_count (ci_value item)
  | None => Num 0
  end.
Proof.
  intros Hup. unfold current_count. rewrite get_run, Hup. cbn [fst].
  destruct (cacheTable w !! RateLimiter.rateKey event); reflexivity.
Qed.

Lemma parse_count_safe (z : Z) :
  safe_integer z = true -> RateLimiter.parse_count (CounterObj (Num z)) = Num z.
Proof.
  intros Hsafe. unfold RateLimiter.parse_count.
  assert (Hsmall : (Z.abs z <? 10 ^ 21) = true).
  { apply Z.ltb_lt. apply safe_integer_bound in Hsafe.
    change (2 ^ 53) with 9007199254740992 in Hsafe.
    change (10 ^ 21) with 1000000000000000000000. lia. }
  rewrite Hsmall. exact (to_double_safe z Hsafe).
Qed.

(** A counter that is a safe integer, written at a time within the range
    of [Date] for a window of moderate length, passes [marshall]. *)
Lemma counter_marshallable (c m now : Z) :
  safe_integer c = true ->
  window_writable m = true ->
  valid_time now = true ->
  safe_integer (m * 60) = true /\
  CacheService.marshallable (CounterObj (Num c)) (Num (now / 1000 + m * 60)) now = true.
Proof.
  intros Hc Hm Hnow.
  unfold window_writable, MAX_SAFE_INTEGER in Hm. apply Z.leb_le in Hm.
  unfold valid_time in Hnow. apply andb_prop in Hnow as [Hlow Hhigh].
  apply Z.leb_le in Hlow, Hhigh.
  change (2 ^ 53) with 9007199254740992 in Hm.
  assert (Hdiv : 0 <= now / 1000 <= 8640000000000).
  { split; [apply Z.div_pos; lia |]. apply Z.div_le_upper_bound; lia. }
  assert (Hseconds : safe_integer (m * 60) = true).
  { apply safe_integer_bound. change (2 ^ 53) with 9007199254740992. lia. }
  assert (Httl : safe_integer (now / 1000 + m * 60) = true).
  { apply safe_integer_bound. change (2 ^ 53) with 9007199254740992. lia. }
  assert (Hcreated : safe_integer now = true).
  { apply safe_integer_bound. change (2 ^ 53) with 9007199254740992. lia. }
  split; [exact Hseconds |].
  unfold CacheService.marshallable. cbn [CacheService.marshalls_number].
  rewrite Hc, Httl, Hcreated. reflexivity.
Qed.

Lemma requests_count_up {D} (options : RateLimiter.RateLimitOptions)
    (h : APIGatewayProxyEvent -> M (APIGatewayProxyResult D))
    (env : Env) (event : APIGatewayProxyEvent) (L m : Z) :
  limiter_fault env = None ->
  cache_up env = true ->
  effective_limit options env = Num L ->
  effective_window options env = Num m ->
  safe_integer L = true ->
  window_writable m = true ->
  (forall w0, valid_time (clock w0) = true ->
     exists r w1,
       h event w0 = (Returned r, w1) /\
       cacheTable w1 !! RateLimiter.rateKey event =
         cacheTable w0 !! RateLimiter.rateKey event /\
       valid_time (clock w1) = true) ->
  forall (n : nat) (w : World) (c : Z),
    valid_time (clock w) = true ->
    current_count env event w = Num c ->
    0 <= c ->
    c + Z.of_nat n <= L ->
    current_count env event (snd (Traffic.requests options h env event n w)) =
      Num (c + Z.of_nat n) /\
    Forall (fun answer => exists w0, answer = fst (h event w0))
           (fst (Traffic.requests options h env event n w)).
Proof.
  intros Hnone Hup Hlimit Hwindow Hsafe Hmoderate Hquiet.
  apply safe_integer_bound in Hsafe.
  induction n as [| n IH]; intros w c Hvalid Hcount Hpos Hroom.
  { cbn [Traffic.requests fst snd]. rewrite Hcount. split; [f_equal; lia | constructor]. }
  cbn [Traffic.requests].
  rewrite (rateLimiter_run options h env event w Hnone). cbv zeta.
  rewrite Hlimit, Hwindow, Hcount. cbn [num_ge].
  rewrite (proj2 (Z.leb_gt L c)) by lia.
  assert (Hnext_safe : safe_integer (c + 1) = true) by (apply safe_integer_bound; lia).
  destruct (counter_marshallable (c + 1) m (clock w) Hnext_safe Hmoderate Hvalid)
    as [Hseconds Hm].
  rewrite (num_add_safe _ _ Hnext_safe), (num_mul_safe _ _ Hseconds).
  rewrite (set_run env (RateLimiter.rateKey event) (CounterObj (Num (c + 1))) (m * 60) w
             Hup Hm).
  cbn [snd]. unfold try_catch.
  match goal with
  | |- context [h event ?w1] =>
      destruct (Hquiet w1 Hvalid) as (r & w2 & Hh & Hkeep & Hvalid2); rewrite Hh
  end.
  assert (Hnext : current_count env event w2 = Num (c + 1)).
  { rewrite (current_count_lookup env event w2 Hup), Hkeep. cbn [set_cacheTable cacheTable].
    rewrite lookup_insert_eq. cbn [ci_value]. exact (parse_count_safe _ Hnext_safe). }
  destruct (IH w2 (c + 1) Hvalid2 Hnext ltac:(lia) ltac:(lia)) as (Hfinal & Hanswers).
  destruct (Traffic.requests options h env event n w2) as [answers w3] eqn:Hrun.
  cbn [fst snd] in *. split.
  - rewrite Hfinal. f_equal. lia.
  - constructor; [| exact Hanswers].
    eexists. rewrite Hh. reflexivity.
Qed.

(** X1: starting from an empty counter, the first [limit] requests of a
    client all reach the handler and leave the counter at [limit]; the next
    one is answered 429 and changes nothing. This is so when the store
    accepts every counter: the limit is a safe integer, the window is short
    enough for its expiry to be one, and the clock stays within the range
    of [Date]. *)
Theorem limiter_admits_exactly_the_limit {D} (options : RateLimiter.RateLimitOptions)
    (h : APIGatewayProxyEvent -> M (APIGatewayProxyResult D))
    (env : Env) (event : APIGatewayProxyEvent) (w : World) (L m : Z) :
  limiter_fault env = None ->
  cache_up env = true ->
  effective_limit options env = Num L ->
  effective_window options env = Num m ->
  0 <= L ->
  safe_integer L = true ->
  window_writable m = true ->
  valid_time (clock w) = true ->
  cacheTable w !! RateLimiter.rateKey event = None ->
  (forall w0, valid_time (clock w0) = true ->
     exists r w1,
       h event w0 = (Returned r, w1) /\
       cacheTable w1 !! RateLimiter.rateKey event =
         cacheTable w0 !! RateLimiter.rateKey event /\
       valid_time (clock w1) = true) ->
  let run := Traffic.requests options h env event (Z.to_nat L) w in
  length (fst run) = Z.to_nat L /\
  Forall (fun answer => exists w0, answer = fst (h event w0)) (fst run) /\
  current_count env event (snd run) = Num L /\
  RateLimiter.rateLimiter options h env event (snd run) =
    (Returned (tooManyRequests (RateLimiter.limit_message (Num L) (Num m))
                 (requestId event) (clock (snd run))), snd run).
Proof.
  intros Hnone Hup Hlimit Hwindow Hpos Hsafe Hmoderate Hvalid Hfresh Hquiet run.
  assert (Hzero : current_count env event w = Num 0).
  { rewrite (current_count_lookup env event w Hup), Hfresh. reflexivity. }
  destruct (requests_count_up options h env event L m Hnone Hup Hlimit Hwindow Hsafe
              Hmoderate Hquiet (Z.to_nat L) w 0 Hvalid Hzero ltac:(lia) ltac:(lia))
    as (Hcount & Hanswers).
  fold run in Hcount, Hanswers.
  replace (0 + Z.of_nat (Z.to_nat L)) with L in Hcount by lia.
  split; [| split; [exact Hanswers | split; [exact Hcount |]]].
  - subst run. clear. generalize (Z.to_nat L) as n. intros n. revert w.
    induction n as [| n IH]; intros w; [reflexivity |].
    cbn [Traffic.requests].
    destruct (RateLimiter.rateLimiter options h env event w) as [a w'].
    specialize (IH w').
    destruct (Traffic.requests options h env event n w') as [answers w''].
    cbn [fst length] in *. rewrite IH. reflexivity.
  - rewrite (rateLimiter_run options h env event (snd run) Hnone). cbv zeta.
    rewrite Hlimit, Hwindow, Hcount. cbn [num_ge].
    rewrite Z.leb_refl. reflexivity.
Qed.

Lemma limiter_admits_exactly_the_limit_witness :
  let env := with_rate_env (Some "3") None env_live in
  let run := Traffic.requests default_options pong env fusion_luke 3 world0 in
  length (fst run) = 3%nat /\
  Forall (fun answer => exists w0, answer = fst (pong fusion_luke w0)) (fst run) /\
  current_count env fusion_luke (snd run) = Num 3 /\
  RateLimiter.rateLimiter default_options pong env fusion_luke (snd run) =
    (Returned (tooManyRequests (RateLimiter.limit_message (Num 3) (Num 60))
                 "req-1" (clock (snd run))), snd run).
Proof.
  intros env run.
  apply (limiter_admits_exactly_the_limit default_options pong env fusion_luke world0 3 60);
    try reflexivity.
  - lia.
  - intros w0 Hvalid. exists (success (CounterObj (Num 0)) "req-1" false [] 0), w0.
    split; [reflexivity |]. split; [reflexivity | exact Hvalid].
Defined.

(** X2: when the wrapped handler itself throws, the limiter's [catch] calls
    it a second time, on the world its first call left behind: the handler
    runs twice for one request. *)
Theorem limiter_reruns_a_failing_handler {D} (options : RateLimiter.RateLimitOptions)
    (h : APIGatewayProxyEvent -> M (APIGatewayProxyResult D))
    (env : Env) (event : APIGatewayProxyEvent) (w : World) (e : string) (w2 : World) :
  limiter_fault env = None ->
  num_ge (current_count env event w) (effective_limit options env) = false ->
  h event
    (snd (CacheService.set env (RateLimiter.rateKey event)
            (CounterObj (num_add (current_count env event w) (Num 1)))
            (num_mul (effective_window options env) (Num 60)) w)) = (Thrown e, w2) ->
  RateLimiter.rateLimiter options h env event w = h event w2.
Proof.
  intros Hnone Hunder Hthrows.
  rewrite (rateLimiter_run options h env event w Hnone). cbv zeta.
  rewrite Hunder. unfold try_catch. rewrite Hthrows. reflexivity.
Qed.

Lemma limiter_reruns_a_failing_handler_witness :
  exists w2,
    RateLimiter.rateLimiter default_options Traffic.flaky env_live fusion_luke world0 =
      Traffic.flaky fusion_luke w2 /\
    ids w2 = 1%nat /\
    ids (snd (RateLimiter.rateLimiter default_options Traffic.flaky env_live fusion_luke
                world0)) = 2%nat.
Proof.
  eexists. split; [| split].
  - eapply (limiter_reruns_a_failing_handler default_options Traffic.flaky env_live
              fusion_luke world0); reflexivity.
  - reflexivity.
  - vm_compute. reflexivity.
Defined.

(** X3: a RATE_LIMIT_REQUESTS that does not start with a number switches
    the limiter off: whatever the count, the request is counted and handed
    to the handler, and no request is answered 429 by the limiter. *)
Theorem unreadable_limit_never_rejects {D} (options : RateLimiter.RateLimitOptions)
    (h : APIGatewayProxyEvent -> M (APIGatewayProxyResult D))
    (env : Env) (event : APIGatewayProxyEvent) (w : World) (text : string) :
  limiter_fault env = None ->
  RATE_LIMIT_REQUESTS env = Some text ->
  str_truthy text = true ->
  parseInt text 10 = NaN ->
  RateLimiter.rateLimiter options h env event w =
    try_catch (h event) (fun _ => h event)
      (snd (CacheService.set env (RateLimiter.rateKey event)
              (CounterObj (num_add (current_count env event w) (Num 1)))
              (num_mul (effective_window options env) (Num 60)) w)).
Proof.
  intros Hnone Htext Htruthy Hnan.
  rewrite (rateLimiter_run options h env event w Hnone). cbv zeta.
  assert (Hlimit : effective_limit options env = NaN).
  { unfold effective_limit, RateLimiter.env_number. rewrite Htext, Htruthy. exact Hnan. }
  rewrite Hlimit.
  destruct (current_count env event w) as [z | | []]; reflexivity.
Qed.

Lemma unreadable_limit_never_rejects_witness :
  let env := with_rate_env (Some "unlimited") None env_live in
  current_count env fusion_luke world_stale = Num 100 /\
  fst (RateLimiter.rateLimiter default_options pong env fusion_luke world_stale) =
    fst (pong fusion_luke world_stale) /\
  current_count env fusion_luke
    (snd (RateLimiter.rateLimiter default_options pong env fusion_luke world_stale)) = Num 101.
Proof.
  intros env.
  pose proof (unreadable_limit_never_rejects default_options pong env fusion_luke
                world_stale "unlimited" eq_refl eq_refl eq_refl eq_refl) as H.
  split; [reflexivity |]. rewrite H. split; vm_compute; reflexivity.
Defined.

(** ** The fusion handler under failures *)

(** X4: the fusion handler always answers, and never with an internal
    error, whatever the providers and the two tables do: 400 exactly when
    the cache misses and the character cannot be fetched, 200 otherwise;
    a successful answer is flagged [cached] exactly when it came from the
    cache. *)
Theorem fusion_answers_200_or_400 (env : Env) (event : APIGatewayProxyEvent) (w : World) :
  exists response w',
    Fusion.baseHandler env event w = (Returned response, w') /\
    statusCode response = (if Traffic.aborts env event w then 400 else 200) /\
    obj_get (Traffic.answer_meta (Returned response)) "cached" =
      if Traffic.aborts env event w then None
      else Some (MBool (match Traffic.cached_for env event w with
                        | Some _ => true
                        | None => false
                        end)).
Proof.
  unfold Traffic.aborts, Traffic.cached_for.
  destruct (fst (CacheService.get env
                   (CacheService.fusionKey (Fusion.characterId_of event)) w))
    as [[cached |] | e] eqn:Hget.
  - assert (Hhit : CacheService.get env
                     (CacheService.fusionKey (Fusion.characterId_of event)) w =
                   (Returned (Some cached), w)).
    { rewrite get_run in Hget |- *. cbn [fst] in Hget. congruence. }
    do 2 eexists. split; [exact (baseHandler_hit env event w cached Hhit) |].
    split; reflexivity.
  - assert (Hmiss : CacheService.get env
                      (CacheService.fusionKey (Fusion.characterId_of event)) w =
                    (Returned None, w)).
    { rewrite get_run in Hget |- *. cbn [fst] in Hget. congruence. }
    destruct (http_people env (Fusion.characterId_of event)) as [c t | m t] eqn:Hpeople.
    + destruct (baseHandler_fresh env event w c t Hmiss Hpeople)
        as (d & total & w3 & _ & _ & _ & _ & _ & _ & _ & Hrun).
      do 2 eexists. split; [exact Hrun |]. split; reflexivity.
    + do 2 eexists. split.
      * unfold Fusion.baseHandler, try_catch, bind.
        rewrite Hmiss, getCharacter_run, Hpeople. reflexivity.
      * split; reflexivity.
  - rewrite get_run in Hget. discriminate Hget.
Qed.

(** X5: a failure of the history table does not fail the request: the
    answer is still the 200 with the fresh result (its meta even says
    [stored]) and the history is as it was; the cache holds the result
    when it can be reached and the numbers of the answer pass [marshall]. *)
Theorem history_failure_is_absorbed (env : Env) (event : APIGatewayProxyEvent) (w : World)
    (c : SwapiCharacter) (t : Z) :
  let id := Fusion.characterId_of event in
  let run := Fusion.baseHandler env event w in
  CacheService.get env (CacheService.fusionKey id) w = (Returned None, w) ->
  http_people env id = HttpOk c t ->
  main_up env = false ->
  exists d,
    answer_fusion (fst run) = Some d /\
    answer_status (fst run) = Some 200 /\
    obj_get (Traffic.answer_meta (fst run)) "stored" = Some (MBool true) /\
    mainTable (snd run) = mainTable w /\
    (cache_up env = true ->
     answer_writable (fst run) = true ->
     ci_value <$> cacheTable (snd run) !! CacheService.fusionKey id = Some (FusionObj d)) /\
    (cache_up env = false \/ CacheService.storable d = false ->
     cacheTable (snd run) = cacheTable w).
Proof.
  intros id run Hmiss Hpeople Hdown.
  destruct (baseHandler_fresh env event w c t Hmiss Hpeople)
    as (d & total & w3 & _ & Hc & Hm & _ & _ & _ & _ & Hrun).
  subst run. rewrite Hrun. cbn [fst snd].
  exists d. split; [reflexivity |]. split; [reflexivity |]. split; [reflexivity |].
  split; [| split].
  - rewrite persist_main, Hdown, andb_false_r. exact Hm.
  - intros Hup Hwritable.
    destruct (answer_writable_fresh _ _ _ _ _ Hwritable) as (_ & Hmarshall & _).
    rewrite (persist_cache _ _ _ _ _ Hup Hmarshall). fold id.
    rewrite lookup_insert_eq. reflexivity.
  - intros Hrefused. rewrite persist_cache_unchanged; [exact Hc |].
    destruct Hrefused as [Hcache | Hstorable]; [left; exact Hcache | right].
    unfold CacheService.marshallable. rewrite Hstorable. reflexivity.
Qed.

Lemma history_failure_is_absorbed_witness :
  let env := with_stores true false env_live in
  let run := Fusion.baseHandler env fusion_luke world0 in
  exists d,
    answer_fusion (fst run) = Some d /\
    answer_status (fst run) = Some 200 /\
    obj_get (Traffic.answer_meta (fst run)) "stored" = Some (MBool true) /\
    mainTable (snd run) = [] /\
    (cache_up env = true ->
     answer_writable (fst run) = true ->
     ci_value <$> cacheTable (snd run) !! "fusioned:1" = Some (FusionObj d)) /\
    (cache_up env = false \/ CacheService.storable d = false ->
     cacheTable (snd run) = ∅).
Proof.
  exact (history_failure_is_absorbed (with_stores true false env_live) fusion_luke world0
           luke 120 eq_refl eq_refl eq_refl).
Defined.

(** X6: without the cache table nothing is remembered: every request goes
    to the providers again and is answered 200 as a fresh result; each
    adds its own row to the history when the numbers of its answer pass
    [marshall]. *)
Theorem cache_outage_repeats_the_work (steps : list Later) :
  forall w : World,
    Forall (fun s =>
              cache_up (later_env s) = false /\ main_up (later_env s) = true /\
              exists c t,
                http_people (later_env s) (Fusion.characterId_of (later_event s)) =
                  HttpOk c t)
           steps ->
    let run := repeat_fusion steps w in
    (Forall (fun answer => answer_writable answer = true) (fst run) ->
     length (mainTable (snd run)) = (length (mainTable w) + length steps)%nat) /\
    (length (upstream w) + 2 * length steps <= length (upstream (snd run)))%nat /\
    Forall (fun answer =>
              answer_status answer = Some 200 /\
              obj_get (Traffic.answer_meta answer) "cached" = Some (MBool false))
           (fst run).
Proof.
  induction steps as [| s rest IH]; intros w Hsteps run.
  { subst run. cbn. repeat split; try lia. constructor. }
  inversion Hsteps as [| ? ? (Hdown & Hmain & c & t & Hpeople) Hrest]; subst.
  subst run. cbn [repeat_fusion].
  set (w1 := Dynamo.sweep (later_victims s) (Dynamo.tick (later_dt s) w)).
  assert (Hmiss : CacheService.get (later_env s)
                    (CacheService.fusionKey (Fusion.characterId_of (later_event s))) w1 =
                  (Returned None, w1)).
  { rewrite get_run, Hdown. reflexivity. }
  destruct (baseHandler_fresh (later_env s) (later_event s) w1 c t Hmiss Hpeople)
    as (d & total & w3 & Hw3 & _ & Hm & _ & _ & _ & _ & Hrun).
  rewrite Hrun.
  specialize (IH (persist (later_env s) (later_event s) d total w3) Hrest). cbv zeta in IH.
  destruct (repeat_fusion rest (persist (later_env s) (later_event s) d total w3))
    as [answers w'] eqn:Hrest_run.
  cbn [fst snd length] in *.
  destruct IH as (Hrows & Hcalls & Hanswers).
  assert (Hcall : (length (upstream w) + 2 <=
                   length (upstream (persist (later_env s) (later_event s) d total w3)))%nat).
  { destruct (persist_frame (later_env s) (later_event s) d total w3) as (_ & Hup & _).
    rewrite Hup, Hw3, getWeatherByPlanet_upstream.
    destruct (str_truthy (WeatherService.apiKey (later_env s)));
      cbn [record_call upstream]; rewrite ?length_app; cbn; subst w1; cbn; lia. }
  split; [| split; [lia |]].
  - intros Hall. apply Forall_cons_1 in Hall as [Hhead Htail].
    destruct (answer_writable_fresh _ _ _ _ _ Hhead) as (_ & _ & Hwritable).
    assert (Hrow : length (mainTable (persist (later_env s) (later_event s) d total w3)) =
                   S (length (mainTable w))).
    { rewrite persist_main, Hwritable, Hmain, Hm. cbn [andb].
      rewrite length_app. cbn. subst w1. cbn. lia. }
    specialize (Hrows Htail). lia.
  - constructor; [split; reflexivity | exact Hanswers].
Qed.

Lemma cache_outage_repeats_the_work_witness :
  let down := with_stores false true env_live in
  let steps := [ {| later_event := fusion_luke; later_env := down; later_dt := 1000;
                    later_victims := ∅ |};
                 {| later_event := fusion_luke_again; later_env := down; later_dt := 1000;
                    later_victims := ∅ |} ] in
  let run := repeat_fusion steps world0 in
  (Forall (fun answer => answer_writable answer = true) (fst run) ->
   length (mainTable (snd run)) = 2%nat) /\
  (4 <= length (upstream (snd run)))%nat /\
  Forall (fun answer =>
            answer_status answer = Some 200 /\
            obj_get (Traffic.answer_meta answer) "cached" = Some (MBool false))
         (fst run).
Proof.
  intros down steps run.
  apply (cache_outage_repeats_the_work steps world0).
  repeat constructor; exists luke, 120; reflexivity.
Defined.

(** X7: on a miss with both tables reachable and an answer whose numbers
    pass [marshall], one and the same result goes to the caller, to the
    cache and to the history: the history row carries the result, the
    character and the request it was computed for, and the processing time
    announced in the answer, which is the sum of the three durations. *)
Theorem fresh_result_is_written_through (env : Env) (event : APIGatewayProxyEvent)
    (w : World) (c : SwapiCharacter) (t : Z) :
  let id := Fusion.characterId_of event in
  let run := Fusion.baseHandler env event w in
  CacheService.get env (CacheService.fusionKey id) w = (Returned None, w) ->
  http_people env id = HttpOk c t ->
  cache_up env = true ->
  main_up env = true ->
  answer_writable (fst run) = true ->
  exists d item record total,
    answer_fusion (fst run) = Some d /\
    obj_get (Traffic.answer_meta (fst run)) "duration" = Some (MNum total) /\
    cacheTable (snd run) !! CacheService.fusionKey id = Some item /\
    ci_value item = FusionObj d /\
    mainTable (snd run) =
      (mainTable w ++
       [ {| row_pk := "FUSIONED#" +:+ id;
            row_sk := "FUSION#" +:+ pretty (fr_timestamp record) +:+ "#" +:+ fr_id record;
            row_record := FusionRec record |} ])%list /\
    fr_data record = d /\
    fr_characterId record = id /\
    fr_source record = "fusion" /\
    rm_requestId (fr_metadata record) = requestId event /\
    rm_cached (fr_metadata record) = false /\
    rm_processingTime (fr_metadata record) = total /\
    total = pt_character (fm_processingTime (meta d)) +
            pt_planet (fm_processingTime (meta d)) +
            pt_weather (fm_processingTime (meta d)).
Proof.
  intros id run Hmiss Hpeople Hcache Hmain.
  destruct (baseHandler_fresh env event w c t Hmiss Hpeople)
    as (d & total & w3 & _ & _ & Hm & _ & _ & _ & Htotal & Hrun).
  subst run. rewrite Hrun. cbn [fst snd]. intros Hwritable.
  destruct (answer_writable_fresh _ _ _ _ _ Hwritable) as (_ & Hmarshall & Hrecord).
  pose proof (persist_main env event d total w3) as Hrows.
  rewrite Hrecord, Hmain, Hm in Hrows. cbn [andb] in Hrows.
  exists d.
  exists {| ci_value := FusionObj d;
            ci_ttl := clock w3 / 1000 + CacheService.FUSIONED_DATA_TTL;
            ci_createdAt := clock w3 |}.
  exists {| fr_id := uuidv4 env (ids w3);
            fr_characterId := id;
            fr_data := d;
            fr_timestamp := clock w3;
            fr_ttl := clock w3 / 1000 + CacheService.FUSIONED_DATA_TTL;
            fr_source := "fusion";
            fr_metadata :=
              {| rm_requestId := requestId event;
                 rm_processingTime := total;
                 rm_cached := false |} |}.
  exists total.
  split; [reflexivity |]. split; [reflexivity |].
  split; [rewrite (persist_cache _ _ _ _ _ Hcache Hmarshall); apply lookup_insert_eq |].
  split; [reflexivity |].
  split; [exact Hrows |].
  repeat (split; [reflexivity |]). exact Htotal.
Qed.

Lemma fresh_result_is_written_through_witness :
  let run := Fusion.baseHandler env_live fusion_luke world0 in
  exists d item record total,
    answer_fusion (fst run) = Some d /\
    obj_get (Traffic.answer_meta (fst run)) "duration" = Some (MNum total) /\
    cacheTable (snd run) !! "fusioned:1" = Some item /\
    ci_value item = FusionObj d /\
    mainTable (snd run) =
      [ {| row_pk := "FUSIONED#1";
           row_sk := "FUSION#" +:+ pretty (fr_timestamp record) +:+ "#" +:+ fr_id record;
           row_record := FusionRec record |} ] /\
    fr_data record = d /\
    fr_characterId record = "1" /\
    fr_source record = "fusion" /\
    rm_requestId (fr_metadata record) = "req-1" /\
    rm_cached (fr_metadata record) = false /\
    rm_processingTime (fr_metadata record) = total /\
    total = pt_character (fm_processingTime (meta d)) +
            pt_planet (fm_processingTime (meta d)) +
            pt_weather (fm_processingTime (meta d)).
Proof.
  exact (fresh_result_is_written_through env_live fusion_luke world0 luke 120
           eq_refl eq_refl eq_refl eq_refl eq_refl).
Defined.

(** X8: on a miss with the character found, each provider is asked once
    and in order: the character, its planet, then the weather of what the
    planet's name maps to; without an API key the weather provider is not
    asked at all. For a planet that could not be fetched the place is
    London; a planet named like a member that every object inherits maps
    to that member instead of a place. *)
Theorem providers_are_asked_once_in_order (env : Env) (event : APIGatewayProxyEvent)
    (w : World) (c : SwapiCharacter) (t : Z) :
  let id := Fusion.characterId_of event in
  let hid := SwapiService.extractPlanetId (sc_homeworld c) in
  let run := Fusion.baseHandler env event w in
  CacheService.get env (CacheService.fusionKey id) w = (Returned None, w) ->
  http_people env id = HttpOk c t ->
  upstream (snd run) =
    (upstream w ++ [PeopleCall id; PlanetCall hid] ++
     if str_truthy (WeatherService.apiKey env)
     then [WeatherCall (WeatherService.mapPlanetToLocation (pd_name (planet_view env hid)))]
     else [])%list /\
  ((exists message t2, http_planets env hid = HttpError message t2) ->
   WeatherService.mapPlanetToLocation (pd_name (planet_view env hid)) = Place "London,UK") /\
  Forall (fun member => WeatherService.mapPlanetToLocation member = Inherited member)
    WeatherService.inheritedMembers.
Proof.
  intros id hid run Hmiss Hpeople. split; [| split].
  - destruct (baseHandler_fresh env event w c t Hmiss Hpeople)
      as (d & total & w3 & Hw3 & _ & _ & _ & _ & _ & _ & Hrun).
    subst run. rewrite Hrun. cbn [snd].
    destruct (persist_frame env event d total w3) as (_ & Hup & _).
    rewrite Hup, Hw3, getWeatherByPlanet_upstream. fold hid.
    cbn [record_call upstream].
    destruct (str_truthy (WeatherService.apiKey env)).
    + rewrite <- !app_assoc. reflexivity.
    + rewrite <- !app_assoc. reflexivity.
  - intros (message & t2 & Hfail). unfold planet_view. rewrite Hfail. reflexivity.
  - repeat constructor.
Qed.

Lemma providers_are_asked_once_in_order_witness :
  let odd :=
    with_planets
      (fun _ => HttpOk {| sp_name := "constructor"; sp_climate := "arid";
                          sp_terrain := "desert" |} 90) env_live in
  upstream (snd (Fusion.baseHandler env_planet_down fusion_luke world0)) =
    [PeopleCall "1"; PlanetCall "1"; WeatherCall (Place "London,UK")] /\
  upstream (snd (Fusion.baseHandler env_nokey fusion_luke world0)) =
    [PeopleCall "1"; PlanetCall "1"] /\
  upstream (snd (Fusion.baseHandler env_live fusion_luke world0)) =
    [PeopleCall "1"; PlanetCall "1"; WeatherCall (Place "Tucson,US")] /\
  upstream (snd (Fusion.baseHandler odd fusion_luke world0)) =
    [PeopleCall "1"; PlanetCall "1"; WeatherCall (Inherited "constructor")].
Proof.
  intros odd. split; [| split; [| split]].
  - exact (proj1 (providers_are_asked_once_in_order env_planet_down fusion_luke world0
                    luke 120 eq_refl eq_refl)).
  - exact (proj1 (providers_are_asked_once_in_order env_nokey fusion_luke world0
                    luke 120 eq_refl eq_refl)).
  - exact (proj1 (providers_are_asked_once_in_order env_live fusion_luke world0
                    luke 120 eq_refl eq_refl)).
  - exact (proj1 (providers_are_asked_once_in_order odd fusion_luke world0
                    luke 120 eq_refl eq_refl)).
Defined.

(** X9: no result computed by the handler carries the weather the handler
    keeps for a failed weather stage: the weather stage never reports a
    failure, so the weather quality is always "complete", the weather is
    never the "unavailable" object with source "mock", and the rating is
    never "unknown". *)
Theorem weather_fallback_branch_is_dead (env : Env) (event : APIGatewayProxyEvent)
    (w : World) (d : FusionedData) :
  Traffic.cached_for env event w = None ->
  answer_fusion (fst (Fusion.baseHandler env event w)) = Some d ->
  dq_weather (dataQuality (fusion d)) = "complete" /\
  (wd_source (weather d) = "OPENWEATHERMAP" \/ wd_source (weather d) = "MOCK_DATA") /\
  wd_status (weather d) = None /\
  compatibility (fusion d) <> "unknown".
Proof.
  intros Hnone Hanswer.
  assert (Hmiss : CacheService.get env
                    (CacheService.fusionKey (Fusion.characterId_of event)) w =
                  (Returned None, w)).
  { unfold Traffic.cached_for in Hnone. rewrite get_run in Hnone |- *.
    cbn [fst] in Hnone. rewrite Hnone. reflexivity. }
  destruct (http_people env (Fusion.characterId_of event)) as [c t | m t] eqn:Hpeople.
  2: { unfold Fusion.baseHandler, try_catch, bind in Hanswer.
       rewrite Hmiss, getCharacter_run, Hpeople in Hanswer. discriminate Hanswer. }
  set (hid := SwapiService.extractPlanetId (sc_homeworld c)).
  destruct (getWeatherByPlanet_run env (pd_name (planet_view env hid))
              (record_call (PlanetCall hid) (elapsed_of (http_planets env hid))
                 (record_call (PeopleCall (Fusion.characterId_of event)) t w)))
    as (res & nw & w3 & Hrun & Hok & Hdata & _ & _ & _ & Hcase).
  pose proof (baseHandler_miss_run env event w c t res nw w3 Hmiss Hpeople Hrun Hok Hdata)
    as Hhandler.
  cbv zeta in Hhandler. rewrite Hhandler in Hanswer.
  cbn [fst answer_fusion answer_data success createResponse body] in Hanswer.
  injection Hanswer as <-.
  assert (Hsrc : nw_source nw = "OPENWEATHERMAP" \/ nw_source nw = "MOCK_DATA").
  { destruct Hcase as [(_ & raw & t' & _ & ->) | (_ & Hsrc & _)]; [left; reflexivity | auto]. }
  cbn [weather fusion compatibility dataQuality dq_weather Fusion.fusionedData_of
       weather_view wd_source wd_status].
  rewrite Hok. split; [reflexivity |]. split; [exact Hsrc |]. split; [reflexivity |].
  apply compatibility_unknown_only_for_mock. cbn [weather_view wd_source].
  destruct Hsrc as [-> | ->]; discriminate.
Qed.

Lemma weather_fallback_branch_is_dead_witness :
  match answer_fusion (fst (Fusion.baseHandler env_weather_down fusion_luke world0)) with
  | Some d =>
      dq_weather (dataQuality (fusion d)) = "complete" /\
      (wd_source (weather d) = "OPENWEATHERMAP" \/ wd_source (weather d) = "MOCK_DATA") /\
      wd_status (weather d) = None /\
      compatibility (fusion d) <> "unknown"
  | None => False
  end.
Proof.
  destruct (answer_fusion (fst (Fusion.baseHandler env_weather_down fusion_luke world0)))
    as [d |] eqn:Hanswer.
  - exact (weather_fallback_branch_is_dead env_weather_down fusion_luke world0 d
             eq_refl Hanswer).
  - vm_compute in Hanswer. discriminate Hanswer.
Defined.

(** ** The limiter in front of the fusion handler *)

(** X10: the keys of the two users of the cache table never meet: a
    fusion key determines its character, and no rate-limit key is a fusion
    key. So the counter the limiter writes leaves every cached fusion where
    it is: through the exported handler, an admitted request for a cached
    character is answered from the cache, and all that changes in the world
    is the counter, when the store accepts it (the counter, the window in
    seconds and the expiry pass [marshall]). *)
Theorem limiter_and_fusion_share_the_table_safely (env : Env)
    (event : APIGatewayProxyEvent) (w : World) (n m : Z) (item : CacheItem) :
  let id := Fusion.characterId_of event in
  (forall a b, CacheService.fusionKey a = CacheService.fusionKey b -> a = b) /\
  (forall e a, RateLimiter.rateKey e <> CacheService.fusionKey a) /\
  (limiter_fault env = None ->
   cache_up env = true ->
   current_count env event w = Num n ->
   num_ge (Num n) (effective_limit default_options env) = false ->
   effective_window default_options env = Num m ->
   safe_integer (m * 60) = true ->
   CacheService.marshallable (CounterObj (Num (n + 1)))
     (Num (clock w / 1000 + m * 60)) (clock w) = true ->
   cacheTable w !! CacheService.fusionKey id = Some item ->
   Fusion.handler env event w =
     (Returned
        (success (ci_value item) (requestId event) true
           [ ("characterId", MStr id); ("duration", MNum 0); ("cached", MBool true) ]
           (clock w)),
      set_cacheTable
        (<[RateLimiter.rateKey event :=
             {| ci_value := CounterObj (Num (n + 1));
                ci_ttl := clock w / 1000 + m * 60;
                ci_createdAt := clock w |}]> (cacheTable w)) w)).
Proof.
  intros id.
  assert (Hdisjoint : forall e a, RateLimiter.rateKey e <> CacheService.fusionKey a).
  { intros e a. unfold RateLimiter.rateKey, CacheService.fusionKey. cbn. discriminate. }
  split; [| split; [exact Hdisjoint |]].
  - intros a b. unfold CacheService.fusionKey. intros Heq.
    injection Heq as Heq. exact Heq.
  - intros Hnone Hup Hcount Hunder Hwindow Hseconds Hm Hitem.
    assert (Hcounter : safe_integer (n + 1) = true).
    { unfold CacheService.marshallable in Hm.
      apply andb_prop in Hm as [Hm' _]. apply andb_prop in Hm' as [Hm' _]. exact Hm'. }
    unfold Fusion.handler. fold default_options.
    rewrite (rateLimiter_run default_options (Fusion.baseHandler env) env event w Hnone).
    cbv zeta. rewrite Hcount, Hunder, Hwindow.
    rewrite (num_add_safe _ _ Hcounter), (num_mul_safe _ _ Hseconds).
    rewrite (set_run env (RateLimiter.rateKey event) (CounterObj (Num (n + 1))) (m * 60) w
               Hup Hm).
    cbn [snd]. unfold try_catch.
    rewrite (baseHandler_hit env event _ (ci_value item)).
    + reflexivity.
    + rewrite get_run, Hup. cbn [set_cacheTable cacheTable].
      rewrite lookup_insert_ne by apply Hdisjoint.
      fold id. rewrite Hitem. reflexivity.
Qed.

Lemma limiter_and_fusion_share_the_table_safely_witness :
  let first := Fusion.handler env_live fusion_luke world0 in
  exists item,
    cacheTable (snd first) !! "fusioned:1" = Some item /\
    fst (Fusion.handler env_live fusion_luke (snd first)) =
      Returned
        (success (ci_value item) "req-1" true
           [ ("characterId", MStr "1"); ("duration", MNum 0); ("cached", MBool true) ]
           (clock (snd first))).
Proof.
  intros first. eexists. split; [reflexivity |].
  rewrite (proj2 (proj2 (limiter_and_fusion_share_the_table_safely env_live fusion_luke
                           (snd first) 1 60 _)) eq_refl eq_refl eq_refl eq_refl eq_refl
             eq_refl eq_refl eq_refl).
  reflexivity.
Defined.

(** ** The simulated weather *)

Lemma Math_round_between (x : Q) (a b : Z) :
  (inject_Z a - (1 # 2) <= x)%Q ->
  (x < inject_Z b + (1 # 2))%Q ->
  a <= Math_round x <= b.
Proof.
  intros Hlow Hhigh. unfold Math_round. split.
  - rewrite <- (Qfloor_Z a). apply Qfloor_resp_le. lra.
  - assert (Hlt : Qfloor (x + (1 # 2)) < b + 1); [| lia].
    rewrite Zlt_Qlt, inject_Z_plus.
    pose proof (Qfloor_le (x + (1 # 2))) as Hfloor.
    change (inject_Z 1) with 1%Q. lra.
Qed.

Lemma getMockWeatherData_exact (env : Env) (name : string) (d : Z) (e : option string)
    (w : World) :
  WeatherService.getMockWeatherData env name d e w =
  (Returned
     {| res_success := true;
        res_data :=
          Some (WeatherService.mockData name
                  (Math_random env (draws w)) (Math_random env (1 + draws w))
                  (Math_random env (2 + draws w)) (Math_random env (3 + draws w))
                  (Math_random env (4 + draws w)) (Math_random env (5 + draws w))
                  (Math_random env (6 + draws w)) (Math_random env (7 + draws w)) e);
        res_error := None;
        res_duration := Some d;
        res_warning := Some "Using mock weather data - API unavailable" |},
   set_draws (8 + draws w) w).
Proof. reflexivity. Qed.

(** X11: the simulated weather stays within its announced ranges, for
    random draws in [0, 1): temperatures from -10 to 30 degrees, humidity
    from 0 to 100, pressure from 1000 to 1050, visibility up to 10000, wind
    up to 20 and its direction up to 360, and one of the four conditions.
    It takes eight draws. *)
Theorem simulated_weather_is_within_range (env : Env) (name : string) (d : Z)
    (e : option string) (w : World) :
  Forall (fun k => (0 <= Math_random env (k + draws w))%Q /\
                   (Math_random env (k + draws w) < 1)%Q) (seq 0 8) ->
  exists result nw,
    WeatherService.getMockWeatherData env name d e w =
      (Returned result, set_draws (8 + draws w) w) /\
    res_data result = Some nw /\
    -10 <= nw_temperature nw <= 30 /\
    -10 <= nw_feelsLike nw <= 30 /\
    0 <= nw_humidity nw <= 100 /\
    1000 <= nw_pressure nw <= 1050 /\
    0 <= nw_visibility nw <= 10000 /\
    0 <= nw_windSpeed nw <= 20 /\
    0 <= nw_windDirection nw <= 360 /\
    In (nw_main nw) ["Clear"; "Clouds"; "Rain"; "Mist"].
Proof.
  intros Hdraws.
  repeat match goal with
         | H : Forall _ (_ :: _) |- _ =>
             let Hr := fresh "Hr" in
             apply Forall_cons_1 in H; destruct H as [Hr H]
         | H : Forall _ (seq _ _) |- _ => cbn [seq] in H
         end.
  do 2 eexists. split; [apply getMockWeatherData_exact |].
  split; [reflexivity |].
  cbn [WeatherService.mockData nw_temperature nw_feelsLike nw_humidity nw_pressure
       nw_visibility nw_windSpeed nw_windDirection nw_main].
  change (0 + draws w)%nat with (draws w) in *.
  do 7 (split; [apply Math_round_between; unfold inject_Z; lra |]).
  set (r := Math_random env (7 + draws w)) in *.
  assert (Hidx : 0 <= Math_floor (r * 4)%Q <= 3).
  { unfold Math_floor. split.
    - rewrite <- (Qfloor_Z 0). apply Qfloor_resp_le. change (inject_Z 0) with 0%Q. lra.
    - assert (Hlt : Qfloor (r * 4) < 4); [| lia].
      rewrite Zlt_Qlt. pose proof (Qfloor_le (r * 4)) as Hfloor.
      change (inject_Z 4) with 4%Q. lra. }
  assert (Hcases : Math_floor (r * 4)%Q = 0 \/ Math_floor (r * 4)%Q = 1 \/
                   Math_floor (r * 4)%Q = 2 \/ Math_floor (r * 4)%Q = 3) by lia.
  destruct Hcases as [-> | [-> | [-> | ->]]]; cbn; auto.
Qed.

Lemma simulated_weather_is_within_range_witness :
  exists result nw,
    WeatherService.getMockWeatherData env_live "Hoth" 0 None world0 =
      (Returned result, set_draws 8 world0) /\
    res_data result = Some nw /\
    -10 <= nw_temperature nw <= 30 /\
    -10 <= nw_feelsLike nw <= 30 /\
    0 <= nw_humidity nw <= 100 /\
    1000 <= nw_pressure nw <= 1050 /\
    0 <= nw_visibility nw <= 10000 /\
    0 <= nw_windSpeed nw <= 20 /\
    0 <= nw_windDirection nw <= 360 /\
    In (nw_main nw) ["Clear"; "Clouds"; "Rain"; "Mist"].
Proof.
  apply (simulated_weather_is_within_range env_live "Hoth" 0 None world0).
  repeat constructor; cbn; unfold Qle, Qlt; cbn; lia.
Defined.

(** ** The helpers of the Star Wars client *)

Lemma take_digits_digits (s : string) :
  SwapiNumbers.all_digits (fst (take_digits s)) = true.
Proof.
  induction s as [| c s IH]; [reflexivity |].
  cbn [take_digits]. destruct (is_digit c) eqn:Hc; [| reflexivity].
  destruct (take_digits s) as [ds rest]. cbn [fst] in *.
  cbn [SwapiNumbers.all_digits]. rewrite Hc, IH. reflexivity.
Qed.

Lemma take_digits_stop (n : string) (c : ascii) (rest : string) :
  SwapiNumbers.all_digits n = true ->
  is_digit c = false ->
  take_digits (n +:+ String c rest) = (n, String c rest).
Proof.
  intros Hn Hstop. induction n as [| a n IH].
  - change ("" +:+ String c rest) with (String c rest).
    cbn [take_digits]. rewrite Hstop. reflexivity.
  - cbn [SwapiNumbers.all_digits] in Hn. apply andb_prop in Hn as [Ha Hn].
    change (String a n +:+ String c rest) with (String a (n +:+ String c rest)).
    cbn [take_digits]. rewrite Ha, (IH Hn). reflexivity.
Qed.

Lemma take_digits_all (n : string) :
  SwapiNumbers.all_digits n = true -> take_digits n = (n, "").
Proof.
  induction n as [| c n IH]; intros Hn; [reflexivity |].
  cbn [SwapiNumbers.all_digits] in Hn. apply andb_prop in Hn as [Hc Hn].
  cbn [take_digits]. rewrite Hc, (IH Hn). reflexivity.
Qed.

Lemma planets_here_digits (s ds : string) :
  SwapiService.planets_here s = Some ds ->
  str_truthy ds = true /\ SwapiNumbers.all_digits ds = true.
Proof.
  unfold SwapiService.planets_here.
  destruct (startsWith "/planets/" s); [| discriminate].
  pose proof (take_digits_digits (skip 9 s)) as Hdigits.
  destruct (take_digits (skip 9 s)) as [found rest]. cbn [fst] in Hdigits.
  destruct (str_truthy found) eqn:Hfound; [| discriminate].
  destruct (startsWith "/" rest); [| discriminate].
  intros [= <-]. split; assumption.
Qed.

Lemma planets_match_digits (s ds : string) :
  SwapiService.planets_match s = Some ds ->
  str_truthy ds = true /\ SwapiNumbers.all_digits ds = true.
Proof.
  induction s as [| c s IH]; cbn [SwapiService.planets_match].
  - destruct (SwapiService.planets_here "") eqn:Hhere; [| discriminate].
    intros [= <-]. exact (planets_here_digits _ _ Hhere).
  - destruct (SwapiService.planets_here (String c s)) eqn:Hhere; [| exact IH].
    intros [= <-]. exact (planets_here_digits _ _ Hhere).
Qed.

Lemma digit_is_no_slash (c : ascii) (s : string) :
  is_digit c = true -> startsWith "/planets/" (String c s) = false.
Proof.
  intros Hc. cbn [startsWith].
  destruct (Ascii.eqb "/" c) eqn:Heq; [| reflexivity].
  apply Ascii.eqb_eq in Heq. subst c. discriminate Hc.
Qed.

Lemma planets_match_of_digits (n : string) :
  SwapiNumbers.all_digits n = true -> SwapiService.planets_match n = None.
Proof.
  induction n as [| c n IH]; intros Hn; [reflexivity |].
  cbn [SwapiNumbers.all_digits] in Hn. apply andb_prop in Hn as [Hc Hn].
  cbn [SwapiService.planets_match]. unfold SwapiService.planets_here.
  rewrite (digit_is_no_slash c n Hc). exact (IH Hn).
Qed.

Lemma planets_match_skip (c : ascii) (s : string) :
  SwapiService.planets_here (String c s) = None ->
  SwapiService.planets_match (String c s) = SwapiService.planets_match s.
Proof. intros Hnone. cbn [SwapiService.planets_match]. rewrite Hnone. reflexivity. Qed.

Lemma planets_match_here (s ds : string) :
  SwapiService.planets_here s = Some ds -> SwapiService.planets_match s = Some ds.
Proof.
  intros Hhere. destruct s; cbn [SwapiService.planets_match]; rewrite Hhere; reflexivity.
Qed.

(** X12: the planet id read from a homeworld URL is never empty and is
    made of digits only, whatever the URL is. *)
Theorem planet_id_is_always_a_number (homeworldUrl : string) :
  str_truthy (SwapiService.extractPlanetId homeworldUrl) = true /\
  SwapiNumbers.all_digits (SwapiService.extractPlanetId homeworldUrl) = true.
Proof.
  unfold SwapiService.extractPlanetId.
  destruct (SwapiService.planets_match homeworldUrl) as [ds |] eqn:Hmatch.
  - exact (planets_match_digits _ _ Hmatch).
  - split; reflexivity.
Qed.

(** X13: from a URL of the provider the id is read back as it was written,
    whatever follows the slash that closes it; without that slash the id is
    not seen and the planet becomes number 1. *)
Theorem planet_id_needs_the_closing_slash (n rest : string) :
  SwapiNumbers.all_digits n = true ->
  n <> "" ->
  SwapiService.extractPlanetId ("https://swapi.dev/api/planets/" +:+ n +:+ "/" +:+ rest) = n /\
  SwapiService.extractPlanetId ("https://swapi.dev/api/planets/" +:+ n) = "1".
Proof.
  intros Hn Hne. unfold SwapiService.extractPlanetId. split.
  - assert (Hhere : SwapiService.planets_here ("/planets/" +:+ n +:+ "/" +:+ rest) = Some n).
    { unfold SwapiService.planets_here.
      change (startsWith "/planets/" ("/planets/" +:+ n +:+ "/" +:+ rest)) with true.
      change (skip 9 ("/planets/" +:+ n +:+ "/" +:+ rest)) with (n +:+ "/" +:+ rest).
      change ("/" +:+ rest) with (String "/" rest).
      rewrite (take_digits_stop n "/" rest Hn eq_refl).
      destruct n; [contradiction | reflexivity]. }
    change ("https://swapi.dev/api/planets/" +:+ n +:+ "/" +:+ rest)
      with ("https://swapi.dev/api" +:+ ("/planets/" +:+ n +:+ "/" +:+ rest)).
    generalize dependent ("/planets/" +:+ n +:+ "/" +:+ rest). intros tail Hhere.
    cbv beta iota delta [String.append].
    rewrite !planets_match_skip by reflexivity.
    rewrite (planets_match_here _ _ Hhere). reflexivity.
  - assert (Hhere : SwapiService.planets_here ("/planets/" +:+ n) = None).
    { unfold SwapiService.planets_here.
      change (startsWith "/planets/" ("/planets/" +:+ n)) with true.
      change (skip 9 ("/planets/" +:+ n)) with n.
      rewrite (take_digits_all n Hn).
      destruct n; reflexivity. }
    assert (Htail : SwapiService.planets_match ("/" +:+ n) = None).
    { change ("/" +:+ n) with (String "/" n).
      rewrite planets_match_skip; [exact (planets_match_of_digits n Hn) |].
      unfold SwapiService.planets_here.
      destruct n as [| c n]; [reflexivity |].
      cbn [SwapiNumbers.all_digits] in Hn. apply andb_prop in Hn as [Hc _].
      cbn [startsWith]. change (Ascii.eqb "/" "/") with true. cbn iota.
      destruct (Ascii.eqb "p" c) eqn:Heq; [| reflexivity].
      apply Ascii.eqb_eq in Heq. subst c. discriminate Hc. }
    cbv beta iota delta [String.append].
    rewrite !planets_match_skip by reflexivity.
    rewrite planets_match_skip by exact Hhere.
    rewrite !planets_match_skip by reflexivity.
    change (SwapiService.planets_match (String "/" n))
      with (SwapiService.planets_match ("/" +:+ n)).
    rewrite Htail. reflexivity.
Qed.

Lemma planet_id_needs_the_closing_slash_witness :
  SwapiService.extractPlanetId ("https://swapi.dev/api/planets/" +:+ "28" +:+ "/" +:+ "") = "28" /\
  SwapiService.extractPlanetId ("https://swapi.dev/api/planets/" +:+ "28") = "1".
Proof.
  apply (planet_id_needs_the_closing_slash "28" ""); [reflexivity | discriminate].
Defined.

Lemma trimStart_head (s : string) (c : ascii) (r : string) :
  trimStart s = String c r -> is_space c = false.
Proof.
  induction s as [| a s IH]; cbn [trimStart]; [discriminate |].
  destruct (is_space a) eqn:Ha; [exact IH |].
  intros [= <- _]. exact Ha.
Qed.

Lemma trimEnd_head (s : string) (c : ascii) (r : string) :
  trimEnd s = String c r -> exists s', s = String c s'.
Proof.
  destruct s as [| a s]; cbn [trimEnd]; [discriminate |].
  destruct (trimEnd s); [destruct (is_space a); [discriminate |] |];
    intros [= <- _]; eauto.
Qed.

Lemma trimEnd_idem (s : string) : trimEnd (trimEnd s) = trimEnd s.
Proof.
  induction s as [| c s IH]; [reflexivity |].
  cbn [trimEnd]. destruct (trimEnd s) as [| a t] eqn:Hend.
  - destruct (is_space c) eqn:Hc; [reflexivity |].
    cbn [trimEnd]. rewrite Hc. reflexivity.
  - cbn [trimEnd] in *. 
    change (match trimEnd t with
            | "" => if is_space a then "" else String a ""
            | String a0 s0 => String a (String a0 s0)
            end) with (trimEnd (String a t)) in *.
    rewrite IH. reflexivity.
Qed.

Lemma trim_idem (s : string) : trim (trim s) = trim s.
Proof.
  unfold trim.
  destruct (trimEnd (trimStart s)) as [| c r] eqn:Hend; [reflexivity |].
  destruct (trimEnd_head _ _ _ Hend) as (s' & Hstart).
  pose proof (trimStart_head _ _ _ Hstart) as Hc.
  cbn [trimStart]. rewrite Hc. rewrite <- Hend. apply trimEnd_idem.
Qed.

(** X14: the items read from a comma-separated field are never empty and
    carry no white space at either end. *)
Theorem list_items_are_trimmed_and_non_empty (value item : string) :
  In item (SwapiService.parseCommaSeparated value) ->
  item <> "" /\ trim item = item.
Proof.
  unfold SwapiService.parseCommaSeparated.
  destruct (negb (str_truthy value) || _); [intros [] |].
  intros Hin. apply list_elem_of_In, list_elem_of_filter in Hin as [Htruthy Hin].
  apply list_elem_of_In, in_map_iff in Hin as (raw & <- & _).
  split; [| apply trim_idem].
  intros Hempty. rewrite Hempty in Htruthy. discriminate Htruthy.
Qed.

Lemma list_items_are_trimmed_and_non_empty_witness :
  In "temperate" (SwapiService.parseCommaSeparated "arid, temperate ,, ") /\
  "temperate" <> "" /\ trim "temperate" = "temperate".
Proof.
  assert (Hin : In "temperate" (SwapiService.parseCommaSeparated "arid, temperate ,, ")).
  { vm_compute. right. left. reflexivity. }
  split; [exact Hin |].
  exact (list_items_are_trimmed_and_non_empty "arid, temperate ,, " "temperate" Hin).
Defined.

Lemma digit_value_nonneg (c : ascii) (d : Z) : digit_value c = Some d -> 0 <= d.
Proof.
  unfold digit_value.
  repeat match goal with
         | |- context [if ?b then _ else _] => destruct b eqn:?
         end; intros [= <-]; lia.
Qed.

Lemma digits_prefix_nonneg (s : string) (acc : option Z) (v : Z) :
  0 <= default 0 acc ->
  digits_prefix 10 acc s = Some v -> 0 <= v.
Proof.
  revert acc. induction s as [| c s IH]; intros acc Hacc; cbn [digits_prefix].
  - intros ->. exact Hacc.
  - destruct (digit_value c) as [d |] eqn:Hd; [| intros ->; exact Hacc].
    destruct (d <? 10); [| intros ->; exact Hacc].
    apply IH. pose proof (digit_value_nonneg c d Hd) as Hdigit.
    change (default 0 (Some (default 0 acc * 10 + d))) with (default 0 acc * 10 + d).
    lia.
Qed.

Lemma digits_value_nonneg (ds : string) : 0 <= SwapiNumbers.digits_value ds.
Proof.
  unfold SwapiNumbers.digits_value.
  destruct (digits_prefix 10 None ds) as [v |] eqn:Hv; [| reflexivity].
  exact (digits_prefix_nonneg ds None v (Z.le_refl 0) Hv).
Qed.

Lemma parseFloat_nonneg (s : string) (q : Q) :
  SwapiNumbers.parseFloat s = Some q -> (0 <= q)%Q.
Proof.
  unfold SwapiNumbers.parseFloat.
  destruct (take_digits s) as [whole rest].
  pose proof (digits_value_nonneg whole) as Hwhole.
  assert (Hq : (0 <= inject_Z (SwapiNumbers.digits_value whole))%Q).
  { change 0%Q with (inject_Z 0). rewrite <- Zle_Qle. exact Hwhole. }
  assert (Hfraction : forall fraction,
    (0 <= inject_Z (SwapiNumbers.digits_value whole) +
          (SwapiNumbers.digits_value fraction #
             Pos.pow 10 (Pos.of_nat (String.length fraction))))%Q).
  { intros fraction. pose proof (digits_value_nonneg fraction) as Hf.
    assert (Hpart : (0 <= SwapiNumbers.digits_value fraction #
                            Pos.pow 10 (Pos.of_nat (String.length fraction)))%Q).
    { unfold Qle. cbn [Qnum Qden]. lia. }
    apply (Qplus_le_compat 0 _ 0 _ Hq Hpart). }
  assert (Hplain : (if str_truthy whole
                    then Some (inject_Z (SwapiNumbers.digits_value whole))
                    else None) = Some q -> (0 <= q)%Q).
  { destruct (str_truthy whole); [intros [= <-]; exact Hq | discriminate]. }
  destruct rest as [| c after]; [exact Hplain |].
  destruct c as [[] [] [] [] [] [] [] []]; try exact Hplain.
  destruct (take_digits after) as [fraction ignored].
  destruct (str_truthy whole || str_truthy fraction); [| discriminate].
  intros [= <-]. apply Hfraction.
Qed.

Lemma is_numchar_lower (c : ascii) :
  SwapiNumbers.is_numchar (lower_char c) = SwapiNumbers.is_numchar c.
Proof. destruct c as [[] [] [] [] [] [] [] []]; reflexivity. Qed.

Lemma numchar_lower (c : ascii) :
  SwapiNumbers.is_numchar c = true -> lower_char c = c.
Proof.
  destruct c as [[] [] [] [] [] [] [] []]; vm_compute; intros H;
    first [reflexivity | discriminate H].
Qed.

Lemma clean_lower (s : string) :
  SwapiNumbers.clean (toLowerCase s) = SwapiNumbers.clean s.
Proof.
  induction s as [| c s IH]; [reflexivity |].
  cbn [toLowerCase SwapiNumbers.clean]. rewrite is_numchar_lower.
  destruct (SwapiNumbers.is_numchar c) eqn:Hc; [| exact IH].
  rewrite IH, (numchar_lower c Hc). reflexivity.
Qed.

(** A value the parser reads as absent has no digit, dot or comma. *)
Lemma sentinel_is_clean (value : string) :
  negb (str_truthy value) ||
    (String.eqb (toLowerCase value) "unknown" || String.eqb (toLowerCase value) "n/a") = true ->
  SwapiNumbers.clean value = "".
Proof.
  intros Htest. apply orb_prop in Htest as [Hempty | Hname].
  - destruct value; [reflexivity | discriminate Hempty].
  - rewrite <- clean_lower.
    apply orb_prop in Hname as [Hname | Hname]; apply String.eqb_eq in Hname;
      rewrite Hname; reflexivity.
Qed.

(** X15: a number read from the provider is never negative, and a sign
    in front of it is dropped: the text is read as if the sign were not
    there. *)
Theorem numbers_lose_their_sign (value : string) :
  SwapiNumbers.parseNumeric ("-" +:+ value) = SwapiNumbers.parseNumeric value /\
  match SwapiNumbers.parseNumeric value with
  | Some q => (0 <= q)%Q
  | None => True
  end.
Proof.
  split.
  - unfold SwapiNumbers.parseNumeric at 1.
    change ("-" +:+ value) with (String "-" value).
    assert (Hnot : negb (str_truthy (String "-" value)) ||
              (String.eqb (toLowerCase (String "-" value)) "unknown" ||
               String.eqb (toLowerCase (String "-" value)) "n/a") = false) by reflexivity.
    rewrite Hnot.
    change (SwapiNumbers.clean (String "-" value)) with (SwapiNumbers.clean value).
    unfold SwapiNumbers.parseNumeric.
    destruct (negb (str_truthy value) || _) eqn:Htest; [| reflexivity].
    rewrite (sentinel_is_clean value Htest). reflexivity.
  - destruct (SwapiNumbers.parseNumeric value) as [q |] eqn:Hq; [| exact I].
    revert Hq. unfold SwapiNumbers.parseNumeric.
    destruct (negb (str_truthy value) || _); [discriminate |].
    apply parseFloat_nonneg.
Qed.

Lemma digit_is_numchar (c : ascii) :
  is_digit c = true -> SwapiNumbers.is_numchar c = true /\ Ascii.eqb c "," = false.
Proof.
  intros Hc. unfold SwapiNumbers.is_numchar. rewrite Hc. split; [reflexivity |].
  destruct (Ascii.eqb c ",") eqn:Heq; [| reflexivity].
  apply Ascii.eqb_eq in Heq. subst c. discriminate Hc.
Qed.

Lemma clean_digits_app (a rest : string) :
  SwapiNumbers.all_digits a = true ->
  SwapiNumbers.clean (a +:+ rest) = a +:+ SwapiNumbers.clean rest.
Proof.
  induction a as [| c a IH]; intros Ha; [reflexivity |].
  cbn [SwapiNumbers.all_digits] in Ha. apply andb_prop in Ha as [Hc Ha].
  change (String c a +:+ rest) with (String c (a +:+ rest)).
  cbn [SwapiNumbers.clean]. rewrite (proj1 (digit_is_numchar c Hc)), (IH Ha). reflexivity.
Qed.

Lemma clean_digits (b : string) :
  SwapiNumbers.all_digits b = true -> SwapiNumbers.clean b = b.
Proof.
  induction b as [| c b IH]; intros Hb; [reflexivity |].
  cbn [SwapiNumbers.all_digits] in Hb. apply andb_prop in Hb as [Hc Hb].
  cbn [SwapiNumbers.clean]. rewrite (proj1 (digit_is_numchar c Hc)), (IH Hb). reflexivity.
Qed.

Lemma comma_to_dot_digits (b : string) :
  SwapiNumbers.all_digits b = true -> SwapiNumbers.comma_to_dot b = b.
Proof.
  induction b as [| c b IH]; intros Hb; [reflexivity |].
  cbn [SwapiNumbers.all_digits] in Hb. apply andb_prop in Hb as [Hc Hb].
  cbn [SwapiNumbers.comma_to_dot]. rewrite (proj2 (digit_is_numchar c Hc)), (IH Hb).
  reflexivity.
Qed.

Lemma comma_to_dot_app (a : string) (sep : ascii) (b : string) :
  SwapiNumbers.all_digits a = true ->
  SwapiNumbers.comma_to_dot (a +:+ String sep b) =
  a +:+ SwapiNumbers.comma_to_dot (String sep b).
Proof.
  induction a as [| c a IH]; intros Ha; [reflexivity |].
  cbn [SwapiNumbers.all_digits] in Ha. apply andb_prop in Ha as [Hc Ha].
  change (String c a +:+ String sep b) with (String c (a +:+ String sep b)).
  cbn [SwapiNumbers.comma_to_dot].
  rewrite (proj2 (digit_is_numchar c Hc)), (IH Ha). reflexivity.
Qed.

(** The text the number is parsed from, for two runs of digits around a
    dot or a comma. *)
Lemma decimal_text (a : string) (sep : ascii) (b : string) :
  SwapiNumbers.all_digits a = true ->
  SwapiNumbers.all_digits b = true ->
  sep = ","%char \/ sep = "."%char ->
  SwapiNumbers.parseNumeric (a +:+ String sep b) =
  SwapiNumbers.parseFloat (a +:+ String "." b).
Proof.
  intros Ha Hb Hsep.
  assert (Hclean : SwapiNumbers.clean (a +:+ String sep b) = a +:+ String sep b).
  { rewrite (clean_digits_app a _ Ha). cbn [SwapiNumbers.clean].
    destruct Hsep as [-> | ->]; cbn; rewrite (clean_digits b Hb); reflexivity. }
  unfold SwapiNumbers.parseNumeric.
  destruct (negb (str_truthy (a +:+ String sep b)) || _) eqn:Htest.
  - apply sentinel_is_clean in Htest. rewrite Hclean in Htest.
    destruct a; discriminate Htest.
  - rewrite Hclean, (comma_to_dot_app a sep b Ha).
    destruct Hsep as [-> | ->]; cbn [SwapiNumbers.comma_to_dot]; cbn.
    + reflexivity.
    + rewrite (comma_to_dot_digits b Hb). reflexivity.
Qed.

(** X16: a comma is read as the decimal point. For two runs of digits,
    the first one not empty, the text with a comma between them gives the
    same number as the text with a dot: the first run, plus the second run
    as its decimals. A thousands separator therefore divides the number. *)
Theorem comma_is_read_as_decimal_point (a b : string) :
  SwapiNumbers.all_digits a = true ->
  SwapiNumbers.all_digits b = true ->
  a <> "" ->
  SwapiNumbers.parseNumeric (a +:+ "," +:+ b) = SwapiNumbers.parseNumeric (a +:+ "." +:+ b) /\
  SwapiNumbers.parseNumeric (a +:+ "," +:+ b) =
    Some (inject_Z (SwapiNumbers.digits_value a) +
          (SwapiNumbers.digits_value b # Pos.pow 10 (Pos.of_nat (String.length b))))%Q.
Proof.
  intros Ha Hb Hne.
  change (a +:+ "," +:+ b) with (a +:+ String "," b).
  change (a +:+ "." +:+ b) with (a +:+ String "." b).
  rewrite (decimal_text a "," b Ha Hb (or_introl eq_refl)).
  rewrite (decimal_text a "." b Ha Hb (or_intror eq_refl)).
  split; [reflexivity |].
  unfold SwapiNumbers.parseFloat.
  rewrite (take_digits_stop a "." b Ha eq_refl), (take_digits_all b Hb).
  destruct a; [contradiction | reflexivity].
Qed.

Lemma comma_is_read_as_decimal_point_witness :
  SwapiNumbers.parseNumeric ("1" +:+ "," +:+ "358") =
    SwapiNumbers.parseNumeric ("1" +:+ "." +:+ "358") /\
  SwapiNumbers.parseNumeric ("1" +:+ "," +:+ "358") =
    Some (inject_Z (SwapiNumbers.digits_value "1") +
          (SwapiNumbers.digits_value "358" # Pos.pow 10 (Pos.of_nat (String.length "358"))))%Q.
Proof.
  apply (comma_is_read_as_decimal_point "1" "358"); [reflexivity | reflexivity | discriminate].
Defined.

(** ** The history handler past its checks *)

Lemma iso_or_null_run (t : option JsNum) (w : World) :
  exists o, History.iso_or_null t w = (o, w).
Proof.
  unfold History.iso_or_null, ret, throw.
  destruct t as [[z | | negative] |]; eauto.
  destruct (z =? 0); eauto. destruct (Z.abs z <=? 8640000000000000); eauto.
Qed.

Lemma iso_or_null_message (t : option JsNum) (w : World) (message : string) (w' : World) :
  History.iso_or_null t w = (Thrown message, w') ->
  message = "RangeError: Invalid time value".
Proof.
  unfold History.iso_or_null, ret, throw.
  destruct t as [[z | | negative] |]; try discriminate.
  - destruct (z =? 0); [discriminate |].
    destruct (Z.abs z <=? 8640000000000000); [discriminate |].
    intros [= <-]. reflexivity.
  - intros [= <-]. reflexivity.
Qed.

(** A request that passes the checks: when [marshall] refuses a time
    bound, no query is sent and the answer is 500; otherwise the store is
    asked once, and the answer is 200 or 500. *)
Lemma history_accepts (env : Env) (event : APIGatewayProxyEvent) (w : World) :
  History.validate (History.parse event) = None ->
  let p := History.parse event in
  let q := DatabaseService.scan_of env (History.limit p) (History.lastEvaluatedKey p)
             (History.source p) (History.startTime p) (History.endTime p) in
  (DatabaseService.marshalls_bound (History.startTime p) &&
   DatabaseService.marshalls_bound (History.endTime p) = false /\
   History.handler env event w =
     (Returned (internalError "Failed to retrieve history" (requestId event)
                  "Number is outside the safe integers" (NODE_ENV env) (clock w)), w)) \/
  (DatabaseService.marshalls_bound (History.startTime p) &&
   DatabaseService.marshalls_bound (History.endTime p) = true /\
   exists r,
     History.handler env event w = (Returned r, set_scans (scans w ++ [q]) w) /\
     (statusCode r = 200 \/
      r = internalError "Failed to retrieve history" (requestId event)
            "Failed to retrieve history" (NODE_ENV env) (clock w) \/
      r = internalError "Failed to retrieve history" (requestId event)
            "RangeError: Invalid time value" (NODE_ENV env) (clock w))).
Proof.
  intros Hvalid. cbv zeta.
  unfold History.handler, try_catch. unfold bind at 1. rewrite Hvalid.
  unfold bind at 1. unfold DatabaseService.getHistory.
  set (p := History.parse event).
  set (q := DatabaseService.scan_of _ _ _ _ _ _).
  destruct (DatabaseService.marshalls_bound (History.startTime p) &&
            DatabaseService.marshalls_bound (History.endTime p)) eqn:Hbounds;
    cbn [negb andb]; [right | left; split; reflexivity].
  split; [reflexivity |].
  unfold bind at 1. unfold modify.
  destruct (main_up env).
  - unfold read. unfold bind at 1.
    destruct (iso_or_null_run (History.startTime p) (set_scans (scans w ++ [q]) w))
      as (isoStart & HisoStart).
    destruct (iso_or_null_run (History.endTime p) (set_scans (scans w ++ [q]) w))
      as (isoEnd & HisoEnd).
    unfold bind at 1. rewrite HisoStart.
    destruct isoStart as [isoStart | message].
    + unfold bind at 1. rewrite HisoEnd.
      destruct isoEnd as [isoEnd | message].
      * eexists. split; [reflexivity |]. left. reflexivity.
      * apply iso_or_null_message in HisoEnd. subst message.
        eexists. split; [reflexivity |]. right. right. reflexivity.
    + apply iso_or_null_message in HisoStart. subst message.
      eexists. split; [reflexivity |]. right. right. reflexivity.
  - eexists. split; [reflexivity |]. right. left. reflexivity.
Qed.

(** What the checks leave through. *)
Lemma validate_passes (event : APIGatewayProxyEvent) :
  History.validate (History.parse event) = None ->
  let p := History.parse event in
  (exists z, History.limit p = Num z /\ 1 <= z <= History.MAX_PAGE_SIZE) /\
  In (History.source p) ["fusion"; "custom"; "all"] /\
  (forall a b, History.startTime p = Some (Num a) -> History.endTime p = Some (Num b) ->
               a <> 0 -> b <> 0 -> a <= b).
Proof.
  intros Hvalid p. revert Hvalid. unfold History.validate. fold p.
  destruct (num_lt (History.limit p) (Num 1)) eqn:Hlimit; [discriminate |].
  destruct (str_truthy (History.source p) &&
            negb (list_includes ["fusion"; "custom"; "all"] (History.source p))) eqn:Hsource;
    [discriminate |].
  destruct (History.given (History.startTime p) && History.given (History.endTime p) && _)
    eqn:Htimes; [discriminate |].
  intros _. split; [| split].
  - subst p. unfold History.parse in *. cbn [History.limit] in *.
    destruct (parseInt _ 0) as [z | | [|]]; cbn in Hlimit |- *; try discriminate Hlimit.
    + exists (Z.min z History.MAX_PAGE_SIZE). split; [reflexivity |].
      apply Z.ltb_ge in Hlimit. unfold History.MAX_PAGE_SIZE in *. lia.
    + exists History.MAX_PAGE_SIZE. split; [reflexivity |].
      unfold History.MAX_PAGE_SIZE. lia.
  - assert (Htruthy : str_truthy (History.source p) = true).
    { subst p. unfold History.parse. cbn [History.source]. unfold str_or.
      destruct (_ !! "source") as [[| c s] |]; reflexivity. }
    rewrite Htruthy in Hsource. cbn [andb] in Hsource.
    apply negb_false_iff in Hsource. unfold list_includes in Hsource.
    cbn [existsb] in Hsource.
    repeat (apply orb_prop in Hsource as [Hsource | Hsource];
            [apply String.eqb_eq in Hsource; rewrite Hsource; cbn; tauto |]).
    discriminate Hsource.
  - intros a b Ha Hb Hane Hbne. rewrite Ha, Hb in Htimes.
    cbn [History.given num_truthy num_gt] in Htimes.
    rewrite (proj2 (Z.eqb_neq a 0) Hane), (proj2 (Z.eqb_neq b 0) Hbne) in Htimes.
    cbn [negb andb] in Htimes. apply Z.ltb_ge in Htimes. exact Htimes.
Qed.

(** X17: the history handler always answers, with 400, 200 or 500, and
    only reads: neither table changes. A request answered 400 sends no
    query, one answered 200 has sent exactly one, and no request sends more
    than one. The page size of a query is between 1 and 100, its source is
    the requested one among fusion, custom and all, and its time bounds,
    when both are sent, are in order. *)
Theorem history_sends_only_bounded_queries (env : Env) (event : APIGatewayProxyEvent)
    (w : World) :
  exists r sent,
    History.handler env event w = (Returned r, set_scans (scans w ++ sent) w) /\
    ((statusCode r = 400 /\ sent = []) \/
     (statusCode r = 200 /\ length sent = 1%nat) \/
     (statusCode r = 500 /\ (length sent <= 1)%nat)) /\
    Forall (fun q =>
      (exists z, scan_limit q = Num z /\ 1 <= z <= 100) /\
      scan_source q = History.source (History.parse event) /\
      In (scan_source q) ["fusion"; "custom"; "all"] /\
      (forall a b, scan_startTime q = Some a -> scan_endTime q = Some b ->
                   exists x y, a = Num x /\ b = Num y /\ x <= y)) sent.
Proof.
  destruct (History.validate (History.parse event)) as [message |] eqn:Hvalid.
  - exists (badRequest message (requestId event) (clock w)), [].
    rewrite (history_rejects env event w message Hvalid).
    split; [| split; [left; split; reflexivity | constructor]].
    rewrite app_nil_r. destruct w; reflexivity.
  - destruct (history_accepts env event w Hvalid)
      as [(_ & Hrun) | (Hbounds & r & Hrun & Hstatus)].
    { eexists _, []. rewrite Hrun. split; [rewrite app_nil_r; destruct w; reflexivity |].
      split; [right; right; split; [reflexivity | cbn; lia] | constructor]. }
    apply andb_prop in Hbounds as [Hfrom Hto].
    destruct (validate_passes event Hvalid) as (Hlimit & Hsource & Htimes).
    eexists r, [_]. split; [exact Hrun |]. split.
    { right. destruct Hstatus as [H | [-> | ->]];
        [left; split; [exact H | reflexivity] | right; split; [reflexivity | cbn; lia] ..]. }
    constructor; [| constructor].
    cbn [DatabaseService.scan_of scan_limit scan_source scan_startTime scan_endTime].
    split; [exact Hlimit |].
    assert (Hsame : (if String.eqb (History.source (History.parse event)) "fusion"
                     then "fusion"
                     else if String.eqb (History.source (History.parse event)) "custom"
                          then "custom" else "all") =
                    History.source (History.parse event)).
    { destruct Hsource as [<- | [<- | [<- | []]]]; reflexivity. }
    rewrite Hsame. split; [reflexivity |]. split; [exact Hsource |].
    intros a b.
    destruct (History.startTime (History.parse event)) as [[x | | negative] |] eqn:Hstart;
      cbn [num_truthy]; try discriminate; try discriminate Hfrom.
    destruct (x =? 0) eqn:Hx; cbn [negb]; [discriminate |]. intros [= <-].
    destruct (History.endTime (History.parse event)) as [[y | | negative] |] eqn:Hend;
      cbn [num_truthy]; try discriminate; try discriminate Hto.
    destruct (y =? 0) eqn:Hy; cbn [negb]; [discriminate |]. intros [= <-].
    exists x, y. split; [reflexivity |]. split; [reflexivity |].
    apply (Htimes x y eq_refl eq_refl); apply Z.eqb_neq; assumption.
Qed.

Lemma iso_or_null_throws (z : Z) (w : World) :
  8640000000000000 < Z.abs z ->
  History.iso_or_null (Some (Num z)) w = (Thrown "RangeError: Invalid time value", w).
Proof.
  intros Hz. unfold History.iso_or_null, throw.
  rewrite (proj2 (Z.eqb_neq z 0)) by lia.
  rewrite (proj2 (Z.leb_gt _ _)) by lia. reflexivity.
Qed.

(** X18: a request that passes the checks is still answered 500 when the
    store fails, and when a time bound lies outside the range of dates
    (more than 8 640 000 000 000 000 ms from the epoch): such a bound is not
    rejected as a bad request. The answer carries the code INTERNAL_ERROR,
    and details of the failure only when NODE_ENV is development. *)
Theorem history_answers_500_past_the_checks (env : Env) (event : APIGatewayProxyEvent)
    (w : World) :
  History.validate (History.parse event) = None ->
  (main_up env = false \/
   (exists z, History.startTime (History.parse event) = Some (Num z) /\
              8640000000000000 < Z.abs z) \/
   (exists z, History.endTime (History.parse event) = Some (Num z) /\
              8640000000000000 < Z.abs z)) ->
  answer_status (fst (History.handler env event w)) = Some 500 /\
  exists details,
    answer_error (fst (History.handler env event w)) =
      Some ("INTERNAL_ERROR", "Failed to retrieve history", details) /\
    (NODE_ENV env <> Some "development" -> details = NoDetails).
Proof.
  intros Hvalid Hcause.
  assert (Hrun : exists error,
    fst (History.handler env event w) =
      Returned (internalError "Failed to retrieve history" (requestId event) error
                  (NODE_ENV env) (clock w))).
  { unfold History.handler, try_catch. unfold bind at 1. rewrite Hvalid.
    unfold bind at 1. unfold DatabaseService.getHistory.
    set (q := DatabaseService.scan_of _ _ _ _ _ _).
    destruct (negb _); [eexists; reflexivity |].
    unfold bind at 1. unfold modify.
    destruct (main_up env) eqn:Hup; [| eexists; reflexivity].
    unfold read. unfold bind at 1.
    destruct Hcause as [Hdown | [(z & Hstart & Hz) | (z & Hend & Hz)]];
      [discriminate Hdown | |].
    - rewrite Hstart, (iso_or_null_throws z _ Hz). eexists. reflexivity.
    - destruct (iso_or_null_run (History.startTime (History.parse event))
                  (set_scans (scans w ++ [q]) w)) as (isoStart & HisoStart).
      rewrite HisoStart. destruct isoStart as [isoStart | message].
      + unfold bind at 1. rewrite Hend, (iso_or_null_throws z _ Hz).
        eexists. reflexivity.
      + eexists. reflexivity. }
  destruct Hrun as (error & ->). split; [reflexivity |].
  eexists. split; [reflexivity |].
  intros Hprod. cbn beta. case_bool_decide; [contradiction | reflexivity].
Qed.

Lemma history_answers_500_past_the_checks_witness :
  let event := history_event (Some {[ "startTime" := "8640000000000001" ]}) in
  answer_status (fst (History.handler env_live event world0)) = Some 500 /\
  exists details,
    answer_error (fst (History.handler env_live event world0)) =
      Some ("INTERNAL_ERROR", "Failed to retrieve history", details) /\
    (NODE_ENV env_live <> Some "development" -> details = NoDetails).
Proof.
  intros event.
  apply (history_answers_500_past_the_checks env_live event world0).
  - vm_compute. reflexivity.
  - right. left. exists 8640000000000001. split; [vm_compute; reflexivity | lia].
Defined.

(** The request without its cursor. *)
Lemma parse_without_cursor (event : APIGatewayProxyEvent) (params : gmap string string) :
  queryStringParameters event = Some params ->
  let bare := {| requestId := requestId event;
                 queryStringParameters := Some (delete "cursor" params);
                 path := path event;
                 httpMethod := httpMethod event;
                 sourceIp := sourceIp event |} in
  History.parse bare =
  {| History.limit := History.limit (History.parse event);
     History.lastEvaluatedKey := None;
     History.source := History.source (History.parse event);
     History.startTime := History.startTime (History.parse event);
     History.endTime := History.endTime (History.parse event) |}.
Proof.
  intros Hparams bare. unfold History.parse. subst bare.
  cbn [queryStringParameters]. rewrite Hparams.
  change (default ∅ (Some (delete "cursor" params))) with (delete "cursor" params).
  change (default ∅ (Some params)) with params.
  rewrite lookup_delete_eq.
  rewrite !lookup_delete_ne by discriminate. reflexivity.
Qed.

(** X19: a cursor the store cannot read is dropped without an error: the
    request is served exactly as the same request without a cursor, from
    the first page. *)
Theorem unreadable_cursor_restarts_from_first_page (env : Env)
    (event : APIGatewayProxyEvent) (w : World) (params : gmap string string)
    (cursor : string) :
  queryStringParameters event = Some params ->
  params !! "cursor" = Some cursor ->
  cursor_parses env cursor = false ->
  History.handler env event w =
  History.handler env
    {| requestId := requestId event;
       queryStringParameters := Some (delete "cursor" params);
       path := path event;
       httpMethod := httpMethod event;
       sourceIp := sourceIp event |} w.
Proof.
  intros Hparams Hcursor Hparses.
  unfold History.handler.
  rewrite (parse_without_cursor event params Hparams).
  cbn [requestId History.limit History.lastEvaluatedKey History.source
       History.startTime History.endTime].
  set (p := History.parse event).
  assert (Hvalidate :
    History.validate
      {| History.limit := History.limit p;
         History.lastEvaluatedKey := None;
         History.source := History.source p;
         History.startTime := History.startTime p;
         History.endTime := History.endTime p |} = History.validate p) by reflexivity.
  rewrite Hvalidate.
  assert (Hquery :
    DatabaseService.getHistory env (History.limit p) (History.lastEvaluatedKey p)
      (History.source p) (History.startTime p) (History.endTime p) =
    DatabaseService.getHistory env (History.limit p) None
      (History.source p) (History.startTime p) (History.endTime p)).
  { unfold DatabaseService.getHistory, DatabaseService.scan_of.
    assert (Hkey : History.lastEvaluatedKey p = None \/
                   History.lastEvaluatedKey p = Some cursor).
    { subst p. unfold History.parse. cbn [History.lastEvaluatedKey].
      rewrite Hparams.
      change (default ∅ (Some params)) with params.
      rewrite Hcursor. destruct (str_truthy cursor); [right | left]; reflexivity. }
    destruct Hkey as [-> | ->]; [reflexivity |].
    rewrite Hparses, andb_false_r. reflexivity. }
  rewrite Hquery. reflexivity.
Qed.

Lemma unreadable_cursor_restarts_from_first_page_witness :
  History.handler (with_cursors (startsWith "{") env_live)
    (history_event (Some {[ "cursor" := "not json"; "limit" := "5" ]})) world0 =
  History.handler (with_cursors (startsWith "{") env_live)
    {| requestId := requestId (history_event None);
       queryStringParameters :=
         Some (delete "cursor" ({[ "cursor" := "not json"; "limit" := "5" ]}
                                  : gmap string string));
       path := path (history_event None);
       httpMethod := httpMethod (history_event None);
       sourceIp := sourceIp (history_event None) |} world0.
Proof.
  apply (unreadable_cursor_restarts_from_first_page (with_cursors (startsWith "{") env_live)
           (history_event (Some {[ "cursor" := "not json"; "limit" := "5" ]})) world0
           {[ "cursor" := "not json"; "limit" := "5" ]} "not json");
    vm_compute; reflexivity.
Defined.

(** ** The logger *)

(** X20: the threshold of the logger. With LOG_LEVEL absent, empty or one
    of debug, info, warn and error, errors are always logged and a level
    that is logged is logged at every higher severity. With any other
    LOG_LEVEL (INFO in capitals, say) nothing is logged, errors included. *)
Theorem unknown_log_level_silences_the_logger (LOG_LEVEL : option string) :
  (In (Logger.logLevel LOG_LEVEL) ["debug"; "info"; "warn"; "error"] /\
   Logger.shouldLog LOG_LEVEL Logger.error = true /\
   (Logger.shouldLog LOG_LEVEL Logger.debug = true ->
    Logger.shouldLog LOG_LEVEL Logger.info = true) /\
   (Logger.shouldLog LOG_LEVEL Logger.info = true ->
    Logger.shouldLog LOG_LEVEL Logger.warn = true) /\
   (LOG_LEVEL = None \/ LOG_LEVEL = Some "" ->
    Logger.shouldLog LOG_LEVEL Logger.debug = false /\
    Logger.shouldLog LOG_LEVEL Logger.info = true)) \/
  (~ In (Logger.logLevel LOG_LEVEL) ["debug"; "info"; "warn"; "error"] /\
   LOG_LEVEL <> None /\ LOG_LEVEL <> Some "" /\
   forall level, Logger.shouldLog LOG_LEVEL level = false).
Proof.
  assert (Hdefault : LOG_LEVEL = None \/ LOG_LEVEL = Some "" ->
                     Logger.logLevel LOG_LEVEL = "info").
  { intros [-> | ->]; reflexivity. }
  assert (Hset : LOG_LEVEL <> None /\ LOG_LEVEL <> Some "" \/
                 Logger.logLevel LOG_LEVEL = "info").
  { destruct LOG_LEVEL as [[| c s] |]; [right; reflexivity | left | right; reflexivity].
    split; discriminate. }
  unfold Logger.shouldLog, Logger.levels.
  destruct (String.eqb (Logger.logLevel LOG_LEVEL) "debug") eqn:Hdebug;
    [apply String.eqb_eq in Hdebug |
     destruct (String.eqb (Logger.logLevel LOG_LEVEL) "info") eqn:Hinfo;
       [apply String.eqb_eq in Hinfo |
        destruct (String.eqb (Logger.logLevel LOG_LEVEL) "warn") eqn:Hwarn;
          [apply String.eqb_eq in Hwarn |
           destruct (String.eqb (Logger.logLevel LOG_LEVEL) "error") eqn:Herror;
             [apply String.eqb_eq in Herror |]]]].
  1-4: left; cbn;
       match goal with H : Logger.logLevel _ = _ |- _ => rewrite H end;
       intuition (first [reflexivity | discriminate | congruence]).
  right. apply String.eqb_neq in Hdebug, Hinfo, Hwarn, Herror.
  destruct Hset as [[Hnone Hempty] | Hset]; [| contradiction].
  split; [cbn; intuition congruence |].
  split; [exact Hnone |]. split; [exact Hempty |].
  intros level. destruct level; reflexivity.
Qed.

Lemma redact_lookup (m : gmap string string) (key k : string) :
  toLowerCase key = key ->
  Logger.redact m key !! k =
  (fun v => if String.eqb k key && str_truthy v then "[REDACTED]" else v) <$> m !! k.
Proof.
  intros Hlower. unfold Logger.redact. cbv zeta. rewrite Hlower.
  destruct (String.eqb k key) eqn:Hk.
  - apply String.eqb_eq in Hk. subst k.
    destruct (m !! key) as [v |] eqn:Hv.
    + destruct (str_truthy v) eqn:Htruthy.
      * rewrite !lookup_insert_eq. cbn. rewrite !lookup_insert_eq, Htruthy. reflexivity.
      * rewrite Hv, Htruthy, Hv. cbn. rewrite Htruthy. reflexivity.
    + rewrite Hv, Hv. reflexivity.
  - apply String.eqb_neq in Hk.
    assert (Hsame : (fun v : string => if false && str_truthy v then "[REDACTED]" else v) <$>
                    m !! k = m !! k).
    { destruct (m !! k); reflexivity. }
    rewrite Hsame.
    destruct (m !! key) as [v |] eqn:Hv.
    + destruct (str_truthy v) eqn:Htruthy.
      * rewrite lookup_insert_eq. cbn.
        rewrite !lookup_insert_ne by congruence. reflexivity.
      * rewrite Hv, Htruthy. reflexivity.
    + rewrite Hv. reflexivity.
Qed.

(** X21: what the logger hides of the request headers. A header named
    authorization, cookie or x-api-key, in exactly this lower-case
    spelling and with a value that is not empty, has its value replaced by
    a fixed mark; every other header is logged as received, Authorization
    with a capital included. No header is added or removed, and hiding
    twice changes nothing more. *)
Theorem only_lower_case_secrets_are_hidden (headers : gmap string string) :
  (forall k,
     Logger.sanitizeHeaders headers !! k =
     (fun v => if list_includes Logger.sensitiveKeys k && str_truthy v
               then "[REDACTED]" else v) <$> headers !! k) /\
  Logger.sanitizeHeaders headers !! "Authorization" = headers !! "Authorization" /\
  Logger.sanitizeHeaders (Logger.sanitizeHeaders headers) = Logger.sanitizeHeaders headers.
Proof.
  assert (Hlookup : forall m k,
     Logger.sanitizeHeaders m !! k =
     (fun v => if list_includes Logger.sensitiveKeys k && str_truthy v
               then "[REDACTED]" else v) <$> m !! k).
  { intros m k. unfold Logger.sanitizeHeaders, Logger.sensitiveKeys, list_includes.
    cbn [fold_left existsb].
    rewrite !redact_lookup by reflexivity.
    destruct (m !! k) as [v |]; [| reflexivity]. cbn [fmap option_fmap option_map].
    f_equal.
    destruct (String.eqb k "authorization") eqn:Ha;
      destruct (String.eqb k "cookie") eqn:Hc;
      destruct (String.eqb k "x-api-key") eqn:Hx;
      destruct (str_truthy v) eqn:Hv; cbn; rewrite ?Hv; reflexivity. }
  split; [exact (Hlookup headers) |]. split.
  - rewrite Hlookup. destruct (headers !! "Authorization"); reflexivity.
  - apply map_eq. intros k. rewrite !Hlookup.
    destruct (headers !! k) as [v |]; [| reflexivity]. cbn [fmap option_fmap option_map].
    f_equal.
    destruct (list_includes Logger.sensitiveKeys k); [| reflexivity].
    destruct (str_truthy v) eqn:Hv; cbn; rewrite ?Hv; reflexivity.
Qed.
